(** * Speech boundary detection and trim-range computation

    A shallow embedding of [trim_deadspace] (src/partial.py): the framer, the
    RMS energy detector, the Whisper transcript refinement and the final
    assembly of the response dictionary, followed by the properties the
    specification states about them.

    Conventions of the embedding.

    - Python floats that carry times, energies and probabilities are exact
      rationals ([Q]); IEEE rounding is not modelled.  [Qmax] and [Qmin] pick
      their argument the way Python's [max] and [min] do (the first one on a
      tie).  The two places where the source truncates a float with [int()]
      are evaluated a second time in binary64 ([Module Binary64]).
    - [numpy]'s RMS needs a square root, so the per-frame energy is a
      parameter [rms] of the detector; concrete runs use [rms_flat], which is
      the exact RMS of a frame whose samples all have the same magnitude.
    - The response dictionary is the record [Response]; a key that is absent
      in Python is [None] here.  The dictionary is built once and updated in
      place, so every stage takes the response and gives back the updated one.
    - src/partial.py is a file in the middle of an edit: the refinement
      [try] stands at the level of the first one, and the final
      [return response] is indented under the refinement handler, as it is
      in src/snippet.py.  Two functions describe the endpoint.
      [trim_deadspace] is the state of [response] when control leaves the
      refinement statement of an opened wav file, whether or not a [return]
      is executed there.  [trim_deadspace_call] is the call as the statement
      is written: it returns the response where a [return] is executed, it
      returns [None] where the body of the refinement [try] completes, after
      which no statement returns, and it starts with the steps that fetch
      and convert the recording, which can fail before a wav file is
      opened. *)

From Stdlib Require Import ZArith QArith Qminmax Qround Lia Lqa.
From Stdlib Require Import Ascii String Floats.SpecFloat.
From stdpp Require Import base list sorting strings gmap.

Open Scope Q_scope.

(** ** Python numbers *)

Module Py.

(** [a < b], [a <= b] on floats, as booleans. *)
Definition ltb (a b : Q) : bool :=
  match a ?= b with Lt => true | _ => false end.

Definition leb (a b : Q) : bool :=
  match a ?= b with Gt => false | _ => true end.

(** [int(x)]: truncation towards zero. *)
Definition int (x : Q) : Z := Z.quot (Qnum x) (Z.pos (Qden x)).

(** [max(iterable)] and [min(iterable)] on a non-empty iterable whose first
    item is [x]: the running value is replaced only by a strictly greater
    (smaller) item. *)
Definition max_of (x : Q) (l : list Q) : Q := fold_left Qmax l x.
Definition min_of (x : Q) (l : list Q) : Q := fold_left Qmin l x.

(** [max(l)] and [min(l)]; [None] stands for the ValueError on an empty
    sequence. *)
Definition max_list (l : list Q) : option Q :=
  match l with
  | [] => None
  | x :: l' => Some (max_of x l')
  end.

Definition min_list (l : list Q) : option Q :=
  match l with
  | [] => None
  | x :: l' => Some (min_of x l')
  end.

(** [range(0, stop, step)] for a positive [step]: the loop that produces
    the offsets.  No iteration happens when [stop <= 0]; each one advances
    by at least one, so [stop] iterations are enough. *)
Fixpoint range_loop (fuel : nat) (offset stop step : Z) : list Z :=
  match fuel with
  | O => []
  | S fuel' =>
      if (offset <? stop)%Z
      then offset :: range_loop fuel' (offset + step)%Z stop step
      else []
  end.

Definition range (stop step : Z) : list Z :=
  range_loop (Z.to_nat stop) 0%Z stop step.

(** [l[lo:hi]] for [0 <= lo <= hi]: slicing never fails, it clips. *)
Definition slice {A} (l : list A) (lo hi : Z) : list A :=
  take (Z.to_nat (hi - lo)) (drop (Z.to_nat lo) l).

End Py.

(** ** Framer (src/partial.py, lines 264-266 and 344-354) *)

(** [if frame_ms not in (10, 20, 30): frame_ms = 30] *)
Definition coerce_frame_ms (frame_ms : Z) : Z :=
  if ((frame_ms =? 10) || (frame_ms =? 20) || (frame_ms =? 30))%Z
  then frame_ms else 30%Z.

(** [int(sample_rate * (frame_ms / 1000.0) * sample_width)] *)
Definition frame_byte_count (sample_rate frame_ms sample_width : Z) : Z :=
  Py.int (inject_Z sample_rate * (inject_Z frame_ms / 1000) * inject_Z sample_width).

Section Framer.

Variable audio : list Byte.byte.
Variables frame_byte_count sample_width sample_rate : Z.

Definition len_audio : Z := Z.of_nat (length audio).

(** [range(0, len(audio) - frame_byte_count + 1, frame_byte_count)] *)
Definition offsets : list Z :=
  Py.range (len_audio - frame_byte_count + 1) frame_byte_count.

(** [frame = audio[offset : offset + frame_byte_count]] *)
Definition frame_at (offset : Z) : list Byte.byte :=
  Py.slice audio offset (offset + frame_byte_count).

(** [timestamp = (offset / sample_width) / sample_rate] *)
Definition timestamp_at (offset : Z) : Q :=
  (inject_Z offset / inject_Z sample_width) / inject_Z sample_rate.

Definition frames : list (list Byte.byte) := map frame_at offsets.
Definition timestamps : list Q := map timestamp_at offsets.

End Framer.

(** ** The response dictionary (src/partial.py, lines 247-262) *)

(** A word of the transcript after time normalisation. *)
Record Word := mkWord {
  word_start : Q;
  word_end : Q;
  word_text : string
}.

(** An entry of [transcript_info["segments"]]. *)
Record EchoSegment := mkEcho {
  echo_start : Q;
  echo_end : Q;
  echo_text : string;
  echo_words : list Word;
  echo_firstWordStart : Q;
  echo_lastWordEnd : Q
}.

(** The value stored under [response["transcript"]]. *)
Record TranscriptInfo := mkInfo {
  info_start : option Q;
  info_end : option Q;
  info_segments : list EchoSegment;
  info_error : option string
}.

Record Response := mkResponse {
  speechDetected : bool;
  speechStart : Q;
  speechEnd : Q;
  speechDuration : Q;
  trimStart : Q;
  trimEnd : Q;
  duration : Q;
  confidence : Q;
  padding_pre : Q;
  padding_post : Q;
  analysisSource : string;
  transcript : option TranscriptInfo;
  error : option string
}.

(** [response | {"error": msg}] (the traceback text that one handler adds
    next to it is not modelled). *)
Definition with_error (r : Response) (msg : string) : Response :=
  mkResponse (speechDetected r) (speechStart r) (speechEnd r) (speechDuration r)
    (trimStart r) (trimEnd r) (duration r) (confidence r)
    (padding_pre r) (padding_post r) (analysisSource r) (transcript r) (Some msg).

(** [response["duration"] = d] *)
Definition set_duration (r : Response) (d : Q) : Response :=
  mkResponse (speechDetected r) (speechStart r) (speechEnd r) (speechDuration r)
    (trimStart r) (trimEnd r) d (confidence r)
    (padding_pre r) (padding_post r) (analysisSource r) (transcript r) (error r).

(** [response["speechDetected"] = b] *)
Definition set_speechDetected (r : Response) (b : bool) : Response :=
  mkResponse b (speechStart r) (speechEnd r) (speechDuration r)
    (trimStart r) (trimEnd r) (duration r) (confidence r)
    (padding_pre r) (padding_post r) (analysisSource r) (transcript r) (error r).

(** [response["transcript"] = t] *)
Definition set_transcript (r : Response) (t : TranscriptInfo) : Response :=
  mkResponse (speechDetected r) (speechStart r) (speechEnd r) (speechDuration r)
    (trimStart r) (trimEnd r) (duration r) (confidence r)
    (padding_pre r) (padding_post r) (analysisSource r) (Some t) (error r).

(** The request body, [TrimDeadspaceRequest] (src/partial.py, lines 29-37).
    [filename], [decryptionKey] and [iv] are read by the download and the
    decryption (lines 283-311) and [language] by the call of Whisper
    (line 488); what these steps give is a parameter of the endpoint
    ([Prepared] and [Transcription] below).  [aggressiveness] is accepted
    and never read. *)
Record TrimDeadspaceRequest := mkRequest {
  filename : string;
  language : string;
  prePadding : Q;
  postPadding : Q;
  aggressiveness : Z;
  frameMs : Z;
  decryptionKey : option string;
  iv : option string
}.

Definition initial_response (request : TrimDeadspaceRequest) : Response :=
  {| speechDetected := false;
     speechStart := 0;
     speechEnd := 0;
     speechDuration := 0;
     trimStart := 0;
     trimEnd := 0;
     duration := 0;
     confidence := 0;
     padding_pre := Qmax 0 (prePadding request);
     padding_post := Qmax 0 (postPadding request);
     analysisSource := "transcript";
     transcript := None;
     error := None |}.

(** How a stage hands control on: it falls through to the next statement,
    it executes a [return], or it raises.  The response travels with each. *)
Inductive Flow (A : Type) : Type :=
| Next (a : A) (r : Response)
| Return (r : Response)
| Raise (msg : string) (r : Response).
Arguments Next {A} a r.
Arguments Return {A} r.
Arguments Raise {A} msg r.

(** ** Energy detector (src/partial.py, lines 332-442) *)

(** The decoded wav file as Python's [wave] module presents it: the header
    fields and the bytes of the data chunk. *)
Record Wav := mkWav {
  wav_framerate : Z;
  wav_sampwidth : Z;
  wav_nchannels : Z;
  wav_chunk : list Byte.byte
}.

(** [wf.getnframes()]: the data chunk counted in whole sample frames. *)
Definition getnframes (wf : Wav) : Z :=
  (Z.of_nat (length (wav_chunk wf)) / (wav_sampwidth wf * wav_nchannels wf))%Z.

(** [wf.readframes(n)] on a freshly opened file. *)
Definition readframes (wf : Wav) (n : Z) : list Byte.byte :=
  take (Z.to_nat (n * (wav_sampwidth wf * wav_nchannels wf))) (wav_chunk wf).

(** [l[i]] with Python's negative indices; [None] stands for IndexError. *)
Definition py_index {A} (l : list A) (i : Z) : option A :=
  if (0 <=? i)%Z then l !! Z.to_nat i
  else if (0 <=? Z.of_nat (length l) + i)%Z then l !! Z.to_nat (Z.of_nat (length l) + i)
  else None.

(** Insertion into a sorted list, and the sort [numpy.percentile] starts with. *)
Fixpoint insert_sorted (x : Q) (l : list Q) : list Q :=
  match l with
  | [] => [x]
  | y :: l' => if Py.leb x y then x :: l else y :: insert_sorted x l'
  end.

Definition sort_Q (l : list Q) : list Q := foldr insert_sorted [] l.

(** [numpy.percentile(a, q)] with its default linear interpolation: the
    value at the fractional rank [(len(a) - 1) * q / 100] of the sorted data. *)
Definition percentile (a : list Q) (q : Q) : Q :=
  let sorted := sort_Q a in
  let rank := inject_Z (Z.of_nat (length a) - 1) * q / 100 in
  let lo := Z.to_nat (Qfloor rank) in
  let hi := Nat.min (S lo) (length a - 1) in
  let x_lo := nth lo sorted 0 in
  let x_hi := nth hi sorted 0 in
  x_lo + (x_hi - x_lo) * (rank - inject_Z (Qfloor rank)).

(** The loop over [enumerate(active_flags)] that collects the runs of active
    frames: [idx] is the index of the flag at the head, [start_idx] the start
    of the run that is open.  A run is closed by the first inactive flag, and
    the run still open at the end is closed at [len(active_flags)]. *)
Fixpoint cluster_loop (flags : list bool) (idx : nat) (start_idx : option nat)
  : list (nat * nat) :=
  match flags with
  | [] =>
      match start_idx with
      | Some s => [(s, idx)]
      | None => []
      end
  | flag :: rest =>
      match flag, start_idx with
      | true, None => cluster_loop rest (S idx) (Some idx)
      | false, Some s => (s, idx) :: cluster_loop rest (S idx) None
      | _, _ => cluster_loop rest (S idx) start_idx
      end
  end.

(** [max(2, int(0.12 / frame_duration_sec))] *)
Definition min_active_frames (frame_duration_sec : Q) : Z :=
  Z.max 2 (Py.int (0.12 / frame_duration_sec)).

(** The filter [(e - s) >= min_active_frames]. *)
Definition long_enough (min_active : Z) (c : nat * nat) : bool :=
  (min_active <=? Z.of_nat (snd c) - Z.of_nat (fst c))%Z.

Section EnergyDetector.

(** [float(np.sqrt(np.mean(samples ** 2)))] of a non-empty frame. *)
Variable rms : list Byte.byte -> Q.

Definition energy_of (frame : list Byte.byte) : Q :=
  match frame with
  | [] => 0
  | _ => rms frame
  end.

Definition energies (frames : list (list Byte.byte)) : list Q :=
  map energy_of frames.

(** [max(noise_floor * 1.5, signal_peak * 0.2, 50.0)] *)
Definition threshold (energies_arr : list Q) : Q :=
  let noise_floor := percentile energies_arr 60 in
  let signal_peak := percentile energies_arr 95 in
  Qmax (Qmax (noise_floor * 1.5) (signal_peak * 0.2)) 50.

(** [active_flags = energies_arr >= threshold] *)
Definition active_flags (energies_arr : list Q) : list bool :=
  map (fun e => Py.leb (threshold energies_arr) e) energies_arr.

Definition raw_clusters (energies_arr : list Q) : list (nat * nat) :=
  cluster_loop (active_flags energies_arr) 0 None.

Definition clusters (energies_arr : list Q) (frame_duration_sec : Q)
  : list (nat * nat) :=
  filter (fun c => long_enough (min_active_frames frame_duration_sec) c = true)
    (raw_clusters energies_arr).

End EnergyDetector.

(** The first [try] block up to [response.update] (lines 332-442).  It hands
    [silence_end_time] on to the refinement.  The logging that follows only
    prints. *)
Definition energy_stage (rms : list Byte.byte -> Q) (response : Response)
    (frame_ms : Z) (wf : Wav) : Flow Q :=
  let sample_rate := wav_framerate wf in
  let sample_width := wav_sampwidth wf in
  let channels := wav_nchannels wf in
  if negb ((sample_rate =? 16000) && (sample_width =? 2) && (channels =? 1))%Z
  then Raise "Expected 16kHz mono PCM wav." response
  else
  let audio := readframes wf (getnframes wf) in
  let total_frames := getnframes wf in
  let frame_byte_count := frame_byte_count sample_rate frame_ms sample_width in
  if (frame_byte_count =? 0)%Z
  then Raise "Frame configuration produced zero-length frames." response
  else
  let frames := frames audio frame_byte_count in
  let timestamps := timestamps audio frame_byte_count sample_width sample_rate in
  let total_duration :=
    if (sample_rate =? 0)%Z then 0 else inject_Z total_frames / inject_Z sample_rate in
  let response := set_duration response total_duration in
  match frames with
  | [] => Return (with_error response "Audio too short for analysis.")
  | _ :: _ =>
  let frame_duration_sec := inject_Z frame_ms / 1000 in
  let energies_arr := energies rms frames in
  match energies_arr with
  | [] => Return (with_error response "Unable to analyse audio energy.")
  | _ :: _ =>
  let clusters := clusters energies_arr frame_duration_sec in
  match clusters, last clusters with
  | (silence_end_idx, _) :: _, Some (cluster_start_idx, cluster_end_idx) =>
      let n_flags := length (active_flags energies_arr) in
      let last_frame_idx :=
        (Z.min (Z.of_nat cluster_end_idx) (Z.of_nat (length timestamps)) - 1)%Z in
      match py_index timestamps (Z.of_nat silence_end_idx),
            py_index timestamps (Z.of_nat cluster_start_idx),
            py_index timestamps last_frame_idx with
      | Some silence_end_time, Some cluster_start_time, Some last_frame_time =>
          let cluster_end_time :=
            Qmin total_duration (last_frame_time + frame_duration_sec) in
          let speech_duration := Qmax 0 (cluster_end_time - cluster_start_time) in
          let trim_start := Qmax 0 (silence_end_time - padding_pre response) in
          let trim_end :=
            Qmin total_duration (cluster_end_time + padding_post response) in
          Next silence_end_time
            {| speechDetected := true;
               speechStart := silence_end_time;
               speechEnd := cluster_end_time;
               speechDuration := speech_duration;
               trimStart := trim_start;
               trimEnd := trim_end;
               duration := duration response;
               confidence :=
                 inject_Z (Z.of_nat cluster_end_idx - Z.of_nat cluster_start_idx)
                 / inject_Z (Z.max 1 (Z.of_nat n_flags));
               padding_pre := padding_pre response;
               padding_post := padding_post response;
               analysisSource := analysisSource response;
               transcript := transcript response;
               error := error response |}
      | _, _, _ => Raise "list index out of range" response
      end
  | _, _ => Return (with_error response "Unable to detect speech via energy analysis.")
  end
  end
  end.

(** ** Python strings

    Text is a byte string; the whitespace of [str.strip] and [str.split] and
    the letters of [str.lower] are the ASCII ones, other bytes are kept. *)

Module PyStr.

Definition is_space (c : ascii) : bool :=
  let n := nat_of_ascii c in
  ((9 <=? n) && (n <=? 13) || (28 <=? n) && (n <=? 32))%nat.

Definition lower_char (c : ascii) : ascii :=
  let n := nat_of_ascii c in
  if ((65 <=? n) && (n <=? 90))%nat then ascii_of_nat (n + 32) else c.

Definition is_empty (s : string) : bool :=
  match s with EmptyString => true | String _ _ => false end.

Fixpoint lstrip (s : string) : string :=
  match s with
  | EmptyString => EmptyString
  | String c s' => if is_space c then lstrip s' else s
  end.

Fixpoint rstrip (s : string) : string :=
  match s with
  | EmptyString => EmptyString
  | String c s' =>
      let r := rstrip s' in
      if is_space c && is_empty r then EmptyString else String c r
  end.

(** [s.strip()] *)
Definition strip (s : string) : string := rstrip (lstrip s).

(** [s.lower()] *)
Fixpoint lower (s : string) : string :=
  match s with
  | EmptyString => EmptyString
  | String c s' => String (lower_char c) (lower s')
  end.

(** [s.split()]: the maximal runs of non-blank characters; [word] is the
    run being read. *)
Fixpoint split_loop (s : string) (word : string) : list string :=
  match s with
  | EmptyString => if is_empty word then [] else [word]
  | String c s' =>
      if is_space c
      then (if is_empty word then split_loop s' EmptyString
            else word :: split_loop s' EmptyString)
      else split_loop s' (String.append word (String c EmptyString))
  end.

Definition split (s : string) : list string := split_loop s EmptyString.

(** [sep.join(l)] *)
Definition join (sep : string) (l : list string) : string := String.concat sep l.

End PyStr.

(** ** Transcript refinement (src/partial.py, lines 475-671) *)

(** What Whisper returns for a word and for a segment.  A key that the
    dictionary lacks, or whose value is falsy where the source writes
    [x or default], is [None]. *)
Record RawWord := mkRawWord {
  raw_word_start : option Q;
  raw_word_end : option Q;
  raw_word_word : option string
}.

Record RawSegment := mkRawSegment {
  raw_text : option string;
  raw_start : option Q;
  raw_end : option Q;
  raw_no_speech_prob : option Q;
  raw_words : list RawWord
}.

(** [whisper.load_model] and [transcribe] either raise or give the segments. *)
Inductive Transcription : Type :=
| WhisperRaises (msg : string)
| WhisperSegments (segments : list RawSegment).

(** An entry of [filtered_segments]. *)
Record FilteredSegment := mkSegment {
  seg_start : Q;
  seg_end : Q;
  seg_text : string;
  seg_no_speech_prob : Q;
  seg_words : list Word;
  firstWordStart : Q;
  lastWordEnd : Q
}.

(** [max(0.0, float(value))] *)
Definition _adjust_time (value : Q) : Q := Qmax 0 value.

(** The body of the loop over [seg.get("words")]: a word with blank text is
    skipped. *)
Definition adjust_word (start end_ : Q) (word : RawWord) : option Word :=
  let raw_word_start := default start (raw_word_start word) in
  let raw_word_end := default end_ (raw_word_end word) in
  let word_start := _adjust_time raw_word_start in
  let word_end := Qmax word_start raw_word_end in
  let word_text := PyStr.strip (default EmptyString (raw_word_word word)) in
  if PyStr.is_empty word_text then None
  else Some (mkWord word_start word_end word_text).

(** The body of the loop over [segments]: [None] is a [continue]. *)
Definition filter_segment (seg : RawSegment) : option FilteredSegment :=
  let text := PyStr.strip (default EmptyString (raw_text seg)) in
  let start := _adjust_time (default 0 (raw_start seg)) in
  let raw_end := default 0 (raw_end seg) in
  let end_ := Qmax start raw_end in
  let no_speech_prob := default 1 (raw_no_speech_prob seg) in
  let duration_seg := Qmax 0 (end_ - start) in
  let words := omap (adjust_word start end_) (raw_words seg) in
  let words :=
    match words with
    | [] => if Py.leb duration_seg 0 then [] else [mkWord start end_ text]
    | _ :: _ => words
    end in
  match words with
  | [] => None
  | w :: ws =>
      if Py.ltb duration_seg 0.05 then None
      else if Py.leb 0.9 no_speech_prob then None
      else Some {| seg_start := start;
                   seg_end := end_;
                   seg_text := text;
                   seg_no_speech_prob := no_speech_prob;
                   seg_words := words;
                   firstWordStart := word_start w;
                   lastWordEnd := Py.max_of (word_end w) (map word_end ws) |}
  end.

Definition filter_segments (segments : list RawSegment) : list FilteredSegment :=
  omap filter_segment segments.

(** The segments that overlap the energy window widened by 0.3 s, or all of
    them when none does. *)
Definition window_segments (window_start window_end : Q)
    (filtered_segments : list FilteredSegment) : list FilteredSegment :=
  let usable_segments :=
    filter (fun seg =>
              Py.ltb (window_start - 0.3) (lastWordEnd seg)
              && Py.ltb (firstWordStart seg) (window_end + 0.3) = true)
           filtered_segments in
  match usable_segments with
  | [] => filtered_segments
  | _ :: _ => usable_segments
  end.

(** [" ".join(text.lower().split())] *)
Definition normalized (text : string) : string :=
  PyStr.join " " (PyStr.split (PyStr.lower text)).

(** One iteration of the restart loop on the pair [(seen_texts,
    restart_cutoff)], for a segment with normalized text [text] whose first
    word starts at [start_time]. *)
Definition restart_step (state : gmap string Q * Q) (segment : string * Q)
  : gmap string Q * Q :=
  let '(seen_texts, restart_cutoff) := state in
  let '(text, start_time) := segment in
  match seen_texts !! text with
  | Some seen =>
      if Py.ltb 0.4 (start_time - seen)
      then (seen_texts, Qmax restart_cutoff start_time)
      else (<[text := start_time]> seen_texts, restart_cutoff)
  | None => (<[text := start_time]> seen_texts, restart_cutoff)
  end.

(** The entries [(text, start)] of [normalized_segments] the loop reads. *)
Definition normalized_segments (filtered_segments : list FilteredSegment)
  : list (string * Q) :=
  map (fun seg => (normalized (seg_text seg), firstWordStart seg)) filtered_segments.

Definition restart_scan (segments : list (string * Q)) : gmap string Q * Q :=
  fold_left restart_step segments (∅, 0).

Definition restart_cutoff (filtered_segments : list FilteredSegment) : Q :=
  snd (restart_scan (normalized_segments filtered_segments)).

(** [if restart_cutoff > 0.0:] the usable segments and [silence_end_time]
    after the cut. *)
Definition apply_restart (restart_cutoff : Q)
    (usable_segments : list FilteredSegment) (silence_end_time : Q)
  : list FilteredSegment * Q :=
  if Py.ltb 0 restart_cutoff
  then (filter (fun seg => Py.leb restart_cutoff (firstWordStart seg) = true)
          usable_segments,
        Qmax silence_end_time restart_cutoff)
  else (usable_segments, silence_end_time).

(** The loop [for seg in reversed(cluster_source[:-1])]: [pending] is what
    is left of the reversed list; [break] leaves the cluster as it is. *)
Fixpoint absorb (pending cluster : list FilteredSegment) : list FilteredSegment :=
  match pending with
  | [] => cluster
  | seg :: pending' =>
      match cluster with
      | first :: _ =>
          if Py.leb (seg_start first - seg_end seg) 1.5
          then absorb pending' (seg :: cluster)
          else cluster
      | [] => cluster
      end
  end.

(** [cluster] for a source whose last element is [last_seg] and whose other
    elements are [init]. *)
Definition tail_cluster (init : list FilteredSegment) (last_seg : FilteredSegment)
  : list FilteredSegment :=
  absorb (reverse init) [last_seg].

(** [sum(1.0 - seg["no_speech_prob"] for seg in cluster) / len(cluster)] *)
Definition mean_speech_prob (cluster : list FilteredSegment) : Q :=
  fold_left Qplus (map (fun seg => 1 - seg_no_speech_prob seg) cluster) 0
  / inject_Z (Z.of_nat (length cluster)).

Definition echo_segment (seg : FilteredSegment) : EchoSegment :=
  {| echo_start := firstWordStart seg;
     echo_end := lastWordEnd seg;
     echo_text := seg_text seg;
     echo_words := seg_words seg;
     echo_firstWordStart := firstWordStart seg;
     echo_lastWordEnd := lastWordEnd seg |}.

(** The fields written when the transcript window is accepted
    (lines 617-628). *)
Definition accept_transcript (response : Response)
    (overall_first_word silence_end_time cluster_end overall_head_trim
       transcript_trim_end : Q)
    (cluster : list FilteredSegment) : Response :=
  let speech_start := Qmax overall_first_word silence_end_time in
  {| speechDetected := speechDetected response;
     speechStart := speech_start;
     speechEnd := cluster_end;
     speechDuration := Qmax 0 (cluster_end - speech_start);
     trimStart := overall_head_trim;
     trimEnd := transcript_trim_end;
     duration := duration response;
     confidence := Qmax (confidence response) (mean_speech_prob cluster);
     padding_pre := padding_pre response;
     padding_post := padding_post response;
     analysisSource := "transcript";
     transcript := transcript response;
     error := error response |}.

(** [transcript_info] of an accepted window (lines 630-644). *)
Definition transcript_info_of (overall_first_word cluster_end : Q)
    (cluster : list FilteredSegment) : TranscriptInfo :=
  {| info_start := Some overall_first_word;
     info_end := Some cluster_end;
     info_segments := map echo_segment cluster;
     info_error := None |}.

(** The placeholder stored when no window was accepted (lines 660-664). *)
Definition empty_transcript_info : TranscriptInfo :=
  {| info_start := None; info_end := None; info_segments := []; info_error := None |}.

(** Lines 548-644 for a non-empty [filtered_segments]: the response after the
    acceptance test, and [transcript_info].  [min()] raises on an empty
    sequence, which is what is left when the restart cut removes every usable
    segment. *)
Definition propose_window (response : Response) (silence_end_time : Q)
    (filtered_segments : list FilteredSegment)
  : Flow (option TranscriptInfo) :=
  let total_duration := duration response in
  let usable_segments :=
    window_segments (speechStart response) (speechEnd response) filtered_segments in
  let '(usable_segments, silence_end_time) :=
    apply_restart (restart_cutoff filtered_segments) usable_segments silence_end_time in
  match Py.min_list (map firstWordStart usable_segments) with
  | None => Raise "min() arg is an empty sequence" response
  | Some first_word =>
      let overall_first_word := Qmax silence_end_time first_word in
      let overall_head_trim := Qmax 0 (overall_first_word - padding_pre response) in
      match last usable_segments with
      | None => Raise "list index out of range" response
      | Some last_seg =>
          let cluster :=
            tail_cluster (take (length usable_segments - 1) usable_segments) last_seg in
          match Py.max_list (map lastWordEnd cluster) with
          | None => Raise "max() arg is an empty sequence" response
          | Some cluster_end =>
              let transcript_trim_end :=
                Qmin total_duration (cluster_end + padding_post response) in
              if Py.ltb overall_head_trim transcript_trim_end
              then Next (Some (transcript_info_of overall_first_word cluster_end cluster))
                     (accept_transcript response overall_first_word silence_end_time
                        cluster_end overall_head_trim transcript_trim_end cluster)
              else Next None response
          end
      end
  end.

(** The body of the refinement [try] (lines 476-664). *)
Definition refine_body (response : Response) (silence_end_time : Q)
    (whisper : Transcription) : Flow unit :=
  match whisper with
  | WhisperRaises msg => Raise msg response
  | WhisperSegments segments =>
      let filtered_segments := filter_segments segments in
      match filtered_segments with
      | [] => Return (with_error response "Transcript contained no spoken words.")
      | _ :: _ =>
          match propose_window response silence_end_time filtered_segments with
          | Raise msg r => Raise msg r
          | Return r => Return r
          | Next transcript_info response =>
              if Py.leb (speechEnd response) (speechStart response)
              then Return (with_error (set_speechDetected response false)
                             "Unable to identify speech boundaries from transcript.")
              else
                let response := set_speechDetected response true in
                Next tt (set_transcript response
                           (default empty_transcript_info transcript_info))
          end
      end
  end.

(** The refinement [try] with its handler (lines 665-671 and 700). *)
Definition refinement (response : Response) (silence_end_time : Q)
    (whisper : Transcription) : Response :=
  match refine_body response silence_end_time whisper with
  | Next _ r => r
  | Return r => r
  | Raise msg r =>
      set_transcript r
        {| info_start := None; info_end := None; info_segments := [];
           info_error := Some msg |}
  end.

(** ** The endpoint *)

(** The response when control leaves the refinement statement. *)
Definition trim_deadspace (rms : list Byte.byte -> Q)
    (request : TrimDeadspaceRequest) (wf : Wav) (whisper : Transcription)
  : Response :=
  let response := initial_response request in
  let frame_ms := coerce_frame_ms (frameMs request) in
  match energy_stage rms response frame_ms wf with
  | Return r => r
  | Raise msg r => with_error r msg
  | Next silence_end_time r => refinement r silence_end_time whisper
  end.

(** What happens before the analysis.  The imports, the lookups in
    [os.environ] and the creation of the S3 client (lines 234-274) stand
    before the outer [try]: an exception there leaves the function.  The
    download, the decryption, the conversion by ffmpeg and [wave.open]
    (lines 279-332) stand inside it: each of them can raise; otherwise they
    leave an opened wav file. *)
Inductive Prepared : Type :=
| SetupRaises (msg : string)
| PrepareRaises (msg : string)
| Opened (wf : Wav).

(** How a call ends: it returns a response, it returns [None] because no
    [return] is executed, or an exception leaves the function. *)
Inductive Outcome : Type :=
| Returns (response : Response)
| ReturnsNone
| Raises (msg : string).

(** The refinement statement as it is written (lines 475-700, and
    src/snippet.py): the two [return]s of the body and the one at the end of
    the handler give the response; when the body completes, no statement
    returns. *)
Definition refinement_call (response : Response) (silence_end_time : Q)
    (whisper : Transcription) : Outcome :=
  match refine_body response silence_end_time whisper with
  | Next _ _ => ReturnsNone
  | Return r => Returns r
  | Raise msg r =>
      Returns (set_transcript r
                 {| info_start := None; info_end := None; info_segments := [];
                    info_error := Some msg |})
  end.

(** A call of the endpoint.  An exception of the steps inside the outer
    [try], like one of the energy stage, reaches the outer handler
    (lines 702-708), which returns the response with the message.  The
    clean-up under [finally] changes no outcome, as long as it does not
    raise itself. *)
Definition trim_deadspace_call (rms : list Byte.byte -> Q)
    (request : TrimDeadspaceRequest) (prepared : Prepared) (whisper : Transcription)
  : Outcome :=
  let response := initial_response request in
  let frame_ms := coerce_frame_ms (frameMs request) in
  match prepared with
  | SetupRaises msg => Raises msg
  | PrepareRaises msg => Returns (with_error response msg)
  | Opened wf =>
      match energy_stage rms response frame_ms wf with
      | Return r => Returns r
      | Raise msg r => Returns (with_error r msg)
      | Next silence_end_time r => refinement_call r silence_end_time whisper
      end
  end.

(** ** A concrete energy function for runs of the model *)

(** One little-endian signed 16-bit sample. *)
Definition int16_le (lo hi : Byte.byte) : Z :=
  let u := (Z.of_N (Byte.to_N lo) + 256 * Z.of_N (Byte.to_N hi))%Z in
  if (u <? 32768)%Z then u else (u - 65536)%Z.

(** [np.frombuffer(frame, dtype=np.int16)]; a byte left over is not a sample. *)
Fixpoint samples_of (frame : list Byte.byte) : list Z :=
  match frame with
  | lo :: hi :: rest => int16_le lo hi :: samples_of rest
  | _ => []
  end.

(** [np.mean(samples ** 2)] *)
Definition mean_square (samples : list Z) : Q :=
  inject_Z (fold_left Z.add (map (fun s => s * s)%Z samples) 0%Z)
  / inject_Z (Z.of_nat (length samples)).

(** [e] is the RMS of [frame]. *)
Definition is_rms (frame : list Byte.byte) (e : Q) : Prop :=
  0 <= e /\ e * e == mean_square (samples_of frame).

(** A frame whose samples all have magnitude [a]. *)
Definition flat (a : Z) (samples : list Z) : Prop :=
  Forall (fun s => Z.abs s = a) samples.

(** The magnitude of the first sample: the RMS of a flat frame. *)
Definition rms_flat (frame : list Byte.byte) : Q :=
  match samples_of frame with
  | [] => 0
  | s :: _ => inject_Z (Z.abs s)
  end.

(** ** The two [int()] truncations in binary64

    [int(sample_rate * (frame_ms / 1000.0) * sample_width)] and
    [int(0.12 / frame_duration_sec)] truncate the result of rounded float
    operations; they are recomputed here with IEEE 754 double precision
    arithmetic to compare with the exact values used above. *)

Module Binary64.

Definition prec : Z := 53.
Definition emax : Z := 1024.

(** [float(n)] for an integer. *)
Definition of_Z (n : Z) : spec_float :=
  match n with
  | Z0 => S754_zero false
  | Zpos p => binary_round prec emax false p 0
  | Zneg p => binary_round prec emax true p 0
  end.

Definition div : spec_float -> spec_float -> spec_float := SFdiv prec emax.
Definition mul : spec_float -> spec_float -> spec_float := SFmul prec emax.

(** [int(x)] of a finite float. *)
Definition int (x : spec_float) : option Z :=
  match x with
  | S754_zero _ => Some 0%Z
  | S754_finite s m e =>
      let magnitude :=
        match e with
        | Z0 => Z.pos m
        | Zpos p => (Z.pos m * 2 ^ Z.pos p)%Z
        | Zneg p => (Z.pos m / 2 ^ Z.pos p)%Z
        end in
      Some (if s then (- magnitude)%Z else magnitude)
  | _ => None
  end.

(** The literal [0.12] and the quotient [frame_ms / 1000.0]. *)
Definition lit_0_12 : spec_float := div (of_Z 12) (of_Z 100).
Definition frame_duration_sec (frame_ms : Z) : spec_float :=
  div (of_Z frame_ms) (of_Z 1000).

Definition frame_byte_count (sample_rate frame_ms sample_width : Z) : option Z :=
  int (mul (mul (of_Z sample_rate) (frame_duration_sec frame_ms)) (of_Z sample_width)).

Definition min_active_frames (frame_ms : Z) : option Z :=
  option_map (Z.max 2) (int (div lit_0_12 (frame_duration_sec frame_ms))).

End Binary64.

(** ** The restart rule in the words of the specification

    "If a normalized text was seen before at an earlier start time and the
    new occurrence starts more than 0.4 s after the first occurrence, record
    restartCutoff = max(current cutoff, this occurrence's start)": the map
    keeps the start of the first occurrence of every text. *)
Definition restart_step_spec (state : gmap string Q * Q) (segment : string * Q)
  : gmap string Q * Q :=
  let '(first_seen, restart_cutoff) := state in
  let '(text, start_time) := segment in
  match first_seen !! text with
  | Some first =>
      (first_seen,
       if Py.ltb 0.4 (start_time - first) then Qmax restart_cutoff start_time
       else restart_cutoff)
  | None => (<[text := start_time]> first_seen, restart_cutoff)
  end.

Definition restart_cutoff_spec (filtered_segments : list FilteredSegment) : Q :=
  snd (fold_left restart_step_spec (normalized_segments filtered_segments) (∅, 0)).

(** ** Vocabulary of the properties *)

(** [[s, e)] is a maximal run of active flags: every flag in it is set, the
    flag before it (if any) and the flag after it (if any) are not. *)
Definition is_run (flags : list bool) (s e : nat) : Prop :=
  (s < e <= length flags)%nat
  /\ (forall i : nat, (s <= i < e)%nat -> flags !! i = Some true)
  /\ (forall p : nat, s = S p -> flags !! p = Some false)
  /\ flags !! e ≠ Some true.

(** [prev] is followed by [next] after a pause of at most 1.5 s, measured
    from the end of [prev] to the start of [next]. *)
Definition close_enough (prev next : FilteredSegment) : Prop :=
  seg_start next - seg_end prev <= 1.5.

(** ** A recording and transcripts for runs of the model *)

(** A 30 ms frame (480 samples) of the constant sample 1000, and a silent one. *)
Definition loud_frame : list Byte.byte := concat (replicate 480 [Byte.xe8; Byte.x03]).
Definition quiet_frame : list Byte.byte := replicate 960 Byte.x00.

(** 0.9 s of audio: 10 silent frames, 4 loud, 6 silent, 4 loud, 6 silent. *)
Definition demo_chunk : list Byte.byte :=
  concat (replicate 10 quiet_frame ++ replicate 4 loud_frame
          ++ replicate 6 quiet_frame ++ replicate 4 loud_frame
          ++ replicate 6 quiet_frame).

Definition demo_wav : Wav :=
  {| wav_framerate := 16000; wav_sampwidth := 2; wav_nchannels := 1;
     wav_chunk := demo_chunk |}.

(** The energies of sixty frames: 2 silent ones, a burst of 11 frames of
    energy 1000, 20 silent ones, a burst of 12 frames, 15 silent ones. *)
Definition burst_energies : list Q :=
  replicate 2 0 ++ replicate 11 1000 ++ replicate 20 0 ++ replicate 12 1000
  ++ replicate 15 0.

(** The request with the defaults of [TrimDeadspaceRequest]. *)
Definition demo_request : TrimDeadspaceRequest :=
  {| filename := "recording.bin"; language := "auto";
     prePadding := 0.08; postPadding := 0.6; aggressiveness := 3; frameMs := 30;
     decryptionKey := None; iv := None |}.

(** A Whisper segment without word timestamps. *)
Definition plain_segment (text : string) (start end_ no_speech_prob : Q) : RawSegment :=
  {| raw_text := Some text; raw_start := Some start; raw_end := Some end_;
     raw_no_speech_prob := Some no_speech_prob; raw_words := [] |}.

(** A filtered segment with one pseudo-word, as the filter builds it for a
    Whisper segment without words. *)
Definition spoken (text : string) (start end_ : Q) : FilteredSegment :=
  {| seg_start := start; seg_end := end_; seg_text := text;
     seg_no_speech_prob := 0.1;
     seg_words := [mkWord start end_ text];
     firstWordStart := start; lastWordEnd := end_ |}.

(** Three segments separated by pauses of 2 s and 1.2 s, and a variant of the
    last one after a pause of 1.6 s. *)
Definition seg_one : FilteredSegment := spoken "one" 5.0 6.0.
Definition seg_two : FilteredSegment := spoken "two" 8.0 10.0.
Definition seg_three : FilteredSegment := spoken "three" 11.2 12.0.
Definition seg_three_late : FilteredSegment := spoken "three" 11.6 12.0.

(** The same sentence attempted three times, 0.3 s apart, and the retake of
    the specification: the same sentence at 0.0 s and at 2.0 s. *)
Definition stutter_segments : list FilteredSegment :=
  [spoken "Hello there" 0.0 0.2; spoken "hello  there" 0.3 0.5;
   spoken "HELLO THERE" 0.6 0.8].

Definition retake_segments : list FilteredSegment :=
  [spoken "hello there" 0.0 1.0; spoken "Hello there" 2.0 3.0].

(** 1.8 s of audio with one burst of speech: 10 silent frames, 4 loud,
    46 silent. *)
Definition burst_wav : Wav :=
  {| wav_framerate := 16000; wav_sampwidth := 2; wav_nchannels := 1;
     wav_chunk :=
       concat (replicate 10 quiet_frame ++ replicate 4 loud_frame
               ++ replicate 46 quiet_frame) |}.

(** ** Segment timing of [transcribe_audio] (src/partial.py, lines 137-179)

    The loop that rewrites the timing of Whisper's segments before they are
    returned.  Whisper's dictionaries are [RawSegment] and [RawWord] as
    above; [_adjust_time] is defined a second time inside [transcribe_audio]
    with the same body. *)

(** An entry of [adjusted_segments]: [segment.copy()] with the five keys the
    loop assigns.  Every other key is the one of the copy. *)
Record AdjustedSegment := mkAdjusted {
  adj_copy : RawSegment;
  adj_start : Q;
  adj_end : Q;
  adj_words : list Word;
  adj_firstWordStart : Q;
  adj_lastWordEnd : Q
}.

(** The body of the loop over [segment.get("words", []) or []]: a word with
    blank text is skipped; a word without a start or an end takes the one of
    the segment (0.0 when the segment has none). *)
Definition adjusted_word (segment : RawSegment) (word : RawWord) : option Word :=
  let text := PyStr.strip (default EmptyString (raw_word_word word)) in
  if PyStr.is_empty text then None
  else
    let raw_start := default (default 0 (raw_start segment)) (raw_word_start word) in
    let raw_end := default (default 0 (raw_end segment)) (raw_word_end word) in
    let word_start := _adjust_time raw_start in
    let word_end := Qmax word_start raw_end in
    Some (mkWord word_start word_end text).

(** The body of the loop over [result.get("segments", [])]. *)
Definition adjusted_segment (segment : RawSegment) : AdjustedSegment :=
  let adjusted_words := omap (adjusted_word segment) (raw_words segment) in
  let '(first_word_start, last_word_end) :=
    match adjusted_words, last adjusted_words with
    | first :: _, Some last_word => (word_start first, word_end last_word)
    | _, _ =>
        let first_word_start := _adjust_time (default 0 (raw_start segment)) in
        let raw_segment_end := default (first_word_start + 0.5) (raw_end segment) in
        (first_word_start, Qmax first_word_start raw_segment_end)
    end in
  {| adj_copy := segment;
     adj_start := first_word_start;
     adj_end := last_word_end;
     adj_words := adjusted_words;
     adj_firstWordStart := first_word_start;
     adj_lastWordEnd := last_word_end |}.

Definition adjusted_segments (segments : list RawSegment) : list AdjustedSegment :=
  map adjusted_segment segments.

(** A Whisper segment with word timestamps, for runs of the loop. *)
Definition worded_segment (start end_ : Q) (words : list (string * Q * Q)) : RawSegment :=
  {| raw_text := None; raw_start := Some start; raw_end := Some end_;
     raw_no_speech_prob := Some 0.1;
     raw_words := map (fun w => mkRawWord (Some (snd (fst w))) (Some (snd w))
                                  (Some (fst (fst w)))) words |}.

(** ** The endpoint without the refinement (src/transcription_tmp.py)

    [trim_deadspace] of src/transcription_tmp.py has the energy stage of
    src/partial.py (the two files are the same up to line 471); in place of
    the refinement it stores [None] under [transcript] (lines 475-476) and
    returns the response. *)

(** [response['transcript'] = None] *)
Definition clear_transcript (r : Response) : Response :=
  mkResponse (speechDetected r) (speechStart r) (speechEnd r) (speechDuration r)
    (trimStart r) (trimEnd r) (duration r) (confidence r)
    (padding_pre r) (padding_post r) (analysisSource r) None (error r).

Definition trim_deadspace_tmp (rms : list Byte.byte -> Q)
    (request : TrimDeadspaceRequest) (wf : Wav) : Response :=
  let response := initial_response request in
  let frame_ms := coerce_frame_ms (frameMs request) in
  match energy_stage rms response frame_ms wf with
  | Return r => r
  | Raise msg r => with_error r msg
  | Next _ r => clear_transcript r
  end.

(** * Properties *)

(** ** Framer *)

Lemma range_loop_spec (fuel : nat) : forall offset stop step : Z,
  (0 < step)%Z -> (stop - offset <= Z.of_nat fuel)%Z ->
  Py.range_loop fuel offset stop step =
  map (fun k : nat => (offset + Z.of_nat k * step)%Z)
      (seq 0 (Z.to_nat ((stop - offset + step - 1) / step))).
Proof.
  induction fuel as [|fuel IH]; intros offset stop step Hstep Hfuel; simpl.
  - replace (Z.to_nat _) with 0%nat; [done|].
    assert ((stop - offset + step - 1) / step <= 0)%Z; [|lia].
    apply Z.lt_succ_r. apply Z.div_lt_upper_bound; lia.
  - destruct (Z.ltb_spec offset stop) as [Hlt|Hge].
    + rewrite IH by lia.
      replace (stop - offset + step - 1)%Z with ((stop - (offset + step) + step - 1) + 1 * step)%Z by lia.
      rewrite Z.div_add by lia.
      assert (0 <= (stop - (offset + step) + step - 1) / step)%Z
        by (apply Z.div_pos; lia).
      rewrite Z2Nat.inj_add by lia. rewrite Nat.add_comm. simpl.
      f_equal; [lia|].
      rewrite <- seq_shift, map_map. apply map_ext. intros k. lia.
    + replace (Z.to_nat _) with 0%nat; [done|].
      assert ((stop - offset + step - 1) / step <= 0)%Z; [|lia].
      apply Z.lt_succ_r. apply Z.div_lt_upper_bound; lia.
Qed.

Lemma offsets_spec (audio : list Byte.byte) (fbc : Z) :
  (0 < fbc)%Z ->
  offsets audio fbc =
  map (fun k : nat => (Z.of_nat k * fbc)%Z) (seq 0 (length audio / Z.to_nat fbc)).
Proof.
  intros Hpos. unfold offsets, Py.range, len_audio.
  rewrite range_loop_spec by lia.
  replace (Z.of_nat (length audio) - fbc + 1 - 0 + fbc - 1)%Z
    with (Z.of_nat (length audio)) by lia.
  replace (Z.to_nat (Z.of_nat (length audio) / fbc)) with (length audio / Z.to_nat fbc)%nat.
  - apply map_ext. intros; lia.
  - rewrite <- (Z2Nat.id fbc) at 2 by lia.
    rewrite <- Nat2Z.inj_div, Nat2Z.id. done.
Qed.

Lemma frames_spec (audio : list Byte.byte) (fbc : Z) :
  (0 < fbc)%Z ->
  frames audio fbc =
  map (fun k : nat => take (Z.to_nat fbc) (drop (k * Z.to_nat fbc) audio))
      (seq 0 (length audio / Z.to_nat fbc)).
Proof.
  intros Hpos. unfold frames. rewrite offsets_spec by done.
  rewrite map_map. apply map_ext. intros k.
  unfold frame_at, Py.slice. f_equal; [f_equal; lia|f_equal; lia].
Qed.

Lemma timestamps_spec (audio : list Byte.byte) (fbc sw sr : Z) :
  (0 < fbc)%Z ->
  timestamps audio fbc sw sr =
  map (fun k : nat => inject_Z (Z.of_nat k * fbc) / inject_Z sw / inject_Z sr)
      (seq 0 (length audio / Z.to_nat fbc)).
Proof.
  intros Hpos. unfold timestamps. rewrite offsets_spec by done.
  rewrite map_map. done.
Qed.

Lemma chunks_concat {A} (l : list A) (c n : nat) :
  concat (map (fun k : nat => take c (drop (k * c) l)) (seq 0 n)) = take (n * c) l.
Proof.
  induction n as [|n IH]; [done|].
  rewrite seq_S, map_app, concat_app, IH. simpl. rewrite app_nil_r.
  rewrite take_take_drop. f_equal. lia.
Qed.

Lemma whole_frames_fit (len c k : nat) :
  (0 < c)%nat -> (k < len / c)%nat -> (k * c + c <= len)%nat.
Proof.
  intros Hc Hk. pose proof (Nat.Div0.mul_div_le len c). nia.
Qed.

Lemma coerce_frame_ms_cases (frame_ms : Z) :
  coerce_frame_ms frame_ms = 10%Z \/ coerce_frame_ms frame_ms = 20%Z
  \/ coerce_frame_ms frame_ms = 30%Z.
Proof.
  unfold coerce_frame_ms.
  destruct (Z.eqb_spec frame_ms 10); [auto|].
  destruct (Z.eqb_spec frame_ms 20); [auto|].
  destruct (Z.eqb_spec frame_ms 30); simpl; auto.
Qed.

Lemma frame_byte_count_coerced (frame_ms : Z) :
  frame_byte_count 16000 (coerce_frame_ms frame_ms) 2
  = (32 * coerce_frame_ms frame_ms)%Z.
Proof.
  destruct (coerce_frame_ms_cases frame_ms) as [-> | [-> | ->]]; reflexivity.
Qed.

(** C9.  For every PCM buffer and every requested frame duration, the frame
    duration used is the requested one when that is 10, 20 or 30 ms and
    30 ms when it is not; a frame has 32 bytes for each millisecond (320,
    640 or 960 bytes); and the framer produces exactly
    [len(audio) // frame_byte_count] frames: frame [i] is the
    [frame_byte_count] bytes at byte offset [i * frame_byte_count], its
    timestamp is that offset divided by the bytes per sample and by the
    sample rate, the frames laid end to end are a prefix of the buffer, and
    the bytes left over are fewer than one frame. *)
Theorem framer_covers_buffer (audio : list Byte.byte) (frame_ms : Z) :
  let fbc := frame_byte_count 16000 (coerce_frame_ms frame_ms) 2 in
  let c := Z.to_nat fbc in
  let n := (length audio / c)%nat in
  coerce_frame_ms frame_ms ∈ [10%Z; 20%Z; 30%Z]
  /\ (frame_ms ∈ [10%Z; 20%Z; 30%Z] -> coerce_frame_ms frame_ms = frame_ms)
  /\ (frame_ms ∉ [10%Z; 20%Z; 30%Z] -> coerce_frame_ms frame_ms = 30%Z)
  /\ (coerce_frame_ms frame_ms ≠ frame_ms -> coerce_frame_ms frame_ms = 30%Z)
  /\ fbc = (32 * coerce_frame_ms frame_ms)%Z
  /\ (frame_ms = 10%Z -> fbc = 320%Z) /\ (frame_ms = 20%Z -> fbc = 640%Z)
  /\ (frame_ms = 30%Z -> fbc = 960%Z)
  /\ (0 < fbc)%Z
  /\ length (frames audio fbc) = n
  /\ length (timestamps audio fbc 2 16000) = n
  /\ (forall i : nat, (i < n)%nat ->
        frames audio fbc !! i = Some (take c (drop (i * c) audio))
        /\ length (take c (drop (i * c) audio)) = c
        /\ timestamps audio fbc 2 16000 !! i
           = Some (inject_Z (Z.of_nat (i * c)) / 2 / 16000))
  /\ concat (frames audio fbc) = take (n * c) audio
  /\ (length audio - n * c < c)%nat.
Proof.
  intros fbc c n.
  assert (Hfbc : (0 < fbc)%Z).
  { subst fbc. rewrite frame_byte_count_coerced.
    destruct (coerce_frame_ms_cases frame_ms) as [-> | [-> | ->]]; lia. }
  assert (Hc : (0 < c)%nat) by (subst c; lia).
  split.
  { destruct (coerce_frame_ms_cases frame_ms) as [-> | [-> | ->]]; set_solver. }
  split.
  { intros Hin.
    repeat (apply elem_of_cons in Hin as [->|Hin]; [reflexivity|]).
    by apply elem_of_nil in Hin. }
  split.
  { intros Hout. unfold coerce_frame_ms.
    destruct (Z.eqb_spec frame_ms 10) as [->|_]; [exfalso; apply Hout; set_solver|].
    destruct (Z.eqb_spec frame_ms 20) as [->|_]; [exfalso; apply Hout; set_solver|].
    destruct (Z.eqb_spec frame_ms 30) as [->|_]; [exfalso; apply Hout; set_solver|].
    reflexivity. }
  split.
  { unfold coerce_frame_ms.
    destruct ((frame_ms =? 10) || (frame_ms =? 20) || (frame_ms =? 30))%Z; done. }
  split; [subst fbc; apply frame_byte_count_coerced|].
  split; [by intros ->|]. split; [by intros ->|]. split; [by intros ->|].
  split; [done|].
  split; [rewrite frames_spec by done; by rewrite length_map, length_seq|].
  split; [rewrite timestamps_spec by done; by rewrite length_map, length_seq|].
  split.
  { intros i Hi. rewrite frames_spec, timestamps_spec by done.
    rewrite !list_lookup_fmap.
    assert (Hseq : seq 0 (length audio / Z.to_nat fbc) !! i = Some i).
    { apply lookup_seq. split; [done|]. exact Hi. }
    fold c. fold c in Hseq. rewrite Hseq. simpl.
    split; [done|]. split.
    - rewrite length_take, length_drop.
      pose proof (whole_frames_fit (length audio) c i Hc Hi). lia.
    - f_equal. unfold Qdiv. f_equal. f_equal. subst c. f_equal. lia. }
  split.
  { rewrite frames_spec by done. apply chunks_concat. }
  pose proof (Nat.mod_upper_bound (length audio) c).
  pose proof (Nat.div_mod_eq (length audio) c).
  subst n. nia.
Qed.

(** ** Comparisons, [max] and [min] *)

Lemma leb_le (a b : Q) : Py.leb a b = true <-> a <= b.
Proof.
  unfold Py.leb. rewrite Qle_alt. destruct (a ?= b); split; congruence.
Qed.

Lemma ltb_lt (a b : Q) : Py.ltb a b = true <-> a < b.
Proof.
  unfold Py.ltb. rewrite Qlt_alt. destruct (a ?= b); split; congruence.
Qed.

Lemma leb_gt (a b : Q) : Py.leb a b = false <-> b < a.
Proof.
  unfold Py.leb. rewrite Qgt_alt. destruct (a ?= b); split; congruence.
Qed.

Lemma ltb_ge (a b : Q) : Py.ltb a b = false <-> b <= a.
Proof.
  rewrite <- not_true_iff_false, ltb_lt. split; [apply Qnot_lt_le | apply Qle_not_lt].
Qed.

(** [max(a, b)] is [b] exactly when [a < b], and [min(a, b)] is [b] exactly
    when [b < a]: Leibniz equalities, used to read results off. *)
Lemma Qmax_right (a b : Q) : a < b -> Qmax a b = b.
Proof.
  intros H. unfold Qmax, GenericMinMax.gmax.
  by rewrite (proj1 (Qlt_alt a b) H).
Qed.

Lemma Qmax_left (a b : Q) : b <= a -> Qmax a b = a.
Proof.
  intros H. unfold Qmax, GenericMinMax.gmax.
  destruct (a ?= b) eqn:E; try done.
  all: exfalso; apply (Qle_not_lt b a); [done|]; by apply Qlt_alt.
Qed.

Lemma Qmin_right (a b : Q) : b < a -> Qmin a b = b.
Proof.
  intros H. unfold Qmin, GenericMinMax.gmin.
  by rewrite (proj1 (Qgt_alt a b) H).
Qed.

Lemma Qmin_left (a b : Q) : a <= b -> Qmin a b = a.
Proof.
  intros H. unfold Qmin, GenericMinMax.gmin.
  destruct (a ?= b) eqn:E; try done.
  all: exfalso; apply (Qle_not_lt a b); [done|]; by apply Qgt_alt.
Qed.

Lemma Qmax_cases (a b : Q) : Qmax a b = a \/ Qmax a b = b.
Proof.
  unfold Qmax, GenericMinMax.gmax. destruct (a ?= b); auto.
Qed.

Lemma Qmin_cases (a b : Q) : Qmin a b = a \/ Qmin a b = b.
Proof.
  unfold Qmin, GenericMinMax.gmin. destruct (a ?= b); auto.
Qed.

(** ** Energy detector *)

Lemma active_flags_lookup (energies_arr : list Q) (i : nat) (e : Q) :
  energies_arr !! i = Some e ->
  active_flags energies_arr !! i = Some (Py.leb (threshold energies_arr) e).
Proof.
  intros H. unfold active_flags. by rewrite list_lookup_fmap, H.
Qed.

(** C3.  The threshold of the energy detector is
    [max(p60 * 1.5, p95 * 0.2, 50.0)] for the 60th and 95th percentiles of
    the per-frame RMS values: it is one of the three and no smaller than any
    of them, and frame [i] is flagged active exactly when its RMS is at
    least the threshold. *)
Theorem threshold_and_active_frames
    (rms : list Byte.byte -> Q) (frames : list (list Byte.byte)) :
  let energies_arr := energies rms frames in
  let p60 := percentile energies_arr 60 in
  let p95 := percentile energies_arr 95 in
  let t := threshold energies_arr in
  t = Qmax (Qmax (p60 * 1.5) (p95 * 0.2)) 50
  /\ (p60 * 1.5 <= t /\ p95 * 0.2 <= t /\ 50 <= t)
  /\ (t = p60 * 1.5 \/ t = p95 * 0.2 \/ t = 50)
  /\ length (active_flags energies_arr) = length frames
  /\ (forall (i : nat) (frame : list Byte.byte),
        frames !! i = Some frame ->
        energies_arr !! i = Some (energy_of rms frame)
        /\ (active_flags energies_arr !! i = Some true <-> t <= energy_of rms frame)
        /\ (active_flags energies_arr !! i = Some false <-> energy_of rms frame < t)).
Proof.
  intros energies_arr p60 p95 t.
  assert (Ht : t = Qmax (Qmax (p60 * 1.5) (p95 * 0.2)) 50) by reflexivity.
  split; [done|]. split.
  { rewrite Ht. repeat split.
    - eapply Qle_trans; [apply Q.le_max_l|]. apply Q.le_max_l.
    - eapply Qle_trans; [apply Q.le_max_r|]. apply Q.le_max_l.
    - apply Q.le_max_r. }
  split.
  { rewrite Ht.
    destruct (Qmax_cases (Qmax (p60 * 1.5) (p95 * 0.2)) 50) as [-> | ->]; [|auto].
    destruct (Qmax_cases (p60 * 1.5) (p95 * 0.2)) as [-> | ->]; auto. }
  split.
  { unfold active_flags, energies_arr, energies. by rewrite !length_map. }
  intros i frame Hi.
  assert (He : energies_arr !! i = Some (energy_of rms frame)).
  { unfold energies_arr, energies. by rewrite list_lookup_fmap, Hi. }
  split; [done|].
  rewrite (active_flags_lookup _ _ _ He). fold t. split.
  - rewrite <- leb_le. split; congruence.
  - rewrite <- leb_gt. split; congruence.
Qed.

(** The run that is open after the flags [pre] have been read: it starts at
    [s0] when [start_idx = Some s0], and no run is open when the last flag
    read was inactive. *)
Lemma cluster_loop_runs (rest : list bool) :
  forall (pre : list bool) (start_idx : option nat),
    match start_idx with
    | Some s0 =>
        (s0 < length pre)%nat
        /\ (forall i : nat, (s0 <= i < length pre)%nat -> pre !! i = Some true)
        /\ (forall p : nat, s0 = S p -> pre !! p = Some false)
    | None => forall p : nat, length pre = S p -> pre !! p = Some false
    end ->
    forall s e : nat,
      (s, e) ∈ cluster_loop rest (length pre) start_idx
      <-> is_run (pre ++ rest) s e /\ (length pre <= e)%nat.
Proof.
  induction rest as [|flag rest IH]; intros pre st Hinv s e.
  - rewrite app_nil_r. simpl. destruct st as [s0|].
    + destruct Hinv as (Hlt & Htrue & Hprev).
      rewrite list_elem_of_singleton. split.
      * intros [= -> ->]. split; [|done].
        repeat split; try done; try lia.
        rewrite lookup_ge_None_2; [done|lia].
      * intros [(Hse & Hall & Hbefore & _) Hge].
        assert (e = length pre) as -> by lia.
        f_equal.
        destruct (Nat.lt_trichotomy s s0) as [Hlt'|[->|Hgt]]; [|done|].
        -- destruct s0 as [|p]; [lia|].
           specialize (Hprev p eq_refl). rewrite (Hall p) in Hprev by lia. done.
        -- destruct s as [|p]; [lia|].
           specialize (Hbefore p eq_refl). rewrite (Htrue p) in Hbefore by lia. done.
    + rewrite elem_of_nil. split; [done|].
      intros [(Hse & Hall & _ & _) Hge].
      assert (e = length pre) as -> by lia.
      destruct (length pre) as [|p] eqn:Hlen; [lia|].
      specialize (Hinv p eq_refl). rewrite (Hall p) in Hinv by lia. done.
  - replace (pre ++ flag :: rest) with ((pre ++ [flag]) ++ rest)
      by (by rewrite <- app_assoc).
    assert (Hlen : length (pre ++ [flag]) = S (length pre))
      by (rewrite length_app; simpl; lia).
    assert (Hflag : ((pre ++ [flag]) ++ rest) !! length pre = Some flag).
    { rewrite lookup_app_l by lia. by rewrite lookup_app_r, Nat.sub_diag. }
    assert (Hpre : forall i, (i < length pre)%nat ->
                     ((pre ++ [flag]) ++ rest) !! i = pre !! i).
    { intros i Hi. rewrite lookup_app_l by lia. by rewrite lookup_app_l. }
    assert (Hpre' : forall i, (i < length pre)%nat -> (pre ++ [flag]) !! i = pre !! i).
    { intros i Hi. by rewrite lookup_app_l. }
    assert (Hlast : (pre ++ [flag]) !! length pre = Some flag).
    { by rewrite lookup_app_r, Nat.sub_diag. }
    destruct flag, st as [s0|]; simpl.
    + (* active flag, a run is open *)
      destruct Hinv as (Hlt & Htrue & Hprev).
      rewrite <- Hlen.
      rewrite (IH (pre ++ [true]) (Some s0)).
      * rewrite Hlen. split; [intros [? ?]; split; [done|lia]|].
        intros [Hrun Hge]. split; [done|].
        destruct (decide (e = length pre)) as [->|]; [|lia].
        destruct Hrun as (_ & _ & _ & Hend). by rewrite Hflag in Hend.
      * rewrite Hlen. split; [lia|]. split.
        -- intros i Hi. destruct (decide (i = length pre)) as [->|]; [done|].
           rewrite Hpre' by lia. apply Htrue. lia.
        -- intros p ->. rewrite Hpre' by lia. by apply Hprev.
    + (* active flag, no run is open: one opens here *)
      rewrite <- Hlen.
      rewrite (IH (pre ++ [true]) (Some (length pre))).
      * rewrite Hlen. split; [intros [? ?]; split; [done|lia]|].
        intros [Hrun Hge]. split; [done|].
        destruct (decide (e = length pre)) as [->|]; [|lia].
        destruct Hrun as (_ & _ & _ & Hend). by rewrite Hflag in Hend.
      * rewrite Hlen. split; [lia|]. split.
        -- intros i Hi. assert (i = length pre) as -> by lia. done.
        -- intros p Hp. rewrite Hpre' by lia. by apply Hinv.
    + (* inactive flag closes the open run *)
      destruct Hinv as (Hlt & Htrue & Hprev).
      rewrite elem_of_cons. rewrite <- Hlen.
      rewrite (IH (pre ++ [false]) None).
      * rewrite Hlen. split.
        -- intros [[= -> ->] | [Hrun Hge]]; [|split; [done|lia]].
           split; [|done]. repeat split; try lia.
           ++ rewrite !length_app. simpl. lia.
           ++ intros i Hi. rewrite Hpre by lia. apply Htrue. lia.
           ++ intros p ->. rewrite Hpre by lia. by apply Hprev.
           ++ by rewrite Hflag.
        -- intros [Hrun Hge].
           destruct (decide (e = length pre)) as [->|]; [left|right; split; [done|lia]].
           f_equal. destruct Hrun as (Hse & Hall & Hbefore & _).
           destruct (Nat.lt_trichotomy s s0) as [Hlt'|[->|Hgt]]; [|done|].
           ++ destruct s0 as [|p]; [lia|].
              specialize (Hprev p eq_refl). specialize (Hall p).
              rewrite Hpre in Hall by lia. rewrite Hall in Hprev by lia. done.
           ++ destruct s as [|p]; [lia|].
              specialize (Hbefore p eq_refl). rewrite Hpre in Hbefore by lia.
              rewrite (Htrue p) in Hbefore by lia. done.
      * intros p Hp. rewrite Hlen in Hp. assert (p = length pre) as -> by lia. done.
    + (* inactive flag, no run is open *)
      rewrite <- Hlen.
      rewrite (IH (pre ++ [false]) None).
      * rewrite Hlen. split; [intros [? ?]; split; [done|lia]|].
        intros [Hrun Hge]. split; [done|].
        destruct (decide (e = length pre)) as [->|]; [|lia].
        destruct Hrun as (Hse & Hall & _ & _).
        destruct (length pre) as [|p] eqn:Hlp; [lia|].
        specialize (Hinv p eq_refl). specialize (Hall p).
        rewrite Hpre in Hall by lia. rewrite Hall in Hinv by lia. done.
      * intros p Hp. rewrite Hlen in Hp. assert (p = length pre) as -> by lia. done.
Qed.

(** The clusters the loop collects are the maximal runs of active flags. *)
Lemma raw_clusters_runs (energies_arr : list Q) (s e : nat) :
  (s, e) ∈ raw_clusters energies_arr <-> is_run (active_flags energies_arr) s e.
Proof.
  unfold raw_clusters.
  rewrite (cluster_loop_runs (active_flags energies_arr) [] None); simpl.
  - split; [by intros [? _]|]. intros H. split; [done|lia].
  - intros p Hp. lia.
Qed.

Lemma clusters_elem_of (energies_arr : list Q) (frame_duration_sec : Q) (s e : nat) :
  (s, e) ∈ clusters energies_arr frame_duration_sec
  <-> is_run (active_flags energies_arr) s e
      /\ (min_active_frames frame_duration_sec <= Z.of_nat e - Z.of_nat s)%Z.
Proof.
  unfold clusters. rewrite list_elem_of_filter, raw_clusters_runs.
  unfold long_enough. simpl. rewrite Z.leb_le. tauto.
Qed.

(** The truncation [int(0.12 / frame_duration_sec)] gives the same integer in
    binary64 as in exact arithmetic, and so does the frame length. *)
Lemma binary64_agrees (frame_ms : Z) :
  (frame_ms = 10 \/ frame_ms = 20 \/ frame_ms = 30)%Z ->
  Binary64.min_active_frames frame_ms
  = Some (min_active_frames (inject_Z frame_ms / 1000))
  /\ Binary64.frame_byte_count 16000 frame_ms 2
     = Some (frame_byte_count 16000 frame_ms 2).
Proof.
  intros [-> | [-> | ->]]; split; vm_compute; reflexivity.
Qed.

(** C4.  For a frame duration of 10, 20 or 30 ms the minimum run length is
    [max(2, ceil(0.12 / frame_duration_sec))] (the source's [int()] and the
    ceiling agree on these three durations, in exact arithmetic and in
    binary64), it is 12 frames for 10 ms frames, and the surviving clusters
    are exactly the maximal runs of active frames whose frame count [e - s]
    is at least that minimum. *)
Theorem cluster_survives_iff (energies_arr : list Q) (frame_ms : Z) (s e : nat) :
  (frame_ms = 10 \/ frame_ms = 20 \/ frame_ms = 30)%Z ->
  let frame_duration_sec := inject_Z frame_ms / 1000 in
  let minimum := Z.max 2 (Qceiling (0.12 / frame_duration_sec)) in
  min_active_frames frame_duration_sec = minimum
  /\ Binary64.min_active_frames frame_ms = Some minimum
  /\ (frame_ms = 10%Z -> minimum = 12%Z)
  /\ ((s, e) ∈ clusters energies_arr frame_duration_sec
      <-> is_run (active_flags energies_arr) s e
          /\ (minimum <= Z.of_nat e - Z.of_nat s)%Z).
Proof.
  intros Hms fd minimum.
  assert (Hmin : min_active_frames fd = minimum).
  { subst fd minimum. destruct Hms as [-> | [-> | ->]]; reflexivity. }
  split; [done|]. split.
  { rewrite <- Hmin. by apply binary64_agrees. }
  split.
  { intros ->. reflexivity. }
  rewrite <- Hmin. apply clusters_elem_of.
Qed.

(** Sixty frames of 10 ms: a burst of 11 loud frames at 2..12 and one of 12
    at 33..44, silence elsewhere.  The threshold is 200, both bursts are
    maximal runs of active frames, the one of 12 frames survives and the
    one of 11 frames does not. *)
Lemma cluster_survives_iff_witness :
  (10 = 10 \/ 10 = 20 \/ 10 = 30)%Z
  /\ min_active_frames (inject_Z 10 / 1000) = 12%Z
  /\ threshold burst_energies == 200
  /\ raw_clusters burst_energies = [(2, 13); (33, 45)]%nat
  /\ clusters burst_energies (inject_Z 10 / 1000) = [(33, 45)]%nat
  /\ is_run (active_flags burst_energies) 33 45
  /\ (12 <= Z.of_nat 45 - Z.of_nat 33)%Z
  /\ is_run (active_flags burst_energies) 2 13
  /\ ~ (12 <= Z.of_nat 13 - Z.of_nat 2)%Z
  /\ (2, 13)%nat ∉ clusters burst_energies (inject_Z 10 / 1000).
Proof.
  assert (Hraw : raw_clusters burst_energies = [(2, 13); (33, 45)]%nat)
    by (vm_compute; reflexivity).
  assert (Hcl : clusters burst_energies (inject_Z 10 / 1000) = [(33, 45)]%nat)
    by (vm_compute; reflexivity).
  pose proof (cluster_survives_iff burst_energies 10 33 45 (or_introl eq_refl)) as Hlong.
  pose proof (cluster_survives_iff burst_energies 10 2 13 (or_introl eq_refl)) as Hshort.
  cbv zeta in Hlong, Hshort.
  destruct Hlong as (Hmin & _ & Htwelve & Hlong).
  destruct Hshort as (_ & _ & _ & Hshort).
  rewrite (Htwelve eq_refl) in Hmin, Hlong, Hshort.
  assert (Hin : (33, 45)%nat ∈ clusters burst_energies (inject_Z 10 / 1000)).
  { rewrite Hcl. left. }
  apply Hlong in Hin as [Hrun Hlen].
  assert (Hrun' : is_run (active_flags burst_energies) 2 13).
  { apply raw_clusters_runs. rewrite Hraw. left. }
  assert (Hlen' : ~ (12 <= Z.of_nat 13 - Z.of_nat 2)%Z) by lia.
  split; [by left|]. split; [exact Hmin|].
  split; [vm_compute; reflexivity|].
  split; [exact Hraw|]. split; [exact Hcl|]. split; [exact Hrun|].
  split; [exact Hlen|]. split; [exact Hrun'|]. split; [exact Hlen'|].
  intros Hmem. apply Hshort in Hmem as [_ Hmem]. exact (Hlen' Hmem).
Defined.

(** The clusters come out in the order of their start index. *)
Lemma cluster_loop_sorted (rest : list bool) :
  forall (idx : nat) (start_idx : option nat),
    (forall s0 : nat, start_idx = Some s0 -> (s0 < idx)%nat) ->
    StronglySorted (fun a b : nat * nat => (fst a < fst b)%nat)
      (cluster_loop rest idx start_idx)
    /\ Forall (fun c : nat * nat => (default idx start_idx <= fst c)%nat)
         (cluster_loop rest idx start_idx).
Proof.
  induction rest as [|flag rest IH]; intros idx st Hst; simpl.
  - destruct st as [s0|]; simpl.
    + split; [repeat constructor|]. by repeat constructor.
    + split; constructor.
  - destruct flag, st as [s0|]; simpl.
    + apply (IH (S idx) (Some s0)). intros ? [= <-]. specialize (Hst s0 eq_refl). lia.
    + apply (IH (S idx) (Some idx)). intros ? [= <-]. lia.
    + destruct (IH (S idx) None) as [Hsorted Hall]; [done|].
      specialize (Hst s0 eq_refl). simpl in Hall. split.
      * constructor; [done|]. eapply Forall_impl; [exact Hall|]. simpl. lia.
      * constructor; [done|]. eapply Forall_impl; [exact Hall|]. simpl. lia.
    + destruct (IH (S idx) None) as [Hsorted Hall]; [done|]. split; [done|].
      eapply Forall_impl; [exact Hall|]. simpl. lia.
Qed.

Lemma StronglySorted_filter_keeps {A} (R : A -> A -> Prop) (P : A -> Prop)
    `{!forall x, Decision (P x)} (l : list A) :
  StronglySorted R l -> StronglySorted R (filter P l).
Proof.
  induction 1 as [|x l Hl IH Hx]; [constructor|].
  rewrite filter_cons. destruct (decide (P x)); [|done].
  constructor; [done|]. apply Forall_forall. intros y Hy.
  apply list_elem_of_filter in Hy as [_ Hy].
  rewrite Forall_forall in Hx. by apply Hx.
Qed.

Lemma clusters_sorted (energies_arr : list Q) (frame_duration_sec : Q) :
  StronglySorted (fun a b : nat * nat => (fst a < fst b)%nat)
    (clusters energies_arr frame_duration_sec).
Proof.
  unfold clusters. apply StronglySorted_filter_keeps.
  by apply (cluster_loop_sorted _ 0 None).
Qed.

(** With two clusters or more, the first one starts before the last one. *)
Lemma first_cluster_before_last (energies_arr : list Q) (frame_duration_sec : Q)
    (first last_c : nat * nat) (others : list (nat * nat)) :
  clusters energies_arr frame_duration_sec = first :: others ->
  others ≠ [] ->
  last (clusters energies_arr frame_duration_sec) = Some last_c ->
  (fst first < fst last_c)%nat.
Proof.
  intros Hcl Hne Hlast.
  pose proof (clusters_sorted energies_arr frame_duration_sec) as Hs.
  rewrite Hcl in Hs, Hlast. apply StronglySorted_inv in Hs as [_ Hall].
  rewrite Forall_forall in Hall. apply Hall.
  destruct others as [|o others]; [done|].
  rewrite last_cons_cons in Hlast. by apply last_Some_elem_of.
Qed.

Lemma py_index_nat {A} (l : list A) (i : nat) : py_index l (Z.of_nat i) = l !! i.
Proof.
  unfold py_index. destruct (Z.leb_spec 0 (Z.of_nat i)); [|lia].
  by rewrite Nat2Z.id.
Qed.

(** Timestamps of the accepted wav format: frame [i] starts at
    [i * frame_duration_sec], and the frame fits in the recording. *)
Lemma timestamps_lookup (wf : Wav) (frame_ms : Z) (i : nat) (t : Q) :
  (frame_ms = 10 \/ frame_ms = 20 \/ frame_ms = 30)%Z ->
  wav_sampwidth wf = 2%Z -> wav_nchannels wf = 1%Z ->
  timestamps (readframes wf (getnframes wf)) (frame_byte_count 16000 frame_ms 2)
             2 16000 !! i = Some t ->
  t == inject_Z (Z.of_nat i) * (inject_Z frame_ms / 1000)
  /\ t + inject_Z frame_ms / 1000 <= inject_Z (getnframes wf) / 16000.
Proof.
  intros Hms Hw Hc Hi.
  set (audio := readframes wf (getnframes wf)) in *.
  assert (Hfbc : frame_byte_count 16000 frame_ms 2 = (32 * frame_ms)%Z).
  { destruct Hms as [-> | [-> | ->]]; reflexivity. }
  rewrite Hfbc in Hi. rewrite timestamps_spec in Hi by lia.
  rewrite list_lookup_fmap in Hi.
  destruct (seq 0 _ !! i) as [k|] eqn:Hk; [|done].
  apply lookup_seq in Hk as [-> Hlt]. simpl in Hi, Hlt. injection Hi as <-.
  assert (Hlen : (Z.of_nat (length audio) <= 2 * getnframes wf)%Z).
  { assert (0 <= getnframes wf)%Z.
    { unfold getnframes. rewrite Hw, Hc. apply Z.div_pos; lia. }
    subst audio. unfold readframes. rewrite Hw, Hc, length_take. lia. }
  pose proof (whole_frames_fit (length audio) (Z.to_nat (32 * frame_ms)) i
                ltac:(lia) Hlt) as Hfit.
  assert (Hbytes : ((Z.of_nat i + 1) * (32 * frame_ms) <= 2 * getnframes wf)%Z) by nia.
  split.
  - rewrite inject_Z_mult, inject_Z_mult. simpl (inject_Z 32). field.
  - assert (Hq : inject_Z ((Z.of_nat i + 1) * (32 * frame_ms))
                 <= inject_Z (2 * getnframes wf)) by (by rewrite <- Zle_Qle).
    rewrite !inject_Z_mult, inject_Z_plus in Hq. simpl (inject_Z 32) in Hq.
    simpl (inject_Z 1) in Hq. simpl (inject_Z 2) in Hq.
    rewrite !inject_Z_mult. simpl (inject_Z 32).
    apply Qle_shift_div_l; [reflexivity|].
    set (x := inject_Z (Z.of_nat i)) in *. set (m := inject_Z frame_ms) in *.
    set (g := inject_Z (getnframes wf)) in *.
    assert (E : (x * ((32#1) * m) / 2 / 16000 + m / 1000) * 16000
                == (x + 1) * ((32#1) * m) / 2) by field.
    rewrite E. apply Qle_shift_div_r; [reflexivity|].
    rewrite (Qmult_comm g). exact Hq.
Qed.

(** What the energy stage has computed when it falls through to the
    refinement. *)
Lemma energy_stage_next (rms : list Byte.byte -> Q) (response : Response)
    (frame_ms : Z) (wf : Wav) (silence_end_time : Q) (r : Response) :
  energy_stage rms response frame_ms wf = Next silence_end_time r ->
  let audio := readframes wf (getnframes wf) in
  let fbc := frame_byte_count 16000 frame_ms 2 in
  let ts := timestamps audio fbc 2 16000 in
  let fd := inject_Z frame_ms / 1000 in
  let total := inject_Z (getnframes wf) / 16000 in
  let energies_arr := energies rms (frames audio fbc) in
  let cl := clusters energies_arr fd in
  wav_sampwidth wf = 2%Z /\ wav_nchannels wf = 1%Z
  /\ exists (s1 e1 : nat) (others : list (nat * nat)) (sL eL : nat) (t1 tL tE : Q),
      cl = (s1, e1) :: others /\ last cl = Some (sL, eL)
      /\ ts !! s1 = Some t1 /\ ts !! sL = Some tL /\ ts !! (eL - 1)%nat = Some tE
      /\ (sL < eL)%nat
      /\ silence_end_time = t1
      /\ speechDetected r = true
      /\ speechStart r = t1
      /\ speechEnd r = Qmin total (tE + fd)
      /\ speechDuration r = Qmax 0 (Qmin total (tE + fd) - tL)
      /\ trimStart r = Qmax 0 (t1 - padding_pre response)
      /\ trimEnd r = Qmin total (Qmin total (tE + fd) + padding_post response)
      /\ duration r = total
      /\ padding_pre r = padding_pre response
      /\ padding_post r = padding_post response
      /\ analysisSource r = analysisSource response
      /\ transcript r = transcript response
      /\ error r = error response.
Proof.
  intros H. cbv zeta.
  set (audio := readframes wf (getnframes wf)).
  set (fbc := frame_byte_count 16000 frame_ms 2).
  set (ts := timestamps audio fbc 2 16000).
  set (fd := inject_Z frame_ms / 1000).
  unfold energy_stage in H.
  destruct (negb _) eqn:Hhdr in H; [done|].
  apply negb_false_iff in Hhdr.
  apply andb_true_iff in Hhdr as [Hhdr Hch]. apply andb_true_iff in Hhdr as [Hsr Hsw].
  apply Z.eqb_eq in Hch, Hsr, Hsw. rewrite Hsr, Hsw in H.
  fold audio fbc in H.
  destruct (fbc =? 0)%Z; [done|].
  fold ts fd in H.
  destruct (frames audio fbc) as [|f0 fs] eqn:Hframes in H; [done|].
  rewrite <- Hframes in H.
  destruct (energies rms (frames audio fbc)) as [|en0 ens] eqn:Hen in H; [done|].
  rewrite <- Hen in H.
  destruct (clusters (energies rms (frames audio fbc)) fd)
    as [|[s1 e1] others] eqn:Hcl; [done|].
  destruct (last ((s1, e1) :: others)) as [[sL eL]|] eqn:Hlast; [|done].
  assert (Hrun : is_run (active_flags (energies rms (frames audio fbc))) sL eL).
  { apply (clusters_elem_of _ fd). rewrite Hcl. by apply last_Some_elem_of. }
  destruct Hrun as ((HsL & HeL) & _).
  assert (Hlen : length (active_flags (energies rms (frames audio fbc))) = length ts).
  { unfold active_flags, energies, ts, timestamps, frames. by rewrite !length_map. }
  rewrite Hlen in HeL.
  replace (Z.min (Z.of_nat eL) (Z.of_nat (length ts)) - 1)%Z
    with (Z.of_nat (eL - 1)) in H by lia.
  rewrite !py_index_nat in H.
  destruct (ts !! s1) as [t1|] eqn:Ht1; [|done].
  destruct (ts !! sL) as [tL|] eqn:HtL; [|done].
  destruct (ts !! (eL - 1)%nat) as [tE|] eqn:HtE; [|done].
  injection H as <- <-.
  split; [done|]. split; [done|].
  exists s1, e1, others, sL, eL, t1, tL, tE. simpl.
  repeat split; done.
Qed.

Lemma frame_duration_pos (frame_ms : Z) :
  (frame_ms = 10 \/ frame_ms = 20 \/ frame_ms = 30)%Z ->
  0 < inject_Z frame_ms / 1000.
Proof. intros [-> | [-> | ->]]; reflexivity. Qed.

Lemma inject_nat_le (a b : nat) : (a <= b)%nat -> inject_Z (Z.of_nat a) <= inject_Z (Z.of_nat b).
Proof. intros H. rewrite <- Zle_Qle. lia. Qed.

Lemma inject_nat_lt (a b : nat) : (a < b)%nat -> inject_Z (Z.of_nat a) < inject_Z (Z.of_nat b).
Proof. intros H. rewrite <- Zlt_Qlt. lia. Qed.

(** Times of an energy window: the first cluster starts no later than the
    last one, which starts before the clamped end of its last frame. *)
Lemma energy_window_times (fd total t1 tL tE : Q) (s1 sL eL : nat) :
  0 < fd ->
  (s1 <= sL)%nat -> (sL < eL)%nat ->
  t1 == inject_Z (Z.of_nat s1) * fd ->
  tL == inject_Z (Z.of_nat sL) * fd ->
  tE == inject_Z (Z.of_nat (eL - 1)) * fd ->
  tL + fd <= total ->
  0 <= t1 /\ t1 <= tL /\ tL < Qmin total (tE + fd)
  /\ ((s1 < sL)%nat -> t1 < tL).
Proof.
  intros Hfd H1L HLE Ht1 HtL HtE Htot.
  pose proof (inject_nat_le 0 s1 ltac:(lia)) as H0.
  change (inject_Z (Z.of_nat 0)) with 0 in H0.
  pose proof (inject_nat_le s1 sL H1L) as Ha.
  pose proof (inject_nat_le sL (eL - 1) ltac:(lia)) as Hb.
  assert (Hmul : forall a b : Q, a <= b -> a * fd <= b * fd).
  { intros a b Hab. apply Qmult_le_compat_r; [done|]. by apply Qlt_le_weak. }
  pose proof (Hmul _ _ H0) as H0'. pose proof (Hmul _ _ Ha) as Ha'.
  pose proof (Hmul _ _ Hb) as Hb'.
  split; [rewrite Ht1; lra|]. split; [rewrite Ht1, HtL; lra|]. split.
  - apply Q.min_glb_lt; [lra|]. rewrite HtL, HtE. lra.
  - intros Hlt. pose proof (inject_nat_lt s1 sL Hlt) as Hc.
    rewrite Ht1, HtL. apply Qmult_lt_compat_r; done.
Qed.

(** C10.  After the energy stage, [speechStart] is the timestamp of the
    start of the first surviving cluster, [speechDuration] is [speechEnd]
    minus the timestamp of the start of the last surviving cluster, and when
    more than one cluster survives [speechDuration] is strictly less than
    [speechEnd - speechStart]. *)
Theorem speech_duration_of_last_cluster
    (rms : list Byte.byte -> Q) (request : TrimDeadspaceRequest) (wf : Wav)
    (silence_end_time : Q) (r : Response) :
  energy_stage rms (initial_response request) (coerce_frame_ms (frameMs request)) wf
  = Next silence_end_time r ->
  let frame_ms := coerce_frame_ms (frameMs request) in
  let audio := readframes wf (getnframes wf) in
  let fbc := frame_byte_count 16000 frame_ms 2 in
  let ts := timestamps audio fbc 2 16000 in
  let cl := clusters (energies rms (frames audio fbc)) (inject_Z frame_ms / 1000) in
  exists (first last_c : nat * nat) (others : list (nat * nat)) (t_first t_last : Q),
    cl = first :: others /\ last cl = Some last_c
    /\ ts !! fst first = Some t_first /\ ts !! fst last_c = Some t_last
    /\ speechStart r = t_first
    /\ speechDuration r = speechEnd r - t_last
    /\ (others ≠ [] -> speechDuration r < speechEnd r - speechStart r).
Proof.
  intros H. cbv zeta.
  pose proof (coerce_frame_ms_cases (frameMs request)) as Hms.
  destruct (energy_stage_next _ _ _ _ _ _ H)
    as (Hw & Hc & s1 & e1 & others & sL & eL & t1 & tL & tE & Hcl & Hlast & Ht1 & HtL
        & HtE & HLE & _ & _ & Hstart & Hend & Hdur & _).
  destruct (timestamps_lookup wf _ s1 t1 Hms Hw Hc Ht1) as [Et1 _].
  destruct (timestamps_lookup wf _ sL tL Hms Hw Hc HtL) as [EtL Htot].
  destruct (timestamps_lookup wf _ (eL - 1) tE Hms Hw Hc HtE) as [EtE _].
  assert (H1L : (s1 <= sL)%nat).
  { destruct others as [|o others'].
    - rewrite Hcl in Hlast. simpl in Hlast. injection Hlast as -> _. done.
    - pose proof (first_cluster_before_last _ _ _ _ _ Hcl ltac:(done) Hlast).
      simpl in *. lia. }
  destruct (energy_window_times _ _ _ _ _ _ _ _ (frame_duration_pos _ Hms)
              H1L HLE Et1 EtL EtE Htot) as (_ & _ & Hlt & Hstrict).
  exists (s1, e1), (sL, eL), others, t1, tL. simpl.
  repeat split; try done.
  - rewrite Hdur, Hend. apply Qmax_right. lra.
  - intros Hne. rewrite Hdur, Hend, Hstart.
    rewrite Qmax_right by lra.
    pose proof (first_cluster_before_last _ _ _ _ _ Hcl Hne Hlast) as Hf.
    specialize (Hstrict Hf). lra.
Qed.

(** The window the energy stage writes is ordered and lies inside the
    recording. *)
Lemma energy_window_ordered
    (rms : list Byte.byte -> Q) (response : Response) (frame_ms : Z) (wf : Wav)
    (silence_end_time : Q) (r : Response) :
  (frame_ms = 10 \/ frame_ms = 20 \/ frame_ms = 30)%Z ->
  0 <= padding_pre response -> 0 <= padding_post response ->
  energy_stage rms response frame_ms wf = Next silence_end_time r ->
  speechDetected r = true
  /\ silence_end_time = speechStart r
  /\ 0 <= trimStart r /\ trimStart r <= speechStart r
  /\ speechStart r < speechEnd r
  /\ speechEnd r <= trimEnd r /\ trimEnd r <= duration r.
Proof.
  intros Hms Hpre Hpost H.
  destruct (energy_stage_next _ _ _ _ _ _ H)
    as (Hw & Hc & s1 & e1 & others & sL & eL & t1 & tL & tE & Hcl & Hlast & Ht1 & HtL
        & HtE & HLE & Hsil & Hdet & Hstart & Hend & _ & Htrim & Htrime & Htotal & _).
  destruct (timestamps_lookup wf _ s1 t1 Hms Hw Hc Ht1) as [Et1 _].
  destruct (timestamps_lookup wf _ sL tL Hms Hw Hc HtL) as [EtL Htot].
  destruct (timestamps_lookup wf _ (eL - 1) tE Hms Hw Hc HtE) as [EtE _].
  assert (H1L : (s1 <= sL)%nat).
  { destruct others as [|o others'].
    - rewrite Hcl in Hlast. simpl in Hlast. injection Hlast as -> _. done.
    - pose proof (first_cluster_before_last _ _ _ _ _ Hcl ltac:(done) Hlast).
      simpl in *. lia. }
  destruct (energy_window_times _ _ _ _ _ _ _ _ (frame_duration_pos _ Hms)
              H1L HLE Et1 EtL EtE Htot) as (H0 & Hle & Hlt & _).
  set (total := inject_Z (getnframes wf) / 16000) in *.
  set (fd := inject_Z frame_ms / 1000) in *.
  assert (Hendle : Qmin total (tE + fd) <= total) by apply Q.le_min_l.
  rewrite Hstart, Hend, Htrim, Htrime, Htotal.
  split; [done|]. split; [done|]. split; [apply Q.le_max_l|].
  split; [apply Q.max_lub; lra|].
  split; [lra|]. split; [apply Q.min_glb; lra|]. apply Q.le_min_l.
Qed.

(** On the demo recording two clusters survive, [(10, 14)] and [(20, 24)]:
    speech starts at 0.3 s, ends at 0.72 s, and the duration reported is the
    0.12 s of the last cluster. *)
Lemma speech_duration_of_last_cluster_witness :
  exists (silence_end_time : Q) (r : Response),
    energy_stage rms_flat (initial_response demo_request)
      (coerce_frame_ms (frameMs demo_request)) demo_wav
    = Next silence_end_time r
    /\ clusters (energies rms_flat (frames (wav_chunk demo_wav) 960)) (inject_Z 30 / 1000)
       = [(10, 14); (20, 24)]%nat
    /\ speechDuration r < speechEnd r - speechStart r.
Proof.
  eexists _, _. split; [vm_compute; reflexivity|].
  split; [vm_compute; reflexivity|].
  destruct (speech_duration_of_last_cluster rms_flat demo_request demo_wav
              (9600 # 32000) _ ltac:(vm_compute; reflexivity))
    as (first & last_c & others & t_first & t_last & Hcl & _ & _ & _ & _ & _ & Hlt).
  apply Hlt. intros ->.
  apply (f_equal length) in Hcl. vm_compute in Hcl. discriminate Hcl.
Defined.

(** ** Tail clustering *)

(** The loop takes a prefix of [pending], in reverse, in front of the
    cluster; it stops at the first segment that is not close enough to the
    front of the cluster, and at nothing else. *)
Lemma absorb_spec (pending : list FilteredSegment) :
  forall (c0 : FilteredSegment) (cs : list FilteredSegment),
    Sorted close_enough (c0 :: cs) ->
    exists taken rest : list FilteredSegment,
      pending = taken ++ rest
      /\ absorb pending (c0 :: cs) = reverse taken ++ c0 :: cs
      /\ Sorted close_enough (reverse taken ++ c0 :: cs)
      /\ (forall d first : FilteredSegment,
            head rest = Some d ->
            head (reverse taken ++ c0 :: cs) = Some first ->
            1.5 < seg_start first - seg_end d).
Proof.
  induction pending as [|seg pending IH]; intros c0 cs Hs.
  - exists [], []. simpl. repeat split; try done.
  - simpl. destruct (Py.leb (seg_start c0 - seg_end seg) 1.5) eqn:Hgap.
    + apply leb_le in Hgap.
      destruct (IH seg (c0 :: cs)) as (taken & rest & -> & Habs & Hsorted & Hstop).
      { constructor; [done|]. by constructor. }
      exists (seg :: taken), rest.
      rewrite reverse_cons, <- app_assoc. simpl. by repeat split.
    + apply leb_gt in Hgap.
      exists [], (seg :: pending). simpl. repeat split; try done.
      intros d first [= <-] [= <-]. done.
Qed.

Lemma last_split {A} (l : list A) (x : A) :
  last l = Some x -> l = take (length l - 1) l ++ [x].
Proof.
  intros H. apply last_Some in H as [l' ->].
  rewrite length_app. simpl.
  replace (length l' + 1 - 1)%nat with (length l') by lia.
  by rewrite take_app_length.
Qed.

(** C6.  The cluster is built from the last usable segment backwards: it is
    a suffix of the usable segments that ends with the last one, every
    segment in it is followed by the next after a pause of at most 1.5 s,
    and the segment just before it (if any) ends more than 1.5 s before the
    cluster starts; nothing earlier than that segment is taken, whatever its
    pauses are. *)
Theorem tail_cluster_is_last_run
    (cluster_source : list FilteredSegment) (last_seg : FilteredSegment) :
  last cluster_source = Some last_seg ->
  let cluster :=
    tail_cluster (take (length cluster_source - 1) cluster_source) last_seg in
  exists dropped : list FilteredSegment,
    cluster_source = dropped ++ cluster
    /\ last cluster = Some last_seg
    /\ Sorted close_enough cluster
    /\ (forall d first : FilteredSegment,
          last dropped = Some d -> head cluster = Some first ->
          1.5 < seg_start first - seg_end d).
Proof.
  intros Hlast cluster.
  pose proof (last_split _ _ Hlast) as Hsplit.
  set (init := take (length cluster_source - 1) cluster_source) in *.
  destruct (absorb_spec (reverse init) last_seg [])
    as (taken & rest & Hrev & Habs & Hsorted & Hstop).
  { repeat constructor. }
  assert (Hinit : init = reverse rest ++ reverse taken).
  { rewrite <- reverse_app, <- Hrev. by rewrite reverse_involutive. }
  assert (Hcl : cluster = reverse taken ++ [last_seg]) by exact Habs.
  exists (reverse rest). rewrite Hcl. repeat split.
  - rewrite Hsplit at 1. rewrite Hinit. by rewrite <- app_assoc.
  - apply last_snoc.
  - done.
  - intros d first Hd Hfirst. apply (Hstop d first); [|done].
    rewrite last_reverse in Hd. done.
Qed.

(** The two cases the specification names: a segment that ends at 10.0 s is
    merged with one that starts at 11.2 s (pause 1.2 s) and not with one
    that starts at 11.6 s (pause 1.6 s); the segment before a pause of 2 s
    is left out. *)
Lemma tail_cluster_is_last_run_witness :
  last [seg_one; seg_two; seg_three] = Some seg_three
  /\ tail_cluster [seg_one; seg_two] seg_three = [seg_two; seg_three]
  /\ tail_cluster [seg_one; seg_two] seg_three_late = [seg_three_late]
  /\ exists dropped : list FilteredSegment,
       [seg_one; seg_two; seg_three]
       = dropped ++ tail_cluster [seg_one; seg_two] seg_three
       /\ last (tail_cluster [seg_one; seg_two] seg_three) = Some seg_three
       /\ Sorted close_enough (tail_cluster [seg_one; seg_two] seg_three)
       /\ (forall d first : FilteredSegment,
             last dropped = Some d ->
             head (tail_cluster [seg_one; seg_two] seg_three) = Some first ->
             1.5 < seg_start first - seg_end d).
Proof.
  split; [reflexivity|]. split; [vm_compute; reflexivity|].
  split; [vm_compute; reflexivity|].
  exact (tail_cluster_is_last_run [seg_one; seg_two; seg_three] seg_three eq_refl).
Defined.

(** ** Restart detection *)

Lemma restart_scan_snoc (segments : list (string * Q)) (segment : string * Q) :
  restart_scan (segments ++ [segment]) = restart_step (restart_scan segments) segment.
Proof. unfold restart_scan. by rewrite fold_left_app. Qed.

Lemma normalized_segments_snoc (before : list FilteredSegment) (seg : FilteredSegment) :
  normalized_segments (before ++ [seg])
  = normalized_segments before ++ [(normalized (seg_text seg), firstWordStart seg)].
Proof. unfold normalized_segments. by rewrite map_app. Qed.

(** On the three attempts 0.3 s apart the source keeps the cutoff at 0: each
    attempt starts within 0.4 s of the one recorded before it.  The rule in
    the words of the specification measures the third attempt against the
    first one (0.6 s) and puts the cutoff at 0.6. *)
Lemma restart_reference_is_not_first_occurrence :
  restart_cutoff_spec stutter_segments = 0.6
  /\ restart_cutoff stutter_segments = 0
  /\ ~ restart_cutoff stutter_segments == restart_cutoff_spec stutter_segments.
Proof.
  split; [vm_compute; reflexivity|]. split; [vm_compute; reflexivity|].
  vm_compute. discriminate.
Qed.

(** C5, as amended.  The walk over the filtered segments keeps one recorded
    start per normalized text.  A segment whose text has a recorded start
    [seen] and that starts more than 0.4 s after it raises the cutoff to
    [max(cutoff, start)] and leaves the record alone; any other segment
    records its own start for its text and leaves the cutoff alone.  With a
    positive cutoff the usable segments are those whose first word starts at
    the cutoff or later, in their order, and the silence end is raised to at
    least the cutoff; otherwise both are left as they are.  Two segments with
    the same normalized text whose starts are more than 0.4 s apart put the
    cutoff at [max(0, start of the second)]. *)
Theorem restart_detection
    (filtered_segments usable_segments : list FilteredSegment)
    (silence_end_time : Q) :
  (forall (before after : list FilteredSegment) (seg : FilteredSegment),
      filtered_segments = before ++ seg :: after ->
      let seen_texts := fst (restart_scan (normalized_segments before)) in
      let cutoff := snd (restart_scan (normalized_segments before)) in
      let text := normalized (seg_text seg) in
      let start_time := firstWordStart seg in
      let state' := restart_scan (normalized_segments (before ++ [seg])) in
      (forall seen : Q, seen_texts !! text = Some seen -> 0.4 < start_time - seen ->
         state' = (seen_texts, Qmax cutoff start_time))
      /\ (forall seen : Q, seen_texts !! text = Some seen -> start_time - seen <= 0.4 ->
            state' = (<[text := start_time]> seen_texts, cutoff))
      /\ (seen_texts !! text = None ->
            state' = (<[text := start_time]> seen_texts, cutoff)))
  /\ (let cutoff := restart_cutoff filtered_segments in
      let usable' := fst (apply_restart cutoff usable_segments silence_end_time) in
      let silence' := snd (apply_restart cutoff usable_segments silence_end_time) in
      (0 < cutoff ->
         usable' `sublist_of` usable_segments
         /\ (forall seg : FilteredSegment,
               seg ∈ usable' <-> seg ∈ usable_segments /\ ~ firstWordStart seg < cutoff)
         /\ silence' = Qmax silence_end_time cutoff
         /\ cutoff <= silence' /\ silence_end_time <= silence')
      /\ (cutoff <= 0 -> usable' = usable_segments /\ silence' = silence_end_time))
  /\ (forall first second : FilteredSegment,
        normalized (seg_text first) = normalized (seg_text second) ->
        0.4 < firstWordStart second - firstWordStart first ->
        restart_cutoff [first; second] = Qmax 0 (firstWordStart second)).
Proof.
  split; [|split].
  - intros before after seg _. cbv zeta.
    rewrite normalized_segments_snoc, restart_scan_snoc.
    destruct (restart_scan (normalized_segments before)) as [seen_texts cutoff].
    simpl. repeat split.
    + intros seen -> Hgap. apply ltb_lt in Hgap. by rewrite Hgap.
    + intros seen -> Hgap. apply ltb_ge in Hgap. by rewrite Hgap.
    + intros ->. done.
  - cbv zeta. unfold apply_restart. split.
    + intros Hpos. apply ltb_lt in Hpos as Hb. rewrite Hb. simpl.
      split.
      { apply sublist_filter. }
      split.
      { intros seg. rewrite list_elem_of_filter, leb_le. split.
        - intros [Hle Hin]. split; [done|]. by apply Qle_not_lt.
        - intros [Hin Hnlt]. split; [|done]. by apply Qnot_lt_le. }
      split; [done|]. split; [apply Q.le_max_r | apply Q.le_max_l].
    + intros Hle. apply ltb_ge in Hle. by rewrite Hle.
  - intros first second Htext Hgap.
    unfold restart_cutoff, restart_scan, normalized_segments. simpl.
    rewrite lookup_empty. unfold restart_step.
    rewrite Htext, lookup_insert_eq.
    apply ltb_lt in Hgap. by rewrite Hgap.
Qed.

(** The retake of the specification: "hello there" at 0.0 s and again at
    2.0 s puts the cutoff at 2.0 and only the second occurrence stays usable. *)
Lemma retake_raises_cutoff :
  restart_cutoff retake_segments = 2.0
  /\ apply_restart (restart_cutoff retake_segments) retake_segments 0.3
     = ([spoken "Hello there" 2.0 3.0], 2.0).
Proof. split; vm_compute; reflexivity. Qed.

(** ** Refinement: the exits that keep the energy window *)

(** Whatever raises inside the refinement raises before the response is
    written to. *)
Lemma propose_window_raise (response : Response) (silence_end_time : Q)
    (filtered_segments : list FilteredSegment) (msg : string) (r : Response) :
  propose_window response silence_end_time filtered_segments = Raise msg r ->
  r = response.
Proof.
  unfold propose_window.
  destruct (apply_restart _ _ _) as [usable silence'].
  destruct (Py.min_list _); [|by intros [= _ <-]].
  destruct (last usable); [|by intros [= _ <-]].
  destruct (Py.max_list _); [|by intros [= _ <-]].
  destruct (Py.ltb _ _); done.
Qed.

Lemma refine_body_raise (response : Response) (silence_end_time : Q)
    (whisper : Transcription) (msg : string) (r : Response) :
  refine_body response silence_end_time whisper = Raise msg r ->
  r = response.
Proof.
  unfold refine_body. destruct whisper as [msg'|segments]; [by intros [= _ <-]|].
  destruct (filter_segments segments) as [|f fs]; [done|].
  destruct (propose_window _ _ _) as [info r'| |msg' r'] eqn:Hp; [| done |].
  - destruct (Py.leb _ _); done.
  - intros [= _ <-]. by apply propose_window_raise in Hp.
Qed.

(** The endpoint after a successful energy stage is the refinement of its
    response. *)
Lemma trim_deadspace_after_energy
    (rms : list Byte.byte -> Q) (request : TrimDeadspaceRequest) (wf : Wav)
    (whisper : Transcription) (silence_end_time : Q) (r : Response) :
  energy_stage rms (initial_response request) (coerce_frame_ms (frameMs request)) wf
  = Next silence_end_time r ->
  trim_deadspace rms request wf whisper = refinement r silence_end_time whisper.
Proof. intros H. unfold trim_deadspace. by rewrite H. Qed.

(** What the energy stage leaves untouched in the initial response. *)
Lemma energy_stage_keeps
    (rms : list Byte.byte -> Q) (request : TrimDeadspaceRequest) (wf : Wav)
    (silence_end_time : Q) (r : Response) :
  energy_stage rms (initial_response request) (coerce_frame_ms (frameMs request)) wf
  = Next silence_end_time r ->
  speechDetected r = true /\ analysisSource r = "transcript"
  /\ transcript r = None /\ error r = None.
Proof.
  intros H. destruct (energy_stage_next _ _ _ _ _ _ H)
    as (_ & _ & s1 & e1 & others & sL & eL & t1 & tL & tE & _ & _ & _ & _ & _ & _ & _
        & Hdet & _ & _ & _ & _ & _ & _ & _ & _ & Hsrc & Htr & Herr).
  by rewrite Hdet, Hsrc, Htr, Herr.
Qed.

(** The exit for a transcript without spoken words. *)
Lemma trim_deadspace_no_spoken_words
    (rms : list Byte.byte -> Q) (request : TrimDeadspaceRequest) (wf : Wav)
    (segments : list RawSegment) (silence_end_time : Q) (r : Response) :
  energy_stage rms (initial_response request) (coerce_frame_ms (frameMs request)) wf
  = Next silence_end_time r ->
  filter_segments segments = [] ->
  trim_deadspace rms request wf (WhisperSegments segments)
  = with_error r "Transcript contained no spoken words.".
Proof.
  intros Henergy Hfilter.
  rewrite (trim_deadspace_after_energy _ _ _ _ _ _ Henergy).
  unfold refinement, refine_body. by rewrite Hfilter.
Qed.

(** The exit through the handler of the refinement. *)
Lemma trim_deadspace_refinement_raises
    (rms : list Byte.byte -> Q) (request : TrimDeadspaceRequest) (wf : Wav)
    (whisper : Transcription) (silence_end_time : Q) (r r' : Response)
    (msg : string) :
  energy_stage rms (initial_response request) (coerce_frame_ms (frameMs request)) wf
  = Next silence_end_time r ->
  refine_body r silence_end_time whisper = Raise msg r' ->
  trim_deadspace rms request wf whisper
  = set_transcript r
      {| info_start := None; info_end := None; info_segments := [];
         info_error := Some msg |}.
Proof.
  intros Henergy Hraise.
  pose proof (refine_body_raise _ _ _ _ _ Hraise) as ->.
  rewrite (trim_deadspace_after_energy _ _ _ _ _ _ Henergy).
  unfold refinement. by rewrite Hraise.
Qed.

(** With no usable transcript the result is the energy window, labelled
    "transcript" like every response: the source never writes "energy". *)
Lemma empty_transcript_source_is_not_energy :
  filter_segments [] = []
  /\ speechDetected (trim_deadspace rms_flat demo_request demo_wav (WhisperSegments []))
     = true
  /\ analysisSource (trim_deadspace rms_flat demo_request demo_wav (WhisperSegments []))
     = "transcript"
  /\ analysisSource (trim_deadspace rms_flat demo_request demo_wav (WhisperSegments []))
     ≠ "energy".
Proof.
  split; [reflexivity|]. split; [vm_compute; reflexivity|].
  split; [vm_compute; reflexivity|].
  vm_compute. discriminate.
Qed.

(** C7, as amended.  When the energy stage succeeded and no transcript
    segment survives the filter (the list is empty or every segment is
    dropped), the result is the response of the energy stage with the note
    "Transcript contained no spoken words." under [error]: speech is
    detected, the window and the confidence are the energy ones,
    [transcript] is absent, and [analysisSource] keeps its initial value
    "transcript". *)
Theorem empty_transcript_keeps_energy_window
    (rms : list Byte.byte -> Q) (request : TrimDeadspaceRequest) (wf : Wav)
    (segments : list RawSegment) (silence_end_time : Q) (r : Response) :
  energy_stage rms (initial_response request) (coerce_frame_ms (frameMs request)) wf
  = Next silence_end_time r ->
  filter_segments segments = [] ->
  let result := trim_deadspace rms request wf (WhisperSegments segments) in
  result = with_error r "Transcript contained no spoken words."
  /\ speechDetected result = true
  /\ analysisSource result = "transcript"
  /\ transcript result = None
  /\ error result = Some "Transcript contained no spoken words."
  /\ speechStart result = speechStart r /\ speechEnd result = speechEnd r
  /\ speechDuration result = speechDuration r
  /\ trimStart result = trimStart r /\ trimEnd result = trimEnd r
  /\ confidence result = confidence r /\ duration result = duration r.
Proof.
  intros Henergy Hfilter result.
  destruct (energy_stage_keeps _ _ _ _ _ Henergy) as (Hdet & Hsrc & Htr & _).
  assert (Hres : result = with_error r "Transcript contained no spoken words.")
    by exact (trim_deadspace_no_spoken_words _ _ _ _ _ _ Henergy Hfilter).
  rewrite Hres. simpl. by repeat split.
Qed.

Lemma empty_transcript_keeps_energy_window_witness :
  exists (silence_end_time : Q) (r : Response),
    energy_stage rms_flat (initial_response demo_request)
      (coerce_frame_ms (frameMs demo_request)) demo_wav
    = Next silence_end_time r
    /\ filter_segments [plain_segment "uh" 0.3 0.32 0.1; plain_segment "" 0.4 0.8 0.95]
       = []
    /\ trim_deadspace rms_flat demo_request demo_wav
         (WhisperSegments [plain_segment "uh" 0.3 0.32 0.1; plain_segment "" 0.4 0.8 0.95])
       = with_error r "Transcript contained no spoken words.".
Proof.
  eexists _, _. split; [vm_compute; reflexivity|].
  split; [vm_compute; reflexivity|].
  apply (empty_transcript_keeps_energy_window rms_flat demo_request demo_wav
           [plain_segment "uh" 0.3 0.32 0.1; plain_segment "" 0.4 0.8 0.95]
           (9600 # 32000)).
  - vm_compute; reflexivity.
  - vm_compute; reflexivity.
Defined.

(** C8.  When the energy stage succeeded and anything raises inside the
    refinement, the handler returns the response of the energy stage with
    the message of the exception under [transcript["error"]]: the window,
    the duration and the confidence are the energy ones, speech stays
    detected, and no [error] key is set on the response. *)
Theorem refinement_failure_keeps_energy_window
    (rms : list Byte.byte -> Q) (request : TrimDeadspaceRequest) (wf : Wav)
    (whisper : Transcription) (silence_end_time : Q) (r r' : Response)
    (msg : string) :
  energy_stage rms (initial_response request) (coerce_frame_ms (frameMs request)) wf
  = Next silence_end_time r ->
  refine_body r silence_end_time whisper = Raise msg r' ->
  let result := trim_deadspace rms request wf whisper in
  result
  = set_transcript r
      {| info_start := None; info_end := None; info_segments := [];
         info_error := Some msg |}
  /\ speechDetected result = true
  /\ speechStart result = speechStart r /\ speechEnd result = speechEnd r
  /\ speechDuration result = speechDuration r
  /\ trimStart result = trimStart r /\ trimEnd result = trimEnd r
  /\ confidence result = confidence r /\ duration result = duration r
  /\ (exists info : TranscriptInfo,
        transcript result = Some info /\ info_error info = Some msg
        /\ info_segments info = [])
  /\ error result = None.
Proof.
  intros Henergy Hraise result.
  destruct (energy_stage_keeps _ _ _ _ _ Henergy) as (Hdet & _ & _ & Herr).
  assert (Hres : result = set_transcript r
                            {| info_start := None; info_end := None;
                               info_segments := []; info_error := Some msg |})
    by exact (trim_deadspace_refinement_raises _ _ _ _ _ _ _ _ Henergy Hraise).
  rewrite Hres. simpl. repeat split; try done.
  eexists. by repeat split.
Qed.

(** On the 1.8 s recording, a transcript that repeats "hi" at 1.0 s, outside
    the energy window, puts the restart cutoff at 1.0 s; no usable segment is
    left, [min()] raises, and the energy window is returned. *)
Lemma refinement_failure_keeps_energy_window_witness :
  exists (silence_end_time : Q) (r : Response),
    energy_stage rms_flat (initial_response demo_request)
      (coerce_frame_ms (frameMs demo_request)) burst_wav
    = Next silence_end_time r
    /\ refine_body r silence_end_time
         (WhisperSegments [plain_segment "hi" 0.3 0.4 0.1; plain_segment "Hi" 1.0 1.5 0.1])
       = Raise "min() arg is an empty sequence" r
    /\ trim_deadspace rms_flat demo_request burst_wav
         (WhisperSegments [plain_segment "hi" 0.3 0.4 0.1; plain_segment "Hi" 1.0 1.5 0.1])
       = set_transcript r
           {| info_start := None; info_end := None; info_segments := [];
              info_error := Some "min() arg is an empty sequence" |}.
Proof.
  eexists _, _. split; [vm_compute; reflexivity|].
  split; [vm_compute; reflexivity|].
  eapply (refinement_failure_keeps_energy_window rms_flat demo_request burst_wav
            (WhisperSegments [plain_segment "hi" 0.3 0.4 0.1; plain_segment "Hi" 1.0 1.5 0.1])
            (9600 # 32000)).
  - vm_compute; reflexivity.
  - vm_compute; reflexivity.
Defined.

(** ** Refinement: the acceptance rule *)

Lemma tail_cluster_nonempty (init : list FilteredSegment) (last_seg : FilteredSegment) :
  tail_cluster init last_seg ≠ [].
Proof.
  unfold tail_cluster.
  destruct (absorb_spec (reverse init) last_seg []) as (taken & rest & _ & -> & _).
  { repeat constructor. }
  intros H. apply app_eq_nil in H as [_ H]. done.
Qed.

Lemma window_segments_nil (window_start window_end : Q) :
  window_segments window_start window_end [] = [].
Proof. reflexivity. Qed.

Lemma apply_restart_nil (cutoff silence_end_time : Q) :
  fst (apply_restart cutoff [] silence_end_time) = [].
Proof. unfold apply_restart. by destruct (Py.ltb 0 cutoff). Qed.

Lemma refine_body_nonempty (response : Response) (silence_end_time : Q)
    (segments : list RawSegment) :
  filter_segments segments ≠ [] ->
  refine_body response silence_end_time (WhisperSegments segments)
  = match propose_window response silence_end_time (filter_segments segments) with
    | Raise msg r => Raise msg r
    | Return r => Return r
    | Next transcript_info response =>
        if Py.leb (speechEnd response) (speechStart response)
        then Return (with_error (set_speechDetected response false)
                       "Unable to identify speech boundaries from transcript.")
        else Next tt (set_transcript (set_speechDetected response true)
                        (default empty_transcript_info transcript_info))
    end.
Proof.
  intros Hne. unfold refine_body.
  destruct (filter_segments segments) as [|f0 fs]; [done|reflexivity].
Qed.

Lemma propose_window_eq (response : Response) (silence_end_time : Q)
    (filtered usable : list FilteredSegment) (silence' first_word cluster_end : Q)
    (last_seg : FilteredSegment) :
  apply_restart (restart_cutoff filtered)
    (window_segments (speechStart response) (speechEnd response) filtered)
    silence_end_time = (usable, silence') ->
  Py.min_list (map firstWordStart usable) = Some first_word ->
  last usable = Some last_seg ->
  Py.max_list
    (map lastWordEnd (tail_cluster (take (length usable - 1) usable) last_seg))
  = Some cluster_end ->
  let cluster := tail_cluster (take (length usable - 1) usable) last_seg in
  let overall_first_word := Qmax silence' first_word in
  let overall_head_trim := Qmax 0 (overall_first_word - padding_pre response) in
  let transcript_trim_end :=
    Qmin (duration response) (cluster_end + padding_post response) in
  propose_window response silence_end_time filtered
  = if Py.ltb overall_head_trim transcript_trim_end
    then Next (Some (transcript_info_of overall_first_word cluster_end cluster))
           (accept_transcript response overall_first_word silence'
              cluster_end overall_head_trim transcript_trim_end cluster)
    else Next None response.
Proof.
  intros Hpair Hmin Hlast Hmax. cbv zeta. unfold propose_window.
  rewrite Hpair, Hmin, Hlast, Hmax. reflexivity.
Qed.

(** C2, as amended.  When the usable set is not empty the refinement computes
    [overall_first_word], [overall_head_trim], the tail cluster, [cluster_end]
    and [transcript_trim_end] without raising, and it writes the transcript
    window if and only if [transcript_trim_end > overall_head_trim].  When it
    does, [speechStart], [speechEnd], [speechDuration], [trimStart],
    [trimEnd], [confidence] and [analysisSource] are the transcript ones;
    [transcript] is filled from the cluster when the final guard passes
    ([speechEnd > speechStart]), and otherwise the response is returned with
    [speechDetected] false, an error, and [transcript] as it was.  When it
    does not, the window and the confidence are left as the energy stage
    wrote them. *)
Theorem transcript_window_acceptance
    (response : Response) (silence_end_time : Q) (segments : list RawSegment) :
  let filtered := filter_segments segments in
  let windowed :=
    window_segments (speechStart response) (speechEnd response) filtered in
  let usable :=
    fst (apply_restart (restart_cutoff filtered) windowed silence_end_time) in
  let silence' :=
    snd (apply_restart (restart_cutoff filtered) windowed silence_end_time) in
  usable ≠ [] ->
  exists (first_word cluster_end : Q) (last_seg : FilteredSegment),
    Py.min_list (map firstWordStart usable) = Some first_word
    /\ last usable = Some last_seg
    /\ let cluster := tail_cluster (take (length usable - 1) usable) last_seg in
       let overall_first_word := Qmax silence' first_word in
       let overall_head_trim := Qmax 0 (overall_first_word - padding_pre response) in
       let transcript_trim_end :=
         Qmin (duration response) (cluster_end + padding_post response) in
       let result := refinement response silence_end_time (WhisperSegments segments) in
       Py.max_list (map lastWordEnd cluster) = Some cluster_end
       /\ (overall_head_trim < transcript_trim_end ->
           speechStart result = Qmax overall_first_word silence'
           /\ speechEnd result = cluster_end
           /\ speechDuration result = Qmax 0 (cluster_end - speechStart result)
           /\ trimStart result = overall_head_trim
           /\ trimEnd result = transcript_trim_end
           /\ confidence result
              = Qmax (confidence response) (mean_speech_prob cluster)
           /\ analysisSource result = "transcript"
           /\ (speechStart result < cluster_end ->
               speechDetected result = true
               /\ transcript result
                  = Some {| info_start := Some overall_first_word;
                            info_end := Some cluster_end;
                            info_segments := map echo_segment cluster;
                            info_error := None |}
               /\ error result = error response)
           /\ (cluster_end <= speechStart result ->
               speechDetected result = false
               /\ transcript result = transcript response
               /\ error result
                  = Some "Unable to identify speech boundaries from transcript."))
       /\ (transcript_trim_end <= overall_head_trim ->
           speechStart result = speechStart response
           /\ speechEnd result = speechEnd response
           /\ speechDuration result = speechDuration response
           /\ trimStart result = trimStart response
           /\ trimEnd result = trimEnd response
           /\ confidence result = confidence response
           /\ analysisSource result = analysisSource response).
Proof.
  intros filtered windowed usable silence' Hne.
  assert (Hfilt : filter_segments segments ≠ []).
  { intros Hnil. apply Hne. subst usable windowed filtered. rewrite Hnil.
    rewrite window_segments_nil. apply apply_restart_nil. }
  assert (Hpair : apply_restart (restart_cutoff filtered) windowed silence_end_time
                  = (usable, silence')) by apply surjective_pairing.
  destruct (Py.min_list (map firstWordStart usable)) as [first_word|] eqn:Hmin;
    [|by destruct usable].
  destruct (last usable) as [last_seg|] eqn:Hlast; [|by apply last_None in Hlast].
  set (cluster := tail_cluster (take (length usable - 1) usable) last_seg).
  destruct (Py.max_list (map lastWordEnd cluster)) as [cluster_end|] eqn:Hmax.
  2:{ exfalso. destruct cluster eqn:Hc; [|done].
      by apply (tail_cluster_nonempty _ _ Hc). }
  exists first_word, cluster_end, last_seg.
  split; [done|]. split; [done|]. cbv zeta. fold cluster.
  split; [done|].
  unfold refinement. rewrite (refine_body_nonempty _ _ _ Hfilt).
  fold filtered.
  rewrite (propose_window_eq _ _ _ _ _ _ _ _ Hpair Hmin Hlast Hmax).
  fold cluster. split.
  - intros Haccept. apply ltb_lt in Haccept. rewrite Haccept.
    destruct (Py.leb _ _) eqn:Hguard; simpl in Hguard |- *.
    + apply leb_le in Hguard.
      repeat split; try done.
      all: exfalso; eapply Qle_not_lt; [exact Hguard | eassumption].
    + apply leb_gt in Hguard.
      repeat split; try done.
      all: exfalso; eapply Qle_not_lt; [eassumption | exact Hguard].
  - intros Hreject. apply ltb_ge in Hreject. rewrite Hreject.
    destruct (Py.leb _ _); simpl; by repeat split.
Qed.

(** On the 0.9 s recording the energy window starts at 0.3 s.  A transcript
    whose only segment is spoken from 0.05 s to 0.2 s is accepted
    ([transcript_trim_end] 0.8 > [overall_head_trim] 0.22), the response gets
    [speechStart] 0.3 and [speechEnd] 0.2, and the final guard returns it
    with [speechDetected] false and no [transcript]. *)
Lemma accepted_window_without_transcript :
  exists (silence_end_time : Q) (r r' : Response) (info : TranscriptInfo),
    energy_stage rms_flat (initial_response demo_request)
      (coerce_frame_ms (frameMs demo_request)) demo_wav
    = Next silence_end_time r
    /\ propose_window r silence_end_time
         (filter_segments [plain_segment "hello" 0.05 0.2 0.1])
       = Next (Some info) r'
    /\ info_segments info = [echo_segment (spoken "hello" 0.05 0.2)]
    /\ trimStart r' < trimEnd r'
    /\ transcript (trim_deadspace rms_flat demo_request demo_wav
                     (WhisperSegments [plain_segment "hello" 0.05 0.2 0.1]))
       = None
    /\ speechDetected (trim_deadspace rms_flat demo_request demo_wav
                         (WhisperSegments [plain_segment "hello" 0.05 0.2 0.1]))
       = false.
Proof.
  eexists _, _, _, _. split; [vm_compute; reflexivity|].
  split; [vm_compute; reflexivity|].
  split; [vm_compute; reflexivity|].
  split; [vm_compute; reflexivity|].
  split; vm_compute; reflexivity.
Qed.

(** On the 1.8 s recording, "hi" at 0.3-0.4 s followed by "there" at
    0.5-1.7 s is accepted and passes the guard. *)
Lemma transcript_window_acceptance_witness :
  exists (silence_end_time : Q) (r : Response),
    energy_stage rms_flat (initial_response demo_request)
      (coerce_frame_ms (frameMs demo_request)) burst_wav
    = Next silence_end_time r
    /\ fst (apply_restart
              (restart_cutoff
                 (filter_segments [plain_segment "hi" 0.3 0.4 0.1;
                                   plain_segment "there" 0.5 1.7 0.1]))
              (window_segments (speechStart r) (speechEnd r)
                 (filter_segments [plain_segment "hi" 0.3 0.4 0.1;
                                   plain_segment "there" 0.5 1.7 0.1]))
              silence_end_time) ≠ []
    /\ exists (first_word cluster_end : Q) (last_seg : FilteredSegment),
         Py.min_list
           (map firstWordStart
              (fst (apply_restart
                      (restart_cutoff
                         (filter_segments [plain_segment "hi" 0.3 0.4 0.1;
                                           plain_segment "there" 0.5 1.7 0.1]))
                      (window_segments (speechStart r) (speechEnd r)
                         (filter_segments [plain_segment "hi" 0.3 0.4 0.1;
                                           plain_segment "there" 0.5 1.7 0.1]))
                      silence_end_time)))
         = Some first_word
         /\ first_word = 0.3 /\ cluster_end = 1.7
         /\ last_seg = spoken "there" 0.5 1.7.
Proof.
  eexists _, _. split; [vm_compute; reflexivity|].
  split; [vm_compute; discriminate|].
  destruct (transcript_window_acceptance
              (mkResponse true (9600 # 32000) (13440000 # 32000000)
                 (122880000000 # 1024000000000) (704000 # 3200000)
                 (326400000 # 320000000) (28800 # 16000) (4 # 60) 0.08 0.6
                 "transcript" None None)
              (9600 # 32000)
              [plain_segment "hi" 0.3 0.4 0.1; plain_segment "there" 0.5 1.7 0.1]
              ltac:(vm_compute; discriminate))
    as (first_word & cluster_end & last_seg & Hmin & Hlast & Hmax & _).
  exists first_word, cluster_end, last_seg.
  split; [exact Hmin|].
  vm_compute in Hmin, Hlast, Hmax.
  injection Hmin as <-. injection Hlast as <-. injection Hmax as <-.
  split; [reflexivity|]. split; reflexivity.
Defined.

(** ** The returned window *)

(** The window of the energy stage, for the request as the endpoint reads
    it: the paddings are clamped at 0 and the frame duration is coerced. *)
Lemma energy_window_of_request
    (rms : list Byte.byte -> Q) (request : TrimDeadspaceRequest) (wf : Wav)
    (silence_end_time : Q) (r : Response) :
  energy_stage rms (initial_response request) (coerce_frame_ms (frameMs request)) wf
  = Next silence_end_time r ->
  speechDetected r = true
  /\ 0 <= trimStart r /\ trimStart r <= speechStart r
  /\ speechStart r < speechEnd r
  /\ speechEnd r <= trimEnd r /\ trimEnd r <= duration r.
Proof.
  intros H.
  destruct (energy_window_ordered rms (initial_response request) _ wf _ _
              (coerce_frame_ms_cases _) (Q.le_max_l _ _) (Q.le_max_l _ _) H)
    as (Hdet & _ & Hrest).
  by split.
Qed.

(** The exits that return the energy window return it ordered and inside
    the recording: the exit for a transcript without spoken words, and the
    handler of the refinement. *)
Lemma energy_exits_ordered
    (rms : list Byte.byte -> Q) (request : TrimDeadspaceRequest) (wf : Wav)
    (whisper : Transcription) (silence_end_time : Q) (r : Response) :
  energy_stage rms (initial_response request) (coerce_frame_ms (frameMs request)) wf
  = Next silence_end_time r ->
  (exists segments : list RawSegment,
      whisper = WhisperSegments segments /\ filter_segments segments = [])
  \/ (exists (msg : string) (r' : Response),
        refine_body r silence_end_time whisper = Raise msg r') ->
  let result := trim_deadspace rms request wf whisper in
  speechDetected result = true
  /\ 0 <= trimStart result /\ trimStart result <= speechStart result
  /\ speechStart result <= speechEnd result
  /\ speechEnd result <= trimEnd result /\ trimEnd result <= duration result.
Proof.
  intros Henergy Hexit result.
  destruct (energy_window_of_request _ _ _ _ _ Henergy)
    as (Hdet & H0 & H1 & H2 & H3 & H4).
  assert (Hfields : speechDetected result = speechDetected r
                    /\ trimStart result = trimStart r
                    /\ speechStart result = speechStart r
                    /\ speechEnd result = speechEnd r
                    /\ trimEnd result = trimEnd r
                    /\ duration result = duration r).
  { destruct Hexit as [(segments & -> & Hnil) | (msg & r' & Hraise)].
    - subst result.
      rewrite (trim_deadspace_no_spoken_words _ _ _ _ _ _ Henergy Hnil).
      by repeat split.
    - subst result.
      rewrite (trim_deadspace_refinement_raises _ _ _ _ _ _ _ _ Henergy Hraise).
      by repeat split. }
  destruct Hfields as (-> & -> & -> & -> & -> & ->).
  repeat split; try done. by apply Qlt_le_weak.
Qed.

(** The response that the refinement leaves when it takes the transcript
    window need not be ordered.  On the 1.8 s recording, a transcript whose
    last segment is reported to end at 2.0 s is accepted: the response has
    [speechDetected] true, [speechEnd] 2.0 and [trimEnd] 1.8, the duration
    of the recording; line 619 stores [cluster_end] as it is, where line 624
    clamps [trimEnd].  No [return] is executed on this path. *)
Lemma transcript_speech_end_past_duration :
  let result :=
    trim_deadspace rms_flat demo_request burst_wav
      (WhisperSegments [plain_segment "hi" 0.3 0.4 0.1;
                        plain_segment "there" 0.5 2.0 0.1]) in
  speechDetected result = true
  /\ error result = None
  /\ duration result == 1.8
  /\ speechEnd result == 2.0
  /\ trimEnd result == 1.8
  /\ trimEnd result < speechEnd result
  /\ duration result < speechEnd result
  /\ ~ (speechEnd result <= trimEnd result).
Proof.
  cbv zeta.
  split; [vm_compute; reflexivity|]. split; [vm_compute; reflexivity|].
  split; [vm_compute; reflexivity|]. split; [vm_compute; reflexivity|].
  split; [vm_compute; reflexivity|]. split; [vm_compute; reflexivity|].
  split; [vm_compute; reflexivity|].
  vm_compute. intros H. apply H. reflexivity.
Qed.

(** ** The model on concrete data *)

Lemma sum_squares_flat (a : Z) (samples : list Z) :
  flat a samples ->
  forall acc : Z,
    fold_left Z.add (map (fun s => s * s)%Z samples) acc
    = (acc + Z.of_nat (length samples) * (a * a))%Z.
Proof.
  induction 1 as [|s samples Hs _ IH]; intros acc; simpl fold_left.
  - simpl. lia.
  - rewrite IH. rewrite <- Hs, Z.abs_square. simpl length. lia.
Qed.

(** [rms_flat] is the RMS of every frame whose samples have one magnitude. *)
Lemma rms_flat_is_rms (a : Z) (frame : list Byte.byte) :
  flat a (samples_of frame) -> samples_of frame ≠ [] ->
  is_rms frame (rms_flat frame) /\ rms_flat frame = inject_Z a.
Proof.
  intros Hflat Hne. unfold is_rms, rms_flat, mean_square.
  rewrite (sum_squares_flat a _ Hflat).
  destruct (samples_of frame) as [|s samples] eqn:Hs; [done|].
  apply Forall_cons in Hflat as [Habs _]. rewrite Habs.
  assert (Ha : (0 <= a)%Z) by (rewrite <- Habs; apply Z.abs_nonneg).
  split; [|done]. split.
  - change 0 with (inject_Z 0). by rewrite <- Zle_Qle.
  - rewrite Z.add_0_l, inject_Z_mult, inject_Z_mult.
    field. change 0 with (inject_Z 0). rewrite inject_Z_injective.
    simpl length. lia.
Qed.

(** The frames of the recordings are flat: the loud one has RMS 1000. *)
Lemma demo_frames_rms :
  rms_flat loud_frame = 1000 /\ is_rms loud_frame 1000
  /\ rms_flat quiet_frame = 0 /\ is_rms quiet_frame 0.
Proof.
  destruct (rms_flat_is_rms 1000 loud_frame) as [H1 H2].
  { apply Forall_forall. intros s Hs. vm_compute in Hs.
    repeat (apply elem_of_cons in Hs as [->|Hs]; [reflexivity|]).
    by apply elem_of_nil in Hs. }
  { vm_compute. discriminate. }
  destruct (rms_flat_is_rms 0 quiet_frame) as [H3 H4].
  { apply Forall_forall. intros s Hs. vm_compute in Hs.
    repeat (apply elem_of_cons in Hs as [->|Hs]; [reflexivity|]).
    by apply elem_of_nil in Hs. }
  { vm_compute. discriminate. }
  rewrite H2 in H1. rewrite H4 in H3. by repeat split.
Qed.

(** [numpy.percentile] on eleven evenly spaced values, and the threshold
    they give: [max(600 * 1.5, 950 * 0.2, 50.0)]. *)
Lemma percentile_examples :
  percentile [0; 100; 200; 300; 400; 500; 600; 700; 800; 900; 1000] 60 == 600
  /\ percentile [1000; 0; 900; 100; 800; 200; 700; 300; 600; 400; 500] 95 == 950
  /\ percentile [10; 20] 60 == 16
  /\ percentile [7] 95 == 7
  /\ threshold [0; 100; 200; 300; 400; 500; 600; 700; 800; 900; 1000] == 900
  /\ threshold [0; 0; 0; 0; 0; 3; 0; 0; 0; 0] == 50.
Proof. repeat split; vm_compute; reflexivity. Qed.

(** Text helpers on the strings Whisper produces. *)
Lemma text_examples :
  PyStr.strip "  Hello there " = "Hello there"
  /\ PyStr.split "a  b	c" = ["a"; "b"; "c"]
  /\ normalized " Hello   THERE " = "hello there"
  /\ normalized "" = "".
Proof. repeat split; vm_compute; reflexivity. Qed.

(** The segment filter: a segment shorter than 0.05 s, one that is probably
    not speech, and one of no duration are dropped; a segment without words
    gets one pseudo-word; times are clamped at 0.  A segment without
    [no_speech_prob] counts as probability 1.0 and is dropped. *)
Lemma filter_examples :
  filter_segments
    [plain_segment "uh" 0.3 0.32 0.1; plain_segment "noise" 0.4 0.8 0.9;
     plain_segment "gone" 0.5 0.5 0.1; plain_segment " hello " (-0.2) 0.6 0.1]
  = [spoken "hello" 0 0.6]
  /\ filter_segments
       [mkRawSegment (Some "hi there") (Some 1.0) (Some 2.0) None
          [mkRawWord (Some 1.1) (Some 1.4) (Some " hi");
           mkRawWord (Some 1.5) (Some 1.9) (Some "there")]]
     = [].
Proof. split; vm_compute; reflexivity. Qed.

(** * Further properties of the source *)

(** ** The segment filter (src/partial.py, lines 494-546) *)

Lemma max_of_bounds (l : list Q) :
  forall x : Q, x <= Py.max_of x l /\ Forall (fun y => y <= Py.max_of x l) l.
Proof.
  induction l as [|y l IH]; intros x; unfold Py.max_of; simpl.
  - split; [apply Qle_refl | constructor].
  - destruct (IH (Qmax x y)) as [H1 H2]. unfold Py.max_of in H1, H2.
    split; [|constructor; [|done]].
    + eapply Qle_trans; [apply Q.le_max_l | exact H1].
    + eapply Qle_trans; [apply Q.le_max_r | exact H1].
Qed.

Lemma min_of_bounds (l : list Q) :
  forall x : Q, Py.min_of x l <= x /\ Forall (fun y => Py.min_of x l <= y) l.
Proof.
  induction l as [|y l IH]; intros x; unfold Py.min_of; simpl.
  - split; [apply Qle_refl | constructor].
  - destruct (IH (Qmin x y)) as [H1 H2]. unfold Py.min_of in H1, H2.
    split; [|constructor; [|done]].
    + eapply Qle_trans; [exact H1 | apply Q.le_min_l].
    + eapply Qle_trans; [exact H1 | apply Q.le_min_r].
Qed.

Lemma adjust_word_bounds (start end_ : Q) (word : RawWord) (w : Word) :
  adjust_word start end_ word = Some w ->
  0 <= word_start w /\ word_start w <= word_end w /\ word_text w ≠ EmptyString.
Proof.
  unfold adjust_word.
  destruct (PyStr.is_empty _) eqn:Htext; [done|]. intros [= <-]. simpl.
  split; [apply Q.le_max_l|]. split; [apply Q.le_max_l|].
  intros E. rewrite E in Htext. done.
Qed.

Lemma filter_segment_is_Some (seg : RawSegment) :
  is_Some (filter_segment seg)
  <-> 0.05 <= Qmax (_adjust_time (default 0 (raw_start seg))) (default 0 (raw_end seg))
              - _adjust_time (default 0 (raw_start seg))
      /\ default 1 (raw_no_speech_prob seg) < 0.9.
Proof.
  unfold filter_segment.
  set (start := _adjust_time (default 0 (raw_start seg))).
  set (end_ := Qmax start (default 0 (raw_end seg))).
  set (nsp := default 1 (raw_no_speech_prob seg)).
  set (text := PyStr.strip (default EmptyString (raw_text seg))).
  assert (Hse : start <= end_) by apply Q.le_max_l.
  assert (Hdur : Qmax 0 (end_ - start) = end_ - start \/ end_ - start <= 0).
  { destruct (Qlt_le_dec 0 (end_ - start)) as [H|H]; [left|by right].
    by apply Qmax_right. }
  assert (Htests : forall (w : Word) (ws : list Word),
             is_Some (match (w :: ws) with
                      | [] => None
                      | w0 :: ws0 =>
                          if Py.ltb (Qmax 0 (end_ - start)) 0.05 then None
                          else if Py.leb 0.9 nsp then None
                          else Some {| seg_start := start; seg_end := end_;
                                       seg_text := text; seg_no_speech_prob := nsp;
                                       seg_words := w :: ws;
                                       firstWordStart := word_start w0;
                                       lastWordEnd :=
                                         Py.max_of (word_end w0) (map word_end ws0) |}
                      end)
             <-> 0.05 <= end_ - start /\ nsp < 0.9).
  { intros w ws.
    destruct (Py.ltb (Qmax 0 (end_ - start)) 0.05) eqn:Hshort.
    - apply ltb_lt in Hshort. split; [by intros [? ?]|]. intros [Hlong _].
      exfalso. destruct Hdur as [E|Hneg]; [rewrite E in Hshort; lra|lra].
    - apply ltb_ge in Hshort.
      assert (Hlong : 0.05 <= end_ - start).
      { destruct Hdur as [E|Hneg]; [by rewrite E in Hshort|].
        rewrite (Qmax_left 0 (end_ - start) Hneg) in Hshort. lra. }
      destruct (Py.leb 0.9 nsp) eqn:Hnsp.
      + apply leb_le in Hnsp. split; [by intros [? ?]|]. intros [_ Hlt]. lra.
      + apply leb_gt in Hnsp. split; [done|]. intros _. by eexists. }
  destruct (omap (adjust_word start end_) (raw_words seg)) as [|w ws].
  - destruct (Py.leb (Qmax 0 (end_ - start)) 0) eqn:Hzero.
    + apply leb_le in Hzero. split; [by intros [? ?]|]. intros [Hlong _].
      exfalso. destruct Hdur as [E|Hneg]; [rewrite E in Hzero; lra|lra].
    + apply Htests.
  - apply Htests.
Qed.

(** The three tests of the filter collapse to two: a segment is kept exactly
    when its clamped duration is at least 0.05 s and its no-speech
    probability (1.0 when Whisper gives none) is below 0.9.  The word list
    never decides: a segment of that duration without usable words gets a
    pseudo-word. *)
Theorem filter_keeps_iff (seg : RawSegment) :
  let start := _adjust_time (default 0 (raw_start seg)) in
  let end_ := Qmax start (default 0 (raw_end seg)) in
  let no_speech_prob := default 1 (raw_no_speech_prob seg) in
  is_Some (filter_segment seg)
  <-> 0.05 <= end_ - start /\ no_speech_prob < 0.9.
Proof.
  cbv zeta. split.
  - intros H. by apply filter_segment_is_Some.
  - intros [Hlong Hnsp]. apply filter_segment_is_Some. by split.
Qed.

(** Every segment that passes the filter is well formed: it starts at or
    after 0 and lasts at least 0.05 s, its no-speech probability is below
    0.9, it has at least one word, [firstWordStart] is the start of its
    first word, and every word starts at or after 0, ends no earlier than it
    starts and no later than [lastWordEnd]. *)
Theorem filtered_segments_well_formed (segments : list RawSegment) :
  Forall
    (fun f : FilteredSegment =>
       0 <= seg_start f
       /\ 0.05 <= seg_end f - seg_start f
       /\ seg_no_speech_prob f < 0.9
       /\ (exists (w : Word) (ws : list Word),
             seg_words f = w :: ws /\ firstWordStart f = word_start w)
       /\ 0 <= firstWordStart f
       /\ firstWordStart f <= lastWordEnd f
       /\ Forall (fun w : Word =>
                    0 <= word_start w /\ word_start w <= word_end w
                    /\ word_end w <= lastWordEnd f)
            (seg_words f))
    (filter_segments segments).
Proof.
  apply Forall_forall. intros f Hf.
  apply list_elem_of_omap in Hf as (seg & _ & Hf).
  pose proof (proj1 (filter_segment_is_Some seg) (mk_is_Some _ _ Hf)) as Hkeep.
  revert Hf Hkeep. unfold filter_segment.
  set (start := _adjust_time (default 0 (raw_start seg))).
  set (end_ := Qmax start (default 0 (raw_end seg))).
  set (nsp := default 1 (raw_no_speech_prob seg)).
  set (text := PyStr.strip (default EmptyString (raw_text seg))).
  set (real := omap (adjust_word start end_) (raw_words seg)).
  intros Hf [Hlong Hnsp].
  assert (H0 : 0 <= start) by apply Q.le_max_l.
  assert (Hse : start <= end_) by apply Q.le_max_l.
  assert (Hwords : exists (w : Word) (ws : list Word),
             Forall (fun w => 0 <= word_start w /\ word_start w <= word_end w) (w :: ws)
             /\ f = {| seg_start := start; seg_end := end_; seg_text := text;
                       seg_no_speech_prob := nsp; seg_words := w :: ws;
                       firstWordStart := word_start w;
                       lastWordEnd := Py.max_of (word_end w) (map word_end ws) |}).
  { assert (Hreal : Forall (fun w => 0 <= word_start w /\ word_start w <= word_end w) real).
    { apply Forall_forall. intros w Hw.
      apply list_elem_of_omap in Hw as (rw & _ & Hw).
      destruct (adjust_word_bounds _ _ _ _ Hw) as (? & ? & _). done. }
    destruct real as [|w ws].
    - destruct (Py.leb (Qmax 0 (end_ - start)) 0); [done|].
      destruct (Py.ltb _ _); [done|]. destruct (Py.leb _ _); [done|].
      injection Hf as <-. exists (mkWord start end_ text), [].
      split; [|done]. by repeat constructor.
    - destruct (Py.ltb _ _); [done|]. destruct (Py.leb _ _); [done|].
      injection Hf as <-. by exists w, ws. }
  destruct Hwords as (w & ws & Hall & ->). simpl.
  destruct (max_of_bounds (map word_end ws) (word_end w)) as [Hmax1 Hmax2].
  apply Forall_cons in Hall as [[Hw0 Hw1] Hall].
  split; [done|]. split; [done|]. split; [done|].
  split; [by exists w, ws|]. split; [done|].
  split; [by eapply Qle_trans|].
  constructor; [done|].
  apply Forall_forall. intros w' Hw'.
  rewrite Forall_forall in Hall. destruct (Hall w' Hw') as [? ?].
  split; [done|]. split; [done|].
  rewrite Forall_forall in Hmax2. apply Hmax2.
  apply list_elem_of_fmap. by exists w'.
Qed.

(** ** The outcomes of the energy stage (src/partial.py, lines 332-442) *)

(** [readframes(getnframes())] of a 16-bit mono file returns whole samples. *)
Lemma readframes_length (wf : Wav) :
  wav_sampwidth wf = 2%Z -> wav_nchannels wf = 1%Z ->
  (0 <= getnframes wf)%Z
  /\ Z.of_nat (length (readframes wf (getnframes wf))) = (2 * getnframes wf)%Z.
Proof.
  intros Hw Hc. unfold readframes, getnframes. rewrite Hw, Hc.
  change (2 * 1)%Z with 2%Z.
  pose proof (Z.div_pos (Z.of_nat (length (wav_chunk wf))) 2 ltac:(lia) ltac:(lia)).
  pose proof (Z.mul_div_le (Z.of_nat (length (wav_chunk wf))) 2 ltac:(lia)).
  split; [done|]. rewrite length_take. lia.
Qed.

(** The number of analysis frames of a 16-bit mono recording sampled at
    16 kHz. *)
Lemma frames_count (wf : Wav) (frame_ms : Z) :
  (frame_ms = 10 \/ frame_ms = 20 \/ frame_ms = 30)%Z ->
  wav_sampwidth wf = 2%Z -> wav_nchannels wf = 1%Z ->
  Z.of_nat (length (frames (readframes wf (getnframes wf))
                      (frame_byte_count 16000 frame_ms 2)))
  = (getnframes wf / (16 * frame_ms))%Z.
Proof.
  intros Hms Hw Hc.
  destruct (readframes_length wf Hw Hc) as [Hn Hlen].
  assert (Hfbc : frame_byte_count 16000 frame_ms 2 = (32 * frame_ms)%Z).
  { destruct Hms as [-> | [-> | ->]]; reflexivity. }
  rewrite Hfbc, frames_spec by lia.
  rewrite length_map, length_seq, Nat2Z.inj_div, Hlen, Z2Nat.id by lia.
  replace (32 * frame_ms)%Z with (2 * (16 * frame_ms))%Z by lia.
  rewrite Z.div_mul_cancel_l by lia. done.
Qed.

Lemma energy_stage_valid_header
    (rms : list Byte.byte -> Q) (response : Response) (frame_ms : Z) (wf : Wav) :
  (frame_ms = 10 \/ frame_ms = 20 \/ frame_ms = 30)%Z ->
  wav_framerate wf = 16000%Z -> wav_sampwidth wf = 2%Z -> wav_nchannels wf = 1%Z ->
  let audio := readframes wf (getnframes wf) in
  let fbc := frame_byte_count 16000 frame_ms 2 in
  let total := inject_Z (getnframes wf) / 16000 in
  let cl := clusters (energies rms (frames audio fbc)) (inject_Z frame_ms / 1000) in
  ((getnframes wf < 16 * frame_ms)%Z
   /\ energy_stage rms response frame_ms wf
      = Return (with_error (set_duration response total)
                  "Audio too short for analysis."))
  \/ ((16 * frame_ms <= getnframes wf)%Z /\ cl = []
      /\ energy_stage rms response frame_ms wf
         = Return (with_error (set_duration response total)
                     "Unable to detect speech via energy analysis."))
  \/ ((16 * frame_ms <= getnframes wf)%Z /\ cl ≠ []
      /\ exists (silence_end_time : Q) (r : Response),
           energy_stage rms response frame_ms wf = Next silence_end_time r).
Proof.
  intros Hms Hsr Hw Hc. cbv zeta.
  pose proof (frames_count wf frame_ms Hms Hw Hc) as Hcount.
  destruct (readframes_length wf Hw Hc) as [Hn _].
  set (audio := readframes wf (getnframes wf)) in *.
  set (fbc := frame_byte_count 16000 frame_ms 2) in *.
  set (fd := inject_Z frame_ms / 1000).
  assert (Hfbc : fbc = (32 * frame_ms)%Z).
  { subst fbc. destruct Hms as [-> | [-> | ->]]; reflexivity. }
  unfold energy_stage. rewrite Hsr, Hw, Hc.
  change (negb ((16000 =? 16000)%Z && (2 =? 2)%Z && (1 =? 1)%Z)) with false.
  change (16000 =? 0)%Z with false. cbv iota.
  fold audio fbc fd.
  destruct (Z.eqb_spec fbc 0) as [E|_]; [lia|].
  change (inject_Z 16000) with (16000 : Q).
  set (total := inject_Z (getnframes wf) / 16000).
  assert (Hpos : (0 < 16 * frame_ms)%Z) by lia.
  destruct (Z.lt_ge_cases (getnframes wf) (16 * frame_ms)) as [Hshort|Hlong].
  { left. split; [done|].
    rewrite Z.div_small in Hcount by lia.
    destruct (frames audio fbc); [done|simpl in Hcount; lia]. }
  right.
  assert (Hsome : (0 < Z.of_nat (length (frames audio fbc)))%Z).
  { rewrite Hcount. apply Z.div_str_pos. lia. }
  destruct (frames audio fbc) as [|f0 fs] eqn:Hframes; [simpl in Hsome; lia|].
  rewrite <- Hframes.
  destruct (energies rms (frames audio fbc)) as [|en0 ens] eqn:Hen.
  { rewrite Hframes in Hen. done. }
  rewrite <- Hen.
  destruct (clusters (energies rms (frames audio fbc)) fd)
    as [|[s1 e1] others] eqn:Hcl.
  { left. by repeat split. }
  right. split; [done|]. split; [done|].
  destruct (last ((s1, e1) :: others)) as [[sL eL]|] eqn:Hlast;
    [|by apply last_None in Hlast].
  assert (Hlen : length (active_flags (energies rms (frames audio fbc)))
                 = length (timestamps audio fbc 2 16000)).
  { unfold active_flags, energies, timestamps, frames. by rewrite !length_map. }
  assert (Hrun1 : is_run (active_flags (energies rms (frames audio fbc))) s1 e1).
  { apply (clusters_elem_of _ fd). rewrite Hcl. left. }
  assert (HrunL : is_run (active_flags (energies rms (frames audio fbc))) sL eL).
  { apply (clusters_elem_of _ fd). rewrite Hcl. by apply last_Some_elem_of. }
  destruct Hrun1 as ((Hs1 & He1) & _). destruct HrunL as ((HsL & HeL) & _).
  rewrite Hlen in He1, HeL.
  replace (Z.min (Z.of_nat eL) (Z.of_nat (length (timestamps audio fbc 2 16000))) - 1)%Z
    with (Z.of_nat (eL - 1)) by lia.
  rewrite !py_index_nat.
  destruct (lookup_lt_is_Some_2 (timestamps audio fbc 2 16000) s1 ltac:(lia)) as [t1 ->].
  destruct (lookup_lt_is_Some_2 (timestamps audio fbc 2 16000) sL ltac:(lia)) as [tL ->].
  destruct (lookup_lt_is_Some_2 (timestamps audio fbc 2 16000) (eL - 1) ltac:(lia))
    as [tE ->].
  by eexists _, _.
Qed.

Lemma energy_stage_other_format
    (rms : list Byte.byte -> Q) (response : Response) (frame_ms : Z) (wf : Wav) :
  ~ (wav_framerate wf = 16000%Z /\ wav_sampwidth wf = 2%Z /\ wav_nchannels wf = 1%Z) ->
  energy_stage rms response frame_ms wf
  = Raise "Expected 16kHz mono PCM wav." response.
Proof.
  intros Hbad. unfold energy_stage.
  destruct (Z.eqb_spec (wav_framerate wf) 16000) as [Hsr|Hsr]; [|done].
  destruct (Z.eqb_spec (wav_sampwidth wf) 2) as [Hw|Hw]; [|done].
  destruct (Z.eqb_spec (wav_nchannels wf) 1) as [Hc|Hc]; [|done].
  by destruct Hbad.
Qed.

(** No frame of a recording is active when every frame has an RMS below 50:
    the threshold is never under 50. *)
Lemma quiet_frames_no_cluster (energies_arr : list Q) (frame_duration_sec : Q) :
  Forall (fun e => e < 50) energies_arr ->
  clusters energies_arr frame_duration_sec = [].
Proof.
  intros Hquiet.
  destruct (clusters energies_arr frame_duration_sec) as [|[s e] others] eqn:Hcl;
    [done|exfalso].
  assert (Hin : (s, e) ∈ clusters energies_arr frame_duration_sec).
  { rewrite Hcl. left. }
  apply clusters_elem_of in Hin as [((Hse & _) & Hall & _) _].
  specialize (Hall s ltac:(lia)).
  unfold active_flags in Hall. rewrite list_lookup_fmap in Hall.
  destruct (energies_arr !! s) as [en|] eqn:Hen; [|done].
  injection Hall as Hall. apply leb_le in Hall.
  rewrite Forall_forall in Hquiet.
  pose proof (Hquiet en (list_elem_of_lookup_2 _ _ _ Hen)) as Hlt.
  assert (H50 : 50 <= threshold energies_arr) by apply Q.le_max_r.
  lra.
Qed.

(** A recording in which every analysis frame has an RMS below 50 is never
    reported as speech, whatever Whisper hears in it: the endpoint returns
    an error of the energy stage with [speechDetected] false, the window
    fields at 0 and no transcript. *)
Theorem quiet_recording_has_no_speech
    (rms : list Byte.byte -> Q) (request : TrimDeadspaceRequest) (wf : Wav)
    (whisper : Transcription) :
  wav_framerate wf = 16000%Z -> wav_sampwidth wf = 2%Z -> wav_nchannels wf = 1%Z ->
  Forall (fun frame => energy_of rms frame < 50)
    (frames (readframes wf (getnframes wf))
       (frame_byte_count 16000 (coerce_frame_ms (frameMs request)) 2)) ->
  let result := trim_deadspace rms request wf whisper in
  speechDetected result = false
  /\ (error result = Some "Audio too short for analysis."
      \/ error result = Some "Unable to detect speech via energy analysis.")
  /\ speechStart result = 0 /\ speechEnd result = 0 /\ speechDuration result = 0
  /\ trimStart result = 0 /\ trimEnd result = 0 /\ confidence result = 0
  /\ duration result = inject_Z (getnframes wf) / 16000
  /\ transcript result = None.
Proof.
  intros Hsr Hw Hc Hquiet. cbv zeta.
  assert (Hcl : clusters
                  (energies rms
                     (frames (readframes wf (getnframes wf))
                        (frame_byte_count 16000 (coerce_frame_ms (frameMs request)) 2)))
                  (inject_Z (coerce_frame_ms (frameMs request)) / 1000) = []).
  { apply quiet_frames_no_cluster. unfold energies. by apply Forall_fmap. }
  destruct (energy_stage_valid_header rms (initial_response request)
              (coerce_frame_ms (frameMs request)) wf
              (coerce_frame_ms_cases _) Hsr Hw Hc)
    as [(_ & E) | [(_ & _ & E) | (_ & Hne & _)]]; [| |done].
  - unfold trim_deadspace. rewrite E. simpl. repeat split; auto.
  - unfold trim_deadspace. rewrite E. simpl. repeat split; auto.
Qed.

(** Five silent frames of 30 ms: no frame is active and the endpoint reports
    that no speech was detected, also when Whisper returns a segment. *)
Lemma quiet_recording_has_no_speech_witness :
  let wf := {| wav_framerate := 16000; wav_sampwidth := 2; wav_nchannels := 1;
               wav_chunk := concat (replicate 5 quiet_frame) |} in
  let result :=
    trim_deadspace rms_flat demo_request wf
      (WhisperSegments [plain_segment "hello" 0.0 0.1 0.1]) in
  speechDetected result = false
  /\ error result = Some "Unable to detect speech via energy analysis."%string.
Proof.
  cbv zeta.
  pose proof (quiet_recording_has_no_speech rms_flat demo_request
                {| wav_framerate := 16000; wav_sampwidth := 2; wav_nchannels := 1;
                   wav_chunk := concat (replicate 5 quiet_frame) |}
                (WhisperSegments [plain_segment "hello" 0.0 0.1 0.1])
                eq_refl eq_refl eq_refl) as H.
  cbv zeta in H.
  destruct H as (Hdet & _).
  { apply Forall_forall. intros frame Hin. vm_compute in Hin.
    repeat (apply elem_of_cons in Hin as [->|Hin]; [vm_compute; reflexivity|]).
    by apply elem_of_nil in Hin. }
  split; [exact Hdet|]. vm_compute. reflexivity.
Defined.

Lemma StronglySorted_strengthen {A} (R R' : A -> A -> Prop) (l : list A) :
  (forall a b : A, a ∈ l -> b ∈ l -> R a b -> R' a b) ->
  StronglySorted R l -> StronglySorted R' l.
Proof.
  intros Himpl Hs. induction Hs as [|x l Hl IH Hx]; [constructor|].
  constructor.
  - apply IH. intros a b Ha Hb. apply Himpl; by right.
  - apply Forall_forall. intros y Hy. rewrite Forall_forall in Hx.
    apply Himpl; [left|by right|by apply Hx].
Qed.

(** The surviving clusters are at least two frames long, lie inside the
    recording, and come in order with at least one inactive frame between
    one cluster and the next: no two clusters overlap or touch. *)
Theorem clusters_are_separated (energies_arr : list Q) (frame_duration_sec : Q) :
  let cl := clusters energies_arr frame_duration_sec in
  Forall (fun c : nat * nat => (fst c + 2 <= snd c <= length energies_arr)%nat) cl
  /\ StronglySorted (fun a b : nat * nat => (snd a < fst b)%nat) cl.
Proof.
  cbv zeta. split.
  - apply Forall_forall. intros [s e] Hin.
    apply clusters_elem_of in Hin as [((_ & He) & _) Hmin].
    unfold active_flags in He. rewrite length_map in He.
    unfold min_active_frames in Hmin. simpl. lia.
  - eapply StronglySorted_strengthen; [|apply clusters_sorted].
    intros [s1 e1] [s2 e2] H1 H2 Hlt. simpl in *.
    apply clusters_elem_of in H1 as [(_ & Hall & _) _].
    apply clusters_elem_of in H2 as [(_ & _ & Hprev & _) _].
    destruct s2 as [|p]; [lia|].
    specialize (Hprev p eq_refl).
    destruct (decide (p < e1)%nat) as [Hp|Hp]; [|lia].
    specialize (Hall p ltac:(lia)). congruence.
Qed.

(** The confidence of the energy window is the share of the frames that lie
    in the last cluster: positive and at most 1. *)
Lemma energy_stage_confidence
    (rms : list Byte.byte -> Q) (response : Response) (frame_ms : Z) (wf : Wav)
    (silence_end_time : Q) (r : Response) :
  energy_stage rms response frame_ms wf = Next silence_end_time r ->
  0 < confidence r /\ confidence r <= 1.
Proof.
  intros H. unfold energy_stage in H.
  destruct (negb _) in H; [done|].
  destruct (_ =? 0)%Z in H; [done|].
  destruct (frames _ _) as [|f0 fs] eqn:Hframes in H; [done|].
  rewrite <- Hframes in H.
  destruct (energies rms _) as [|en0 ens] eqn:Hen in H; [done|].
  rewrite <- Hen in H.
  match type of H with
  | context [clusters ?en ?fd] =>
      set (energies_arr := en) in *; set (fd0 := fd) in *
  end.
  destruct (clusters energies_arr fd0) as [|[s1 e1] others] eqn:Hcl; [done|].
  destruct (last ((s1, e1) :: others)) as [[sL eL]|] eqn:Hlast; [|done].
  assert (Hrun : is_run (active_flags energies_arr) sL eL).
  { apply (clusters_elem_of _ fd0). rewrite Hcl. by apply last_Some_elem_of. }
  destruct Hrun as ((HsL & HeL) & _).
  destruct (py_index _ _) in H; [|done].
  destruct (py_index _ _) in H; [|done].
  destruct (py_index _ _) in H; [|done].
  injection H as _ <-. simpl.
  set (n := length (active_flags energies_arr)) in *.
  replace (Z.max 1 (Z.of_nat n)) with (Z.of_nat n) by lia.
  assert (Hn : 0 < inject_Z (Z.of_nat n)).
  { change 0 with (inject_Z 0). rewrite <- Zlt_Qlt. lia. }
  split.
  - apply Qlt_shift_div_l; [done|]. rewrite Qmult_0_l.
    change 0 with (inject_Z 0). rewrite <- Zlt_Qlt. lia.
  - apply Qle_shift_div_r; [done|]. rewrite Qmult_1_l.
    rewrite <- Zle_Qle. lia.
Qed.

(** ** The response of the endpoint on every path *)

(** The three ways out of the energy stage, for the request as the endpoint
    reads it. *)
Lemma energy_stage_exits
    (rms : list Byte.byte -> Q) (request : TrimDeadspaceRequest) (wf : Wav) :
  let stage :=
    energy_stage rms (initial_response request) (coerce_frame_ms (frameMs request)) wf in
  let total := inject_Z (getnframes wf) / 16000 in
  let valid :=
    wav_framerate wf = 16000%Z /\ wav_sampwidth wf = 2%Z /\ wav_nchannels wf = 1%Z in
  (~ valid /\ stage = Raise "Expected 16kHz mono PCM wav." (initial_response request))
  \/ (valid
      /\ exists msg : string,
           (msg = "Audio too short for analysis."%string
            \/ msg = "Unable to detect speech via energy analysis."%string)
           /\ stage = Return (with_error (set_duration (initial_response request) total)
                                msg))
  \/ (valid /\ exists (silence_end_time : Q) (r : Response),
                 stage = Next silence_end_time r).
Proof.
  cbv zeta.
  destruct (decide (wav_framerate wf = 16000%Z /\ wav_sampwidth wf = 2%Z
                    /\ wav_nchannels wf = 1%Z)) as [Hvalid|Hbad].
  - right. destruct Hvalid as (Hsr & Hw & Hc).
    destruct (energy_stage_valid_header rms (initial_response request)
                (coerce_frame_ms (frameMs request)) wf
                (coerce_frame_ms_cases _) Hsr Hw Hc)
      as [(_ & E) | [(_ & _ & E) | (_ & _ & s & r & E)]].
    + left. split; [done|]. eexists. split; [by left|done].
    + left. split; [done|]. eexists. split; [by right|done].
    + right. split; [done|]. by exists s, r.
  - left. split; [done|]. by apply energy_stage_other_format.
Qed.

(** The window of the energy stage in terms of its own fields. *)
Lemma energy_window_shape
    (rms : list Byte.byte -> Q) (request : TrimDeadspaceRequest) (wf : Wav)
    (silence_end_time : Q) (r : Response) :
  energy_stage rms (initial_response request) (coerce_frame_ms (frameMs request)) wf
  = Next silence_end_time r ->
  silence_end_time = speechStart r
  /\ 0 <= speechStart r
  /\ speechStart r < speechEnd r
  /\ speechEnd r <= duration r
  /\ trimStart r = Qmax 0 (speechStart r - padding_pre r)
  /\ trimEnd r = Qmin (duration r) (speechEnd r + padding_post r)
  /\ 0 < speechDuration r
  /\ speechDuration r <= speechEnd r - speechStart r
  /\ padding_pre r = Qmax 0 (prePadding request)
  /\ padding_post r = Qmax 0 (postPadding request)
  /\ duration r = inject_Z (getnframes wf) / 16000.
Proof.
  intros H.
  pose proof (coerce_frame_ms_cases (frameMs request)) as Hms.
  destruct (energy_stage_next _ _ _ _ _ _ H)
    as (Hw & Hc & s1 & e1 & others & sL & eL & t1 & tL & tE & Hcl & Hlast & Ht1 & HtL
        & HtE & HLE & Hsil & _ & Hstart & Hend & Hdur & Htrim & Htrime & Htotal
        & Hpre & Hpost & _).
  destruct (timestamps_lookup wf _ s1 t1 Hms Hw Hc Ht1) as [Et1 _].
  destruct (timestamps_lookup wf _ sL tL Hms Hw Hc HtL) as [EtL Htot].
  destruct (timestamps_lookup wf _ (eL - 1) tE Hms Hw Hc HtE) as [EtE _].
  assert (H1L : (s1 <= sL)%nat).
  { destruct others as [|o others'].
    - rewrite Hcl in Hlast. simpl in Hlast. injection Hlast as -> _. done.
    - pose proof (first_cluster_before_last _ _ _ _ _ Hcl ltac:(done) Hlast).
      simpl in *. lia. }
  destruct (energy_window_times _ _ _ _ _ _ _ _ (frame_duration_pos _ Hms)
              H1L HLE Et1 EtL EtE Htot) as (H0 & Hle & Hlt & _).
  set (total := inject_Z (getnframes wf) / 16000) in *.
  set (fd := inject_Z (coerce_frame_ms (frameMs request)) / 1000) in *.
  assert (Hendle : Qmin total (tE + fd) <= total) by apply Q.le_min_l.
  rewrite Hstart, Hend, Hdur, Htrim, Htrime, Htotal, Hpre, Hpost.
  split; [done|]. split; [done|]. split; [lra|]. split; [done|].
  split; [done|]. split; [done|].
  rewrite Qmax_right by lra.
  split; [lra|]. split; [lra|]. by repeat split.
Qed.

Lemma tail_cluster_subset (init : list FilteredSegment) (last_seg seg : FilteredSegment) :
  seg ∈ tail_cluster init last_seg -> seg ∈ init ++ [last_seg].
Proof.
  unfold tail_cluster.
  destruct (absorb_spec (reverse init) last_seg []) as (taken & rest & Hrev & -> & _).
  { repeat constructor. }
  assert (Hinit : init = reverse rest ++ reverse taken).
  { rewrite <- reverse_app, <- Hrev. by rewrite reverse_involutive. }
  rewrite Hinit. rewrite !elem_of_app. tauto.
Qed.

Lemma window_segments_subset (window_start window_end : Q)
    (filtered_segments : list FilteredSegment) (seg : FilteredSegment) :
  seg ∈ window_segments window_start window_end filtered_segments ->
  seg ∈ filtered_segments.
Proof.
  unfold window_segments.
  destruct (filter _ filtered_segments) as [|u us] eqn:Hu; [done|].
  rewrite <- Hu. rewrite list_elem_of_filter. tauto.
Qed.

Lemma apply_restart_spec (cutoff silence_end_time silence' : Q)
    (usable_segments usable' : list FilteredSegment) :
  apply_restart cutoff usable_segments silence_end_time = (usable', silence') ->
  (forall seg, seg ∈ usable' -> seg ∈ usable_segments)
  /\ silence_end_time <= silence'.
Proof.
  unfold apply_restart. destruct (Py.ltb 0 cutoff); intros [= <- <-].
  - split; [|apply Q.le_max_l]. intros seg. rewrite list_elem_of_filter. tauto.
  - split; [done|apply Qle_refl].
Qed.

(** What the refinement returns: the response with the message of the
    exception under [transcript], the response with the annotation of an
    empty transcript, or the response [r'] after the acceptance test (the
    response it was given, or the transcript window) put through the final
    guard. *)
Lemma refinement_cases (r : Response) (silence_end_time : Q) (whisper : Transcription) :
  (exists msg : string,
      refinement r silence_end_time whisper
      = set_transcript r
          {| info_start := None; info_end := None; info_segments := [];
             info_error := Some msg |})
  \/ refinement r silence_end_time whisper
     = with_error r "Transcript contained no spoken words."
  \/ (exists (r' : Response) (info : TranscriptInfo),
        (r' = r
         \/ exists (segments : list RawSegment) (cluster : list FilteredSegment)
                   (silence' first_word cluster_end : Q),
              whisper = WhisperSegments segments
              /\ cluster ≠ []
              /\ (forall seg, seg ∈ cluster -> seg ∈ filter_segments segments)
              /\ silence_end_time <= silence'
              /\ Qmax 0 (Qmax silence' first_word - padding_pre r)
                 < Qmin (duration r) (cluster_end + padding_post r)
              /\ r' = accept_transcript r (Qmax silence' first_word) silence'
                        cluster_end
                        (Qmax 0 (Qmax silence' first_word - padding_pre r))
                        (Qmin (duration r) (cluster_end + padding_post r))
                        cluster)
        /\ refinement r silence_end_time whisper
           = if Py.leb (speechEnd r') (speechStart r')
             then with_error (set_speechDetected r' false)
                    "Unable to identify speech boundaries from transcript."
             else set_transcript (set_speechDetected r' true) info).
Proof.
  unfold refinement, refine_body.
  destruct whisper as [msg|segments]; [left; by exists msg|].
  destruct (filter_segments segments) as [|f0 fs] eqn:Hfiltered; [right; by left|].
  rewrite <- Hfiltered.
  unfold propose_window.
  destruct (apply_restart _ _ _) as [usable silence'] eqn:Hrestart.
  destruct (Py.min_list _) as [first_word|]; [|left; by eexists].
  destruct (last usable) as [last_seg|] eqn:Hlast; [|left; by eexists].
  destruct (Py.max_list _) as [cluster_end|] eqn:Hmax; [|left; by eexists].
  right. right.
  destruct (Py.ltb _ _) eqn:Haccept.
  - destruct (apply_restart_spec _ _ _ _ _ Hrestart) as [Hsub Hsil].
    set (cluster := tail_cluster (take (length usable - 1) usable) last_seg) in *.
    set (r' := accept_transcript r (Qmax silence' first_word) silence' cluster_end
                 (Qmax 0 (Qmax silence' first_word - padding_pre r))
                 (Qmin (duration r) (cluster_end + padding_post r)) cluster).
    exists r', (transcript_info_of (Qmax silence' first_word) cluster_end cluster).
    split; [|destruct (Py.leb (speechEnd r') (speechStart r')); reflexivity].
    right. eexists segments, _, silence', first_word, cluster_end.
    split; [done|]. split; [apply tail_cluster_nonempty|].
    split; [|split; [done|split; [|reflexivity]]].
    + intros seg Hin. apply tail_cluster_subset in Hin.
      rewrite <- (last_split _ _ Hlast) in Hin.
      eapply window_segments_subset, Hsub, Hin.
    + by apply ltb_lt in Haccept.
  - exists r, empty_transcript_info. split; [by left|].
    destruct (Py.leb (speechEnd r) (speechStart r)); reflexivity.
Qed.

(** Reading a field of a response that was built by the update functions. *)
Ltac response_fields :=
  cbn [speechDetected speechStart speechEnd speechDuration trimStart trimEnd
       duration confidence padding_pre padding_post analysisSource transcript
       error with_error set_transcript set_speechDetected set_duration
       accept_transcript initial_response] in *.

Lemma window_ordered (ss se dur pre post ts te : Q) :
  0 <= pre -> 0 <= post -> 0 <= ss ->
  ts = Qmax 0 (ss - pre) -> te = Qmin dur (se + post) ->
  0 <= ts /\ ts <= ss /\ te <= dur /\ (se <= dur -> se <= te).
Proof.
  intros Hpre Hpost Hss -> ->.
  split; [apply Q.le_max_l|]. split; [apply Q.max_lub; lra|].
  split; [apply Q.le_min_l|]. intros Hse. apply Q.min_glb; lra.
Qed.

(** Whenever the endpoint reports speech, the window it returns is well
    formed: [0 <= trimStart <= speechStart < speechEnd], the trim range is
    not empty and ends inside the recording, [trimStart] is [speechStart]
    less the pre-padding (not below 0), [trimEnd] is [speechEnd] plus the
    post-padding (not beyond the duration), and [speechDuration] is positive
    and no longer than the window.  [speechEnd] lies inside the trim range
    whenever it lies inside the recording. *)
Theorem detected_window_is_ordered
    (rms : list Byte.byte -> Q) (request : TrimDeadspaceRequest) (wf : Wav)
    (whisper : Transcription) :
  let result := trim_deadspace rms request wf whisper in
  speechDetected result = true ->
  0 <= trimStart result /\ trimStart result <= speechStart result
  /\ speechStart result < speechEnd result
  /\ trimStart result < trimEnd result /\ trimEnd result <= duration result
  /\ trimStart result = Qmax 0 (speechStart result - padding_pre result)
  /\ trimEnd result = Qmin (duration result) (speechEnd result + padding_post result)
  /\ 0 < speechDuration result
  /\ speechDuration result <= speechEnd result - speechStart result
  /\ (speechEnd result <= duration result -> speechEnd result <= trimEnd result).
Proof.
  cbv zeta. intros Hdet.
  destruct (energy_stage_exits rms request wf)
    as [(_ & E) | [(_ & msg & _ & E) | (_ & s & r & E)]]; cbv zeta in E.
  { unfold trim_deadspace in Hdet. rewrite E in Hdet. done. }
  { unfold trim_deadspace in Hdet. rewrite E in Hdet. done. }
  rewrite (trim_deadspace_after_energy _ _ _ _ _ _ E) in *.
  destruct (energy_window_shape _ _ _ _ _ E)
    as (Hs & Hss & Hlt & Hsed & Hts & Hte & Hsd0 & Hsd & Hpre & Hpost & _).
  assert (Hpre0 : 0 <= padding_pre r) by (rewrite Hpre; apply Q.le_max_l).
  assert (Hpost0 : 0 <= padding_post r) by (rewrite Hpost; apply Q.le_max_l).
  assert (Henergy :
            0 <= trimStart r /\ trimStart r <= speechStart r
            /\ speechStart r < speechEnd r
            /\ trimStart r < trimEnd r /\ trimEnd r <= duration r
            /\ trimStart r = Qmax 0 (speechStart r - padding_pre r)
            /\ trimEnd r = Qmin (duration r) (speechEnd r + padding_post r)
            /\ 0 < speechDuration r
            /\ speechDuration r <= speechEnd r - speechStart r
            /\ (speechEnd r <= duration r -> speechEnd r <= trimEnd r)).
  { destruct (window_ordered _ _ _ _ _ _ _ Hpre0 Hpost0 Hss Hts Hte)
      as (H1 & H2 & H3 & H4).
    specialize (H4 Hsed). repeat split; try done. lra. }
  destruct (refinement_cases r s whisper)
    as [(msg & Href) | [Href | (r' & info & Hr' & Href)]]; rewrite Href in *.
  { response_fields. exact Henergy. }
  { response_fields. exact Henergy. }
  destruct (Py.leb (speechEnd r') (speechStart r')) eqn:Hguard.
  { response_fields. done. }
  apply leb_gt in Hguard. response_fields.
  destruct Hr' as [-> | (segments & cluster & silence' & first_word & cluster_end
                         & _ & _ & _ & Hsil & Haccept & ->)]; [exact Henergy|].
  response_fields.
  set (ofw := Qmax silence' first_word) in *.
  assert (Hofw : silence' <= ofw) by apply Q.le_max_l.
  rewrite (Qmax_left ofw silence' Hofw) in *.
  assert (Hofw0 : 0 <= ofw) by (rewrite Hs in Hsil; lra).
  destruct (window_ordered ofw cluster_end (duration r) _ _ _ _ Hpre0 Hpost0 Hofw0
              eq_refl eq_refl) as (H1 & H2 & H3 & H4).
  rewrite (Qmax_right 0 (cluster_end - ofw)) by lra.
  repeat split; try done; lra.
Qed.

(** On the demo recording with the transcript "hello there" the endpoint
    reports speech, and the window is ordered. *)
Lemma detected_window_is_ordered_witness :
  let result :=
    trim_deadspace rms_flat demo_request demo_wav
      (WhisperSegments [plain_segment "hello there" 0.3 0.7 0.1]) in
  speechDetected result = true
  /\ 0 <= trimStart result /\ trimStart result <= speechStart result
  /\ speechStart result < speechEnd result
  /\ trimStart result < trimEnd result /\ trimEnd result <= duration result.
Proof.
  cbv zeta.
  assert (Hdet : speechDetected
                   (trim_deadspace rms_flat demo_request demo_wav
                      (WhisperSegments [plain_segment "hello there" 0.3 0.7 0.1]))
                 = true) by (vm_compute; reflexivity).
  split; [exact Hdet|].
  destruct (detected_window_is_ordered rms_flat demo_request demo_wav
              (WhisperSegments [plain_segment "hello there" 0.3 0.7 0.1]) Hdet)
    as (H1 & H2 & H3 & H4 & H5 & _).
  exact (conj H1 (conj H2 (conj H3 (conj H4 H5)))).
Defined.

(** Three fields are the same on every path: the paddings are the requested
    ones clamped at 0, and [analysisSource] is "transcript", also when the
    window comes from the energy scan alone.  [duration] is the length of the
    recording in seconds as soon as the wav header has been accepted, and 0
    when it has not. *)
Theorem response_echoes_request
    (rms : list Byte.byte -> Q) (request : TrimDeadspaceRequest) (wf : Wav)
    (whisper : Transcription) :
  let result := trim_deadspace rms request wf whisper in
  let valid :=
    wav_framerate wf = 16000%Z /\ wav_sampwidth wf = 2%Z /\ wav_nchannels wf = 1%Z in
  padding_pre result = Qmax 0 (prePadding request)
  /\ padding_post result = Qmax 0 (postPadding request)
  /\ analysisSource result = "transcript"%string
  /\ (valid -> duration result = inject_Z (getnframes wf) / 16000)
  /\ (~ valid -> duration result = 0)
  /\ 0 <= duration result.
Proof.
  cbv zeta.
  destruct (energy_stage_exits rms request wf)
    as [(Hbad & E) | [(Hvalid & msg & _ & E) | (Hvalid & s & r & E)]]; cbv zeta in E.
  { unfold trim_deadspace. rewrite E. response_fields. by repeat split. }
  all: assert (Hdur : 0 <= inject_Z (getnframes wf) / 16000).
  1,3: destruct Hvalid as (_ & Hw & Hc);
       destruct (readframes_length wf Hw Hc) as [Hn _];
       apply Qle_shift_div_l; [reflexivity|];
       rewrite Qmult_0_l; change 0 with (inject_Z 0); by rewrite <- Zle_Qle.
  { unfold trim_deadspace. rewrite E. response_fields. by repeat split. }
  rewrite (trim_deadspace_after_energy _ _ _ _ _ _ E).
  destruct (energy_window_shape _ _ _ _ _ E)
    as (_ & _ & _ & _ & _ & _ & _ & _ & Hpre & Hpost & Htotal).
  destruct (energy_stage_keeps _ _ _ _ _ E) as (_ & Hsrc & _ & _).
  assert (Hgoal : forall result : Response,
             padding_pre result = padding_pre r ->
             padding_post result = padding_post r ->
             analysisSource result = "transcript"%string ->
             duration result = duration r ->
             padding_pre result = Qmax 0 (prePadding request)
             /\ padding_post result = Qmax 0 (postPadding request)
             /\ analysisSource result = "transcript"%string
             /\ (wav_framerate wf = 16000%Z /\ wav_sampwidth wf = 2%Z
                 /\ wav_nchannels wf = 1%Z ->
                 duration result = inject_Z (getnframes wf) / 16000)
             /\ (~ (wav_framerate wf = 16000%Z /\ wav_sampwidth wf = 2%Z
                    /\ wav_nchannels wf = 1%Z) -> duration result = 0)
             /\ 0 <= duration result).
  { intros result -> -> -> ->. rewrite Htotal. by repeat split. }
  destruct (refinement_cases r s whisper)
    as [(msg & ->) | [-> | (r' & info & Hr' & ->)]].
  { by apply Hgoal. }
  { by apply Hgoal. }
  assert (Hr'' : padding_pre r' = padding_pre r /\ padding_post r' = padding_post r
                 /\ analysisSource r' = "transcript"%string
                 /\ duration r' = duration r).
  { destruct Hr' as [-> | (segments & cluster & silence' & first_word & cluster_end
                           & _ & _ & _ & _ & _ & ->)]; by repeat split. }
  destruct Hr'' as (? & ? & ? & ?).
  destruct (Py.leb (speechEnd r') (speechStart r')); by apply Hgoal.
Qed.

Lemma fold_left_Qplus_le (b : Q) (l : list Q) :
  Forall (fun x => x <= b) l ->
  forall acc : Q, fold_left Qplus l acc <= acc + inject_Z (Z.of_nat (length l)) * b.
Proof.
  induction 1 as [|x l Hx _ IH]; intros acc.
  - simpl. change (inject_Z (Z.of_nat 0)) with 0. lra.
  - cbn [fold_left length]. eapply Qle_trans; [apply IH|].
    rewrite Nat2Z.inj_succ. unfold Z.succ. rewrite inject_Z_plus.
    change (inject_Z 1) with 1. lra.
Qed.

Lemma mean_speech_prob_le_1 (cluster : list FilteredSegment) :
  cluster ≠ [] ->
  Forall (fun seg => 0 <= seg_no_speech_prob seg) cluster ->
  mean_speech_prob cluster <= 1.
Proof.
  intros Hne Hall. unfold mean_speech_prob.
  assert (Hn : 0 < inject_Z (Z.of_nat (length cluster))).
  { change 0 with (inject_Z 0). rewrite <- Zlt_Qlt.
    destruct cluster; [done|]. simpl. lia. }
  apply Qle_shift_div_r; [done|].
  eapply Qle_trans; [apply (fold_left_Qplus_le 1)|].
  - apply Forall_fmap. eapply Forall_impl; [exact Hall|]. simpl. intros seg Hseg. lra.
  - rewrite length_map. lra.
Qed.

Lemma filter_segment_no_speech_prob (seg : RawSegment) (f : FilteredSegment) :
  filter_segment seg = Some f ->
  seg_no_speech_prob f = default 1 (raw_no_speech_prob seg).
Proof.
  unfold filter_segment.
  destruct (omap _ (raw_words seg)) as [|w ws].
  - destruct (Py.leb _ 0); [done|].
    destruct (Py.ltb _ _); [done|]. destruct (Py.leb _ _); [done|].
    by intros [= <-].
  - destruct (Py.ltb _ _); [done|]. destruct (Py.leb _ _); [done|].
    by intros [= <-].
Qed.

(** [confidence] is a number between 0 and 1 on every path, and positive
    whenever speech is reported, provided the no-speech probabilities that
    Whisper gives are not negative. *)
Theorem confidence_is_a_probability
    (rms : list Byte.byte -> Q) (request : TrimDeadspaceRequest) (wf : Wav)
    (whisper : Transcription) :
  (forall segments : list RawSegment,
      whisper = WhisperSegments segments ->
      Forall (fun seg => forall p : Q, raw_no_speech_prob seg = Some p -> 0 <= p)
        segments) ->
  let result := trim_deadspace rms request wf whisper in
  0 <= confidence result /\ confidence result <= 1
  /\ (speechDetected result = true -> 0 < confidence result).
Proof.
  intros Hprob. cbv zeta.
  destruct (energy_stage_exits rms request wf)
    as [(_ & E) | [(_ & msg & _ & E) | (_ & s & r & E)]]; cbv zeta in E.
  { unfold trim_deadspace. rewrite E. response_fields. by repeat split. }
  { unfold trim_deadspace. rewrite E. response_fields. by repeat split. }
  rewrite (trim_deadspace_after_energy _ _ _ _ _ _ E).
  destruct (energy_stage_confidence _ _ _ _ _ _ E) as [Hc0 Hc1].
  destruct (refinement_cases r s whisper)
    as [(msg & ->) | [-> | (r' & info & Hr' & ->)]].
  { response_fields. split; [lra|]. by split. }
  { response_fields. split; [lra|]. by split. }
  assert (Hconf : 0 < confidence r' /\ confidence r' <= 1).
  { destruct Hr' as [-> | (segments & cluster & silence' & first_word & cluster_end
                           & -> & Hne & Hsub & _ & _ & ->)]; [done|].
    response_fields. split.
    - eapply Qlt_le_trans; [exact Hc0|apply Q.le_max_l].
    - apply Q.max_lub; [done|]. apply mean_speech_prob_le_1; [done|].
      apply Forall_forall. intros f Hf.
      apply Hsub, list_elem_of_omap in Hf as (seg & Hseg & Hf).
      rewrite (filter_segment_no_speech_prob _ _ Hf).
      specialize (Hprob segments eq_refl). rewrite Forall_forall in Hprob.
      specialize (Hprob seg Hseg).
      destruct (raw_no_speech_prob seg) as [p|]; simpl; [by apply Hprob|lra]. }
  destruct Hconf as [Hc0' Hc1'].
  destruct (Py.leb (speechEnd r') (speechStart r')); response_fields.
  - split; [lra|]. by split.
  - split; [lra|]. by split.
Qed.

(** The demo recording with a transcript whose no-speech probability is 0.1:
    speech is reported with a positive confidence not above 1. *)
Lemma confidence_is_a_probability_witness :
  let result :=
    trim_deadspace rms_flat demo_request demo_wav
      (WhisperSegments [plain_segment "hello there" 0.3 0.7 0.1]) in
  speechDetected result = true
  /\ 0 < confidence result /\ confidence result <= 1.
Proof.
  cbv zeta.
  destruct (confidence_is_a_probability rms_flat demo_request demo_wav
              (WhisperSegments [plain_segment "hello there" 0.3 0.7 0.1]))
    as (_ & H1 & H0).
  { intros segments [= <-]. repeat constructor.
    intros p [= <-]. vm_compute. discriminate. }
  assert (Hdet : speechDetected
                   (trim_deadspace rms_flat demo_request demo_wav
                      (WhisperSegments [plain_segment "hello there" 0.3 0.7 0.1]))
                 = true) by (vm_compute; reflexivity).
  split; [exact Hdet|]. split; [exact (H0 Hdet)|exact H1].
Defined.

(** ** The window filter and the restart scan (src/partial.py, lines 549-591) *)

(** The usable segments are the filtered segments that overlap the energy
    window widened by 0.3 s on both sides, in their order; when no segment
    overlaps it, all filtered segments are usable.  The usable set is empty
    only when there is no filtered segment at all. *)
Theorem window_segments_keeps_overlaps
    (window_start window_end : Q) (filtered_segments : list FilteredSegment) :
  let overlaps := fun seg : FilteredSegment =>
    window_start - 0.3 < lastWordEnd seg /\ firstWordStart seg < window_end + 0.3 in
  let usable := window_segments window_start window_end filtered_segments in
  usable `sublist_of` filtered_segments
  /\ (filtered_segments ≠ [] -> usable ≠ [])
  /\ (forall seg, seg ∈ filtered_segments -> overlaps seg -> seg ∈ usable)
  /\ ((exists seg, seg ∈ filtered_segments /\ overlaps seg) ->
      forall seg, seg ∈ usable -> overlaps seg)
  /\ ((forall seg, seg ∈ filtered_segments -> ~ overlaps seg) ->
      usable = filtered_segments).
Proof.
  cbv zeta. unfold window_segments.
  set (P := fun seg : FilteredSegment =>
              Py.ltb (window_start - 0.3) (lastWordEnd seg)
              && Py.ltb (firstWordStart seg) (window_end + 0.3) = true).
  assert (HP : forall seg, P seg <-> window_start - 0.3 < lastWordEnd seg
                                     /\ firstWordStart seg < window_end + 0.3).
  { intros seg. unfold P. by rewrite andb_true_iff, !ltb_lt. }
  destruct (filter P filtered_segments) as [|u us] eqn:Hu.
  - split; [done|]. split; [done|]. split.
    { intros seg Hin Hov. exfalso.
      assert (Hf : seg ∈ filter P filtered_segments).
      { apply list_elem_of_filter. split; [by apply HP|done]. }
      rewrite Hu in Hf. by apply elem_of_nil in Hf. }
    split; [|done].
    intros (seg & Hin & Hov). exfalso.
    assert (Hf : seg ∈ filter P filtered_segments).
    { apply list_elem_of_filter. split; [by apply HP|done]. }
    rewrite Hu in Hf. by apply elem_of_nil in Hf.
  - rewrite <- Hu. split; [apply sublist_filter|].
    split; [intros _; by rewrite Hu|]. split.
    { intros seg Hin Hov. apply list_elem_of_filter. split; [by apply HP|done]. }
    split.
    { intros _ seg Hin. apply list_elem_of_filter in Hin as [Hin _]. by apply HP. }
    intros Hnone. exfalso.
    assert (Hf : u ∈ filter P filtered_segments) by (rewrite Hu; left).
    apply list_elem_of_filter in Hf as [Hp Hin]. apply HP in Hp.
    by apply (Hnone u).
Qed.

(** What the restart loop has recorded after reading [segments]: every
    recorded start is the start of a segment read with that text, and the
    cutoff is 0 or the positive start of a segment that repeats, more than
    0.4 s later, the text of an earlier one. *)
Lemma restart_scan_invariant (segments : list (string * Q)) :
  let seen_texts := fst (restart_scan segments) in
  let cutoff := snd (restart_scan segments) in
  (forall (text : string) (seen : Q),
      seen_texts !! text = Some seen ->
      exists i : nat, segments !! i = Some (text, seen))
  /\ (cutoff = 0
      \/ (0 < cutoff
          /\ exists (i j : nat) (text : string) (first second : Q),
               (i < j)%nat
               /\ segments !! i = Some (text, first)
               /\ segments !! j = Some (text, second)
               /\ 0.4 < second - first
               /\ cutoff = second)).
Proof.
  cbv zeta. induction segments as [|[text start_time] segments IH] using rev_ind.
  - split; [|by left]. intros text seen. unfold restart_scan. simpl.
    by rewrite lookup_empty.
  - rewrite restart_scan_snoc.
    destruct (restart_scan segments) as [seen_texts cutoff].
    destruct IH as [Hseen Hcut]. simpl in Hseen, Hcut.
    assert (Hseen' : forall (text' : string) (seen : Q),
               (<[text := start_time]> seen_texts) !! text' = Some seen ->
               exists i : nat, (segments ++ [(text, start_time)]) !! i = Some (text', seen)).
    { intros text' seen. destruct (decide (text = text')) as [<-|Hne].
      - rewrite lookup_insert_eq. intros [= <-]. exists (length segments).
        by rewrite list_lookup_middle.
      - rewrite lookup_insert_ne by done. intros Hl.
        destruct (Hseen _ _ Hl) as [i Hi]. exists i.
        by apply lookup_app_l_Some. }
    assert (Hseen'' : forall (text' : string) (seen : Q),
               seen_texts !! text' = Some seen ->
               exists i : nat, (segments ++ [(text, start_time)]) !! i = Some (text', seen)).
    { intros text' seen Hl. destruct (Hseen _ _ Hl) as [i Hi]. exists i.
      by apply lookup_app_l_Some. }
    assert (Hcut' : cutoff = 0
                    \/ (0 < cutoff
                        /\ exists (i j : nat) (text' : string) (first second : Q),
                             (i < j)%nat
                             /\ (segments ++ [(text, start_time)]) !! i
                                = Some (text', first)
                             /\ (segments ++ [(text, start_time)]) !! j
                                = Some (text', second)
                             /\ 0.4 < second - first
                             /\ cutoff = second)).
    { destruct Hcut as [->|(Hpos & i & j & text' & first & second & Hij & Hi & Hj & Hgap & E)];
        [by left|right].
      split; [done|]. exists i, j, text', first, second.
      split; [done|]. split; [by apply lookup_app_l_Some|].
      split; [by apply lookup_app_l_Some|]. done. }
    assert (Hcut0 : 0 <= cutoff).
    { destruct Hcut as [->|[Hpos _]]; [apply Qle_refl|by apply Qlt_le_weak]. }
    unfold restart_step.
    destruct (seen_texts !! text) as [seen|] eqn:Hlookup; simpl; [|by split].
    destruct (Py.ltb 0.4 (start_time - seen)) eqn:Hgap; simpl; [|by split].
    apply ltb_lt in Hgap. split; [done|].
    destruct (Qlt_le_dec cutoff start_time) as [Hlt|Hle].
    + rewrite (Qmax_right _ _ Hlt). right. split; [lra|].
      destruct (Hseen _ _ Hlookup) as [i Hi].
      exists i, (length segments), text, seen, start_time.
      split; [by apply lookup_lt_Some in Hi|].
      split; [by apply lookup_app_l_Some|].
      split; [by rewrite list_lookup_middle|]. done.
    + rewrite (Qmax_left _ _ Hle). done.
Qed.

(** The restart cutoff is never raised without a repetition: it is 0, or it
    is the positive time at which some segment starts whose normalized text
    is that of an earlier segment that starts more than 0.4 s before it. *)
Theorem restart_cutoff_needs_a_repetition (filtered_segments : list FilteredSegment) :
  let cutoff := restart_cutoff filtered_segments in
  cutoff = 0
  \/ (0 < cutoff
      /\ exists (i j : nat) (earlier later : FilteredSegment),
           (i < j)%nat
           /\ filtered_segments !! i = Some earlier
           /\ filtered_segments !! j = Some later
           /\ normalized (seg_text earlier) = normalized (seg_text later)
           /\ 0.4 < firstWordStart later - firstWordStart earlier
           /\ cutoff = firstWordStart later).
Proof.
  cbv zeta. unfold restart_cutoff.
  destruct (restart_scan_invariant (normalized_segments filtered_segments))
    as [_ [Hzero|(Hpos & i & j & text & first & second & Hij & Hi & Hj & Hgap & E)]];
    [by left|right].
  split; [done|].
  unfold normalized_segments in Hi, Hj. rewrite list_lookup_fmap in Hi, Hj.
  destruct (filtered_segments !! i) as [earlier|] eqn:Ei; [|done].
  destruct (filtered_segments !! j) as [later|] eqn:Ej; [|done].
  simpl in Hi, Hj. injection Hi as Ht1 Hs1. injection Hj as Ht2 Hs2.
  exists i, j, earlier, later. rewrite Hs1, Hs2.
  repeat split; try done. congruence.
Qed.

(** When no two filtered segments have the same normalized text, the restart
    scan changes nothing: the cutoff is 0, every usable segment stays usable
    and the silence end is left where the energy scan put it. *)
Theorem distinct_texts_never_restart
    (filtered_segments usable_segments : list FilteredSegment) (silence_end_time : Q) :
  NoDup (map (fun seg => normalized (seg_text seg)) filtered_segments) ->
  restart_cutoff filtered_segments = 0
  /\ apply_restart (restart_cutoff filtered_segments) usable_segments silence_end_time
     = (usable_segments, silence_end_time).
Proof.
  intros Hnodup.
  assert (Hzero : restart_cutoff filtered_segments = 0).
  { unfold restart_cutoff.
    destruct (restart_scan_invariant (normalized_segments filtered_segments))
      as [_ [Hzero|(_ & i & j & text & first & second & Hij & Hi & Hj & _)]];
      [done|exfalso].
    unfold normalized_segments in Hi, Hj. rewrite list_lookup_fmap in Hi, Hj.
    destruct (filtered_segments !! i) as [earlier|] eqn:Ei; [|done].
    destruct (filtered_segments !! j) as [later|] eqn:Ej; [|done].
    simpl in Hi, Hj. injection Hi as Ht1 _. injection Hj as Ht2 _.
    rewrite NoDup_alt in Hnodup.
    assert (i = j); [|lia].
    apply (Hnodup i j text); rewrite list_lookup_fmap.
    - by rewrite Ei; simpl; rewrite Ht1.
    - by rewrite Ej; simpl; rewrite Ht2. }
  split; [done|]. rewrite Hzero. reflexivity.
Qed.

(** Three segments with three different sentences: nothing is cut. *)
Lemma distinct_texts_never_restart_witness :
  NoDup (map (fun seg => normalized (seg_text seg)) [seg_one; seg_two; seg_three])
  /\ restart_cutoff [seg_one; seg_two; seg_three] = 0
  /\ apply_restart (restart_cutoff [seg_one; seg_two; seg_three]) [seg_two; seg_three] 0.3
     = ([seg_two; seg_three], 0.3).
Proof.
  assert (Hnodup : NoDup (map (fun seg => normalized (seg_text seg))
                            [seg_one; seg_two; seg_three])).
  { vm_compute. apply NoDup_cons. split.
    - intros Hin. apply elem_of_cons in Hin as [Hin|Hin]; [discriminate Hin|].
      apply elem_of_cons in Hin as [Hin|Hin]; [discriminate Hin|].
      by apply elem_of_nil in Hin.
    - apply NoDup_cons. split.
      + intros Hin. apply elem_of_cons in Hin as [Hin|Hin]; [discriminate Hin|].
        by apply elem_of_nil in Hin.
      + apply NoDup_singleton. }
  split; [exact Hnodup|].
  exact (distinct_texts_never_restart [seg_one; seg_two; seg_three]
           [seg_two; seg_three] 0.3 Hnodup).
Defined.

(** ** Segment timing of [transcribe_audio] (src/partial.py, lines 137-179) *)

Lemma adjusted_word_bounds (segment : RawSegment) (word : RawWord) (w : Word) :
  adjusted_word segment word = Some w ->
  0 <= word_start w /\ word_start w <= word_end w /\ word_text w ≠ EmptyString.
Proof.
  unfold adjusted_word.
  destruct (PyStr.is_empty _) eqn:Htext; [done|]. intros [= <-]. simpl.
  split; [apply Q.le_max_l|]. split; [apply Q.le_max_l|].
  intros E. rewrite E in Htext. done.
Qed.

(** The two shapes of an adjusted segment: timed by its words, or by the
    segment itself when no word is left. *)
Lemma adjusted_segment_cases (segment : RawSegment) :
  let words := omap (adjusted_word segment) (raw_words segment) in
  let start := _adjust_time (default 0 (raw_start segment)) in
  (words = []
   /\ adjusted_segment segment
      = {| adj_copy := segment; adj_start := start;
           adj_end := Qmax start (default (start + 0.5) (raw_end segment));
           adj_words := [];
           adj_firstWordStart := start;
           adj_lastWordEnd := Qmax start (default (start + 0.5) (raw_end segment)) |})
  \/ (exists (first last_word : Word) (rest : list Word),
        words = first :: rest /\ last words = Some last_word
        /\ adjusted_segment segment
           = {| adj_copy := segment; adj_start := word_start first;
                adj_end := word_end last_word;
                adj_words := words;
                adj_firstWordStart := word_start first;
                adj_lastWordEnd := word_end last_word |}).
Proof.
  cbv zeta. unfold adjusted_segment.
  destruct (omap (adjusted_word segment) (raw_words segment)) as [|first rest] eqn:Hwords.
  - left. by split.
  - right. destruct (last (first :: rest)) as [last_word|] eqn:Hlast;
      [|by apply last_None in Hlast].
    by exists first, last_word, rest.
Qed.

(** The loop returns one adjusted segment per Whisper segment, in order, and
    never drops one.  In each, [start] and [end] are [firstWordStart] and
    [lastWordEnd]; [start] is not negative; every word kept has a non-blank
    text and [0 <= start <= end]; with words, the segment starts with its
    first word and ends with its last one (so it ends no earlier than it
    starts as soon as the last word does not start before the first);
    without words, it starts at the segment start clamped at 0 and ends at
    the segment end, or 0.5 s later when Whisper gives no end, and never
    before its start. *)
Theorem adjusted_segments_well_formed (segments : list RawSegment) :
  map adj_copy (adjusted_segments segments) = segments
  /\ Forall
       (fun a : AdjustedSegment =>
          adj_start a = adj_firstWordStart a /\ adj_end a = adj_lastWordEnd a
          /\ 0 <= adj_start a
          /\ Forall (fun w : Word =>
                       0 <= word_start w /\ word_start w <= word_end w
                       /\ word_text w ≠ EmptyString)
               (adj_words a)
          /\ (forall (first : Word) (rest : list Word),
                adj_words a = first :: rest -> adj_start a = word_start first)
          /\ (forall last_word : Word,
                last (adj_words a) = Some last_word ->
                adj_end a = word_end last_word
                /\ (adj_start a <= word_start last_word -> adj_start a <= adj_end a))
          /\ (adj_words a = [] ->
              adj_start a = _adjust_time (default 0 (raw_start (adj_copy a)))
              /\ adj_end a = Qmax (adj_start a)
                               (default (adj_start a + 0.5) (raw_end (adj_copy a)))
              /\ adj_start a <= adj_end a))
       (adjusted_segments segments).
Proof.
  split.
  { unfold adjusted_segments. rewrite map_map.
    induction segments as [|segment segments IH]; [done|].
    simpl. rewrite IH. f_equal.
    destruct (adjusted_segment_cases segment)
      as [(_ & ->) | (first & last_word & rest & _ & _ & ->)]; done. }
  apply Forall_forall. intros a Ha.
  apply list_elem_of_fmap in Ha as (segment & -> & _).
  assert (Hwords : Forall (fun w : Word =>
                             0 <= word_start w /\ word_start w <= word_end w
                             /\ word_text w ≠ EmptyString)
                     (omap (adjusted_word segment) (raw_words segment))).
  { apply Forall_forall. intros w Hw.
    apply list_elem_of_omap in Hw as (word & _ & Hw).
    by apply adjusted_word_bounds in Hw. }
  destruct (adjusted_segment_cases segment)
    as [(Hnil & ->) | (first & last_word & rest & Hcons & Hlast & ->)];
    cbn [adj_copy adj_start adj_end adj_words adj_firstWordStart adj_lastWordEnd].
  - split; [done|]. split; [done|]. split; [apply Q.le_max_l|].
    split; [constructor|]. split; [done|]. split; [done|].
    intros _. split; [done|]. split; [done|]. apply Q.le_max_l.
  - rewrite Hcons in Hwords, Hlast. rewrite Hcons.
    assert (Hfirst : 0 <= word_start first).
    { apply Forall_cons in Hwords as [(? & _) _]. done. }
    assert (Hl : word_start last_word <= word_end last_word).
    { rewrite Forall_forall in Hwords.
      destruct (Hwords last_word (last_Some_elem_of _ _ Hlast)) as (_ & ? & _). done. }
    split; [done|]. split; [done|]. split; [done|]. split; [done|].
    split; [by intros ? ? [= <- _]|]. split; [|done].
    intros lw Hlw. rewrite Hlast in Hlw. injection Hlw as <-.
    split; [done|]. intros Hle. by eapply Qle_trans.
Qed.

Lemma _adjust_time_idempotent (value : Q) :
  _adjust_time (_adjust_time value) = _adjust_time value.
Proof.
  unfold _adjust_time.
  destruct (Qmax_cases 0 value) as [E|E]; rewrite E; [reflexivity|exact E].
Qed.

(** Both endpoints read the same words of a segment: they skip the same
    blank ones and give the others the same text and the same start. *)
Lemma words_agree (segment : RawSegment) (end_ : Q) (words : list RawWord) :
  let start := _adjust_time (default 0 (raw_start segment)) in
  map (fun w => (word_start w, word_text w)) (omap (adjust_word start end_) words)
  = map (fun w => (word_start w, word_text w)) (omap (adjusted_word segment) words).
Proof.
  cbv zeta. induction words as [|word words IH]; [done|]. csimpl.
  assert (Hw : (fun w => (word_start w, word_text w))
                 <$> adjust_word (_adjust_time (default 0 (raw_start segment))) end_ word
               = (fun w => (word_start w, word_text w)) <$> adjusted_word segment word).
  { unfold adjust_word, adjusted_word.
    destruct (PyStr.is_empty _); [done|]. simpl. f_equal. f_equal.
    destruct (raw_word_start word) as [s|]; simpl; [done|].
    apply _adjust_time_idempotent. }
  destruct (adjust_word _ _ word) as [w1|], (adjusted_word segment word) as [w2|];
    simpl in Hw; try done.
  csimpl. injection Hw as Hs Ht. by rewrite IH, Hs, Ht.
Qed.

(** [transcribe_audio] and the filter of [trim_deadspace] agree on where a
    segment begins: for every segment that the filter keeps,
    [firstWordStart] is the one that [transcribe_audio] returns for it, and
    when the segment has usable words both give them the same texts and the
    same starts.  (The ends can differ: the filter takes the latest word
    end, [transcribe_audio] the end of the last word.) *)
Theorem first_word_start_agrees (segment : RawSegment) (f : FilteredSegment) :
  filter_segment segment = Some f ->
  let a := adjusted_segment segment in
  firstWordStart f = adj_firstWordStart a
  /\ (adj_words a ≠ [] ->
      map (fun w => (word_start w, word_text w)) (seg_words f)
      = map (fun w => (word_start w, word_text w)) (adj_words a)).
Proof.
  intros Hf. cbv zeta.
  pose proof (words_agree segment
                (Qmax (_adjust_time (default 0 (raw_start segment)))
                   (default 0 (raw_end segment)))
                (raw_words segment)) as Hagree.
  cbv zeta in Hagree. revert Hf Hagree. unfold filter_segment.
  set (start := _adjust_time (default 0 (raw_start segment))).
  set (end_ := Qmax start (default 0 (raw_end segment))).
  intros Hf Hagree.
  destruct (adjusted_segment_cases segment)
    as [(Hnil & ->) | (first & last_word & rest & Hcons & _ & ->)];
    cbn [adj_words adj_firstWordStart].
  - rewrite Hnil in Hagree.
    destruct (omap (adjust_word start end_) (raw_words segment)) as [|w ws];
      [|done].
    destruct (Py.leb _ 0); [done|].
    destruct (Py.ltb _ _); [done|]. destruct (Py.leb _ _); [done|].
    injection Hf as <-. by split.
  - rewrite Hcons in Hagree. rewrite Hcons.
    destruct (omap (adjust_word start end_) (raw_words segment)) as [|w ws];
      [done|].
    destruct (Py.ltb _ _); [done|]. destruct (Py.leb _ _); [done|].
    injection Hf as <-. simpl. simpl in Hagree.
    injection Hagree as Hs Ht Hrest. split; [done|].
    intros _. by rewrite Hs, Ht, Hrest.
Qed.

(** A segment from 1.0 s to 2.0 s with the words " hi" and "there": the
    filter and [transcribe_audio] both put its first word at 1.1 s. *)
Lemma first_word_start_agrees_witness :
  exists f : FilteredSegment,
    filter_segment (worded_segment 1.0 2.0 [(" hi", 1.1, 1.4); ("there", 1.5, 1.9)])
    = Some f
    /\ firstWordStart f
       = adj_firstWordStart
           (adjusted_segment
              (worded_segment 1.0 2.0 [(" hi", 1.1, 1.4); ("there", 1.5, 1.9)])).
Proof.
  eexists. split; [vm_compute; reflexivity|].
  eapply first_word_start_agrees. vm_compute. reflexivity.
Defined.

(** Words that Whisper reports out of order give a segment that ends before
    it starts: the loop takes the end of the last word, not the latest end.
    The filter of [trim_deadspace] takes the latest end for the same
    segment. *)
Lemma adjusted_segment_out_of_order :
  let segment := worded_segment 1.0 6.0 [("late", 5.0, 6.0); ("early", 1.0, 2.0)] in
  adj_start (adjusted_segment segment) == 5.0
  /\ adj_end (adjusted_segment segment) == 2.0
  /\ option_map lastWordEnd (filter_segment segment) = Some 6.0.
Proof. repeat split; vm_compute; reflexivity. Qed.

(** ** What the refinement does to the energy window *)

(** The refinement never moves the start of the speech window, or of the
    trim range, before the place where the energy scan put it, never lowers
    the confidence, and leaves the duration alone. *)
Theorem refinement_never_moves_start_earlier
    (rms : list Byte.byte -> Q) (request : TrimDeadspaceRequest) (wf : Wav)
    (whisper : Transcription) (silence_end_time : Q) (r : Response) :
  energy_stage rms (initial_response request) (coerce_frame_ms (frameMs request)) wf
  = Next silence_end_time r ->
  let result := trim_deadspace rms request wf whisper in
  speechStart r <= speechStart result
  /\ trimStart r <= trimStart result
  /\ confidence r <= confidence result
  /\ duration result = duration r.
Proof.
  intros E. cbv zeta.
  rewrite (trim_deadspace_after_energy _ _ _ _ _ _ E).
  destruct (energy_window_shape _ _ _ _ _ E)
    as (Hs & Hss & _ & _ & Hts & _ & _ & _ & _ & _ & _).
  assert (Hsame : speechStart r <= speechStart r /\ trimStart r <= trimStart r
                  /\ confidence r <= confidence r /\ duration r = duration r).
  { repeat split; try apply Qle_refl. }
  destruct (refinement_cases r silence_end_time whisper)
    as [(msg & ->) | [-> | (r' & info & Hr' & ->)]].
  { response_fields. exact Hsame. }
  { response_fields. exact Hsame. }
  assert (Hr'' : speechStart r <= speechStart r' /\ trimStart r <= trimStart r'
                 /\ confidence r <= confidence r' /\ duration r' = duration r).
  { destruct Hr' as [-> | (segments & cluster & silence' & first_word & cluster_end
                           & _ & _ & _ & Hsil & _ & ->)]; [exact Hsame|].
    response_fields. rewrite Hs in Hsil.
    set (ofw := Qmax silence' first_word) in *.
    assert (Hofw : silence' <= ofw) by apply Q.le_max_l.
    split; [eapply Qle_trans; [|apply Q.le_max_l]; lra|].
    split; [|split; [apply Q.le_max_l|done]].
    rewrite Hts. apply Q.max_lub; [apply Q.le_max_l|].
    eapply Qle_trans; [|apply Q.le_max_r]. lra. }
  destruct (Py.leb (speechEnd r') (speechStart r')); response_fields; exact Hr''.
Qed.

(** On the demo recording, a transcript that starts at 0.5 s moves the start
    of the window from 0.3 s to 0.5 s, not earlier. *)
Lemma refinement_never_moves_start_earlier_witness :
  exists (silence_end_time : Q) (r : Response),
    energy_stage rms_flat (initial_response demo_request)
      (coerce_frame_ms (frameMs demo_request)) demo_wav
    = Next silence_end_time r
    /\ speechStart r
       <= speechStart (trim_deadspace rms_flat demo_request demo_wav
                         (WhisperSegments [plain_segment "there" 0.5 0.7 0.1]))
    /\ speechStart (trim_deadspace rms_flat demo_request demo_wav
                      (WhisperSegments [plain_segment "there" 0.5 0.7 0.1]))
       == 0.5.
Proof.
  eexists _, _. split; [vm_compute; reflexivity|].
  split; [|vm_compute; reflexivity].
  exact (proj1 (refinement_never_moves_start_earlier rms_flat demo_request demo_wav
                  (WhisperSegments [plain_segment "there" 0.5 0.7 0.1])
                  (9600 # 32000) _ ltac:(vm_compute; reflexivity))).
Defined.

(** ** The transcript echoed in the response (src/partial.py, lines 610-671) *)

Lemma max_of_attained (l : list Q) : forall x : Q, Py.max_of x l ∈ x :: l.
Proof.
  induction l as [|y l IH]; intros x; unfold Py.max_of; simpl.
  - left.
  - specialize (IH (Qmax x y)). unfold Py.max_of in IH.
    apply elem_of_cons in IH as [IH|IH].
    + rewrite IH. destruct (Qmax_cases x y) as [-> | ->]; [left|right; left].
    + right. by right.
Qed.

(** The refinement with the value it stores under [transcript]. *)
Lemma refinement_with_info (r : Response) (silence_end_time : Q) (whisper : Transcription) :
  (exists msg : string,
      refinement r silence_end_time whisper
      = set_transcript r
          {| info_start := None; info_end := None; info_segments := [];
             info_error := Some msg |})
  \/ refinement r silence_end_time whisper
     = with_error r "Transcript contained no spoken words."
  \/ refinement r silence_end_time whisper
     = (if Py.leb (speechEnd r) (speechStart r)
        then with_error (set_speechDetected r false)
               "Unable to identify speech boundaries from transcript."
        else set_transcript (set_speechDetected r true) empty_transcript_info)
  \/ (exists (cluster : list FilteredSegment)
             (overall_first_word silence' cluster_end head_trim trim_end : Q),
        cluster ≠ []
        /\ silence' <= overall_first_word
        /\ Py.max_list (map lastWordEnd cluster) = Some cluster_end
        /\ refinement r silence_end_time whisper
           = let r' := accept_transcript r overall_first_word silence' cluster_end
                         head_trim trim_end cluster in
             if Py.leb (speechEnd r') (speechStart r')
             then with_error (set_speechDetected r' false)
                    "Unable to identify speech boundaries from transcript."
             else set_transcript (set_speechDetected r' true)
                    (transcript_info_of overall_first_word cluster_end cluster)).
Proof.
  unfold refinement, refine_body.
  destruct whisper as [msg|segments]; [left; by exists msg|].
  destruct (filter_segments segments) as [|f0 fs] eqn:Hfiltered; [right; by left|].
  rewrite <- Hfiltered.
  unfold propose_window.
  destruct (apply_restart _ _ _) as [usable silence'] eqn:Hrestart.
  destruct (Py.min_list _) as [first_word|]; [|left; by eexists].
  destruct (last usable) as [last_seg|] eqn:Hlast; [|left; by eexists].
  destruct (Py.max_list _) as [cluster_end|] eqn:Hmax; [|left; by eexists].
  right. right.
  destruct (Py.ltb _ _) eqn:Haccept.
  - right.
    set (cluster := tail_cluster (take (length usable - 1) usable) last_seg) in *.
    exists cluster, (Qmax silence' first_word), silence', cluster_end,
      (Qmax 0 (Qmax silence' first_word - padding_pre r)),
      (Qmin (duration r) (cluster_end + padding_post r)).
    split; [apply tail_cluster_nonempty|]. split; [apply Q.le_max_l|].
    split; [done|]. cbv zeta.
    destruct (Py.leb _ _); reflexivity.
  - left. destruct (Py.leb (speechEnd r) (speechStart r)); reflexivity.
Qed.

(** What the response carries under [transcript].  Without it the response
    has an error.  With it speech is reported without error, and the value
    is the message of a failed refinement, or the empty placeholder of a
    transcript window that was not taken, or the echo of the tail cluster:
    then its [start] and [end] are [speechStart] and [speechEnd], it lists
    at least one segment, every listed segment has [start] and [end] equal
    to its [firstWordStart] and [lastWordEnd] and ends at or before
    [speechEnd], and one of them ends exactly at [speechEnd]. *)
Theorem transcript_echo_matches_window
    (rms : list Byte.byte -> Q) (request : TrimDeadspaceRequest) (wf : Wav)
    (whisper : Transcription) :
  let result := trim_deadspace rms request wf whisper in
  match transcript result with
  | None => exists msg : string, error result = Some msg
  | Some info =>
      speechDetected result = true /\ error result = None
      /\ ((exists msg : string,
              info = {| info_start := None; info_end := None; info_segments := [];
                        info_error := Some msg |})
          \/ info = empty_transcript_info
          \/ (info_start info = Some (speechStart result)
              /\ info_end info = Some (speechEnd result)
              /\ info_error info = None
              /\ info_segments info ≠ []
              /\ Forall (fun e : EchoSegment =>
                           echo_start e = echo_firstWordStart e
                           /\ echo_end e = echo_lastWordEnd e
                           /\ echo_lastWordEnd e <= speechEnd result)
                   (info_segments info)
              /\ exists e : EchoSegment,
                   e ∈ info_segments info /\ echo_lastWordEnd e = speechEnd result))
  end.
Proof.
  cbv zeta.
  destruct (energy_stage_exits rms request wf)
    as [(_ & E) | [(_ & msg & _ & E) | (_ & s & r & E)]]; cbv zeta in E.
  { unfold trim_deadspace. rewrite E. response_fields. by eexists. }
  { unfold trim_deadspace. rewrite E. response_fields. by eexists. }
  rewrite (trim_deadspace_after_energy _ _ _ _ _ _ E).
  destruct (energy_stage_keeps _ _ _ _ _ E) as (Hdet & _ & Htr & Herr).
  destruct (energy_window_shape _ _ _ _ _ E) as (_ & _ & Hlt & _).
  destruct (refinement_with_info r s whisper)
    as [(msg & ->) | [-> | [-> | (cluster & ofw & silence' & cluster_end & head_trim
                                  & trim_end & Hne & Hofw & Hmax & ->)]]].
  - response_fields. split; [done|]. split; [done|]. left. by exists msg.
  - response_fields. rewrite Htr. by eexists.
  - assert (Hguard : Py.leb (speechEnd r) (speechStart r) = false) by (by apply leb_gt).
    rewrite Hguard. response_fields. split; [done|]. split; [done|]. right. by left.
  - cbv zeta.
    destruct (Py.leb _ _) eqn:Hguard; response_fields.
    { rewrite Htr. by eexists. }
    split; [done|]. split; [done|]. right. right.
    unfold transcript_info_of. cbn [info_start info_end info_error info_segments].
    split; [by rewrite (Qmax_left _ _ Hofw)|]. split; [done|]. split; [done|].
    destruct cluster as [|c cs]; [done|]. split; [done|].
    simpl in Hmax. injection Hmax as Hmax.
    destruct (max_of_bounds (map lastWordEnd cs) (lastWordEnd c)) as [Hb1 Hb2].
    rewrite Hmax in Hb1, Hb2. split.
    + apply Forall_fmap. constructor; [by repeat split|].
      apply Forall_forall. intros seg Hseg. simpl.
      split; [done|]. split; [done|].
      rewrite Forall_forall in Hb2. apply Hb2. apply list_elem_of_fmap. by exists seg.
    + pose proof (max_of_attained (map lastWordEnd cs) (lastWordEnd c)) as Hat.
      rewrite Hmax in Hat.
      change (lastWordEnd c :: map lastWordEnd cs) with (map lastWordEnd (c :: cs)) in Hat.
      apply list_elem_of_fmap in Hat as (seg & Hend & Hseg).
      exists (echo_segment seg). split; [|done].
      apply list_elem_of_fmap. by exists seg.
Qed.

(** ** The endpoint with and without the refinement *)

Lemma clear_transcript_id (r : Response) : transcript r = None -> clear_transcript r = r.
Proof. destruct r. simpl. by intros ->. Qed.

(** The refinement of src/partial.py builds on the response of the version
    without it (src/transcription_tmp.py), for the same request and
    recording.  When that version reports no speech, the refinement is not
    reached and the two responses are the same, whatever Whisper returns:
    a transcript alone never makes the endpoint report speech.  When it
    reports speech, a transcript without spoken words adds only the
    annotation under [error], and a failing Whisper adds only its message
    under [transcript]. *)
Theorem refinement_needs_energy_detection
    (rms : list Byte.byte -> Q) (request : TrimDeadspaceRequest) (wf : Wav)
    (whisper : Transcription) :
  let base := trim_deadspace_tmp rms request wf in
  let result := trim_deadspace rms request wf whisper in
  (speechDetected base = false -> result = base)
  /\ (speechDetected result = true -> speechDetected base = true)
  /\ (speechDetected base = true ->
      (forall segments : list RawSegment,
          whisper = WhisperSegments segments -> filter_segments segments = [] ->
          result = with_error base "Transcript contained no spoken words.")
      /\ (forall msg : string,
            whisper = WhisperRaises msg ->
            result = set_transcript base
                       {| info_start := None; info_end := None; info_segments := [];
                          info_error := Some msg |}))
  /\ transcript base = None.
Proof.
  cbv zeta. unfold trim_deadspace_tmp.
  destruct (energy_stage_exits rms request wf)
    as [(_ & E) | [(_ & msg & _ & E) | (_ & s & r & E)]]; cbv zeta in E.
  { unfold trim_deadspace. rewrite E. response_fields. by repeat split. }
  { unfold trim_deadspace. rewrite E. response_fields. by repeat split. }
  rewrite E. rewrite (trim_deadspace_after_energy _ _ _ _ _ _ E).
  destruct (energy_stage_keeps _ _ _ _ _ E) as (Hdet & _ & Htr & _).
  rewrite (clear_transcript_id r Htr).
  split; [by rewrite Hdet|]. split; [done|]. split; [|done].
  intros _. split.
  - intros segments -> Hnil. unfold refinement, refine_body. by rewrite Hnil.
  - intros msg ->. reflexivity.
Qed.

(** ** What a call returns (src/partial.py, lines 279-332 and 646-708) *)





(** The call whose refinement takes the transcript window returns nothing:
    on the 1.8 s recording with the transcript that ends at 2.0 s, the body
    of the refinement [try] completes and the call gives [None]. *)
Lemma accepted_window_is_not_returned :
  trim_deadspace_call rms_flat demo_request (Opened burst_wav)
    (WhisperSegments [plain_segment "hi" 0.3 0.4 0.1;
                      plain_segment "there" 0.5 2.0 0.1])
  = ReturnsNone.
Proof. vm_compute. reflexivity. Qed.



